(** * Doc Creator: the backend services, embedded and verified

    The development follows the JavaScript services of the repository:

    - [backend/services/exportService.js] (module [ExportService]):
      the Markdown to DOCX walk and the "pdf" export;
    - [backend/services/githubService.js], class [GitHubService] (module
      [GitHubService]): URL parsing, the upstream requests and the
      file-list analysis;
    - the class [OpenRouterService] that follows it in the same source file
      (module [OpenRouterService]): the prompt builder, the generation
      request and the model listing;
    - the single-file server that follows the README text, which carries
      classes of the same two names of its own (module [InlineServer]):
      its choice of the model, its request, its model listing and the
      messages of its failures.

    JavaScript strings are modelled by [string]: a sequence of characters
    whose code units are below 256.  [trim] and [toLowerCase] are the
    restrictions of the JavaScript functions to that range.  So is
    [Js.toUpperCase] on the strings whose upper-case form stays in the
    range, the sharp s (223), which becomes two letters, included; the
    upper-case forms of the characters 181 and 255 are code units above
    255, which a [string] cannot hold, and the function, used for the
    first letter of a framework name only, keeps these two as they are.
    Where the program upper-cases a text it was given (the format of a
    prompt), [toUpperCase] is a parameter. *)

From Stdlib Require Import String Ascii ZArith Lia List Bool Arith.
From Stdlib Require Import Numbers.DecimalString QArith.QArith_base.
From Stdlib Require Import Sorting.Sorted Sorting.Permutation.
From Stdlib Require Import Numbers.DecimalNat.
From stdpp Require Import base gmap strings list.
Import ListNotations.

(** String concatenation unfolds on a literal prefix, and the comparison of
    characters on two literals. *)
#[global] Arguments String.append !s1 s2 : simpl nomatch.
#[global] Arguments Ascii.eqb !a !b : simpl nomatch.

(** ** JavaScript string primitives *)

Module Js.

Definition LF : ascii := ascii_of_nat 10.
Definition nl : string := String LF "".

(** A double quote, for the literals that contain one. *)
Definition dq : string := String (ascii_of_nat 34) "".

(** [s.startsWith(p)] *)
Fixpoint startsWith (s p : string) {struct p} : bool :=
  match p with
  | "" => true
  | String a p' =>
      match s with
      | "" => false
      | String b s' => Ascii.eqb a b && startsWith s' p'
      end
  end.

(** [s.substring(n)], also [s.slice(n)] for a non-negative [n] *)
Fixpoint substring (s : string) (n : nat) {struct n} : string :=
  match n with
  | O => s
  | S n' => match s with "" => "" | String _ s' => substring s' n' end
  end.

(** White space removed by [trim], among the code units below 256:
    TAB, LF, VT, FF, CR, SPACE and NBSP. *)
Definition isWhiteSpace (c : ascii) : bool :=
  let n := nat_of_ascii c in
  ((9 <=? n) && (n <=? 13)) || (n =? 32) || (n =? 160).

Fixpoint trimStart (s : string) : string :=
  match s with
  | "" => ""
  | String c s' => if isWhiteSpace c then trimStart s' else s
  end.

Fixpoint trimEnd (s : string) : string :=
  match s with
  | "" => ""
  | String c s' =>
      match trimEnd s' with
      | "" => if isWhiteSpace c then "" else String c ""
      | t => String c t
      end
  end.

Definition trim (s : string) : string := trimEnd (trimStart s).

(** [hay.includes(needle)] *)
Fixpoint includes (hay needle : string) : bool :=
  startsWith hay needle ||
  match hay with
  | "" => false
  | String _ hay' => includes hay' needle
  end.

(** [s.split(sep)] for a one-character separator: never the empty list. *)
Fixpoint split (sep : ascii) (s : string) : list string :=
  match s with
  | "" => [""]
  | String c s' =>
      if Ascii.eqb c sep then "" :: split sep s'
      else match split sep s' with
           | h :: t => String c h :: t
           | [] => [String c ""]
           end
  end.

(** [parts.join(sep)] *)
Definition join (sep : string) (parts : list string) : string :=
  String.concat sep parts.

Definition lowerChar (c : ascii) : ascii :=
  let n := nat_of_ascii c in
  if ((65 <=? n) && (n <=? 90)) ||
     ((192 <=? n) && (n <=? 222) && negb (n =? 215))
  then ascii_of_nat (n + 32) else c.

Definition upperChar (c : ascii) : ascii :=
  let n := nat_of_ascii c in
  if ((97 <=? n) && (n <=? 122)) ||
     ((224 <=? n) && (n <=? 254) && negb (n =? 247))
  then ascii_of_nat (n - 32) else c.

Fixpoint toLowerCase (s : string) : string :=
  match s with
  | "" => ""
  | String c s' => String (lowerChar c) (toLowerCase s')
  end.

Fixpoint toUpperCase (s : string) : string :=
  match s with
  | "" => ""
  | String c s' =>
      if nat_of_ascii c =? 223 then String "S" (String "S" (toUpperCase s'))
      else String (upperChar c) (toUpperCase s')
  end.

(** [s.charAt(0)] *)
Definition charAt0 (s : string) : string :=
  match s with "" => "" | String c _ => String c "" end.

(** [s.replace(pat, by)] for a string pattern: the first occurrence only. *)
Fixpoint replace (s pat by_ : string) : string :=
  if startsWith s pat then by_ +:+ substring s (String.length pat)
  else match s with
       | "" => ""
       | String c s' => String c (replace s' pat by_)
       end.

(** Truthiness of a string: the empty string is falsy. *)
Definition truthy (s : string) : bool :=
  match s with "" => false | _ => true end.

(** The character [c] does not occur in [s]. *)
Definition noChar (c : ascii) (s : string) : Prop :=
  forall a b, s <> a +:+ String c b.

(** A string of white space only (the empty string is one). *)
Fixpoint allWhiteSpace (s : string) : bool :=
  match s with
  | "" => true
  | String c s' => isWhiteSpace c && allWhiteSpace s'
  end.

(** [s] ends with [suffix]. *)
Definition endsWith (s suffix : string) : Prop :=
  exists stem, s = stem +:+ suffix.

(** [arr.includes(x)] on an array of strings *)
Definition arrayIncludes (arr : list string) (x : string) : bool :=
  existsb (String.eqb x) arr.

(** The decimal rendering of a non-negative integer in a template. *)
Definition natToString (n : nat) : string :=
  match n with
  | O => "0"
  | _ => NilEmpty.string_of_uint (Nat.to_uint n)
  end.

(** [arr.sort(cmp)]: the sort is stable; [cmp a b <= 0] keeps [a] before
    [b].  Written as an insertion sort that runs from the right. *)
Fixpoint insertSorted {A : Type} (cmp : A -> A -> Z) (x : A) (l : list A)
  : list A :=
  match l with
  | [] => [x]
  | y :: l' =>
      if (cmp x y <=? 0)%Z then x :: l else y :: insertSorted cmp x l'
  end.

Definition sort {A : Type} (cmp : A -> A -> Z) (l : list A) : list A :=
  fold_right (insertSorted cmp) [] l.

(** The outcome of a call that may [throw new Error(message)]. *)
Inductive result (A : Type) : Type :=
| Ok (value : A)
| Throw (message : string).
Arguments Ok {A} value.
Arguments Throw {A} message.

(** What [await axios.get(...)] / [axios.post(...)] observes: the data of a
    2xx response, or a rejection.  A rejection carries [error.message],
    the HTTP status when a response arrived ([error.response?.status]),
    the vendor's error object when the body holds one
    ([error.response?.data?.error]) and [error.code]. *)
Record VendorError : Type := mkVendorError {
  vendor_code : option Z;
  vendor_message : option string
}.

Record Rejection : Type := mkRejection {
  error_message : string;
  status : option nat;
  vendor_error : option VendorError;
  error_code : option string
}.

Inductive response (A : Type) : Type :=
| Resolved (data : A)
| Rejected (error : Rejection).
Arguments Resolved {A} data.
Arguments Rejected {A} error.

End Js.

(** ** Node's [path] module (POSIX flavour), as far as the services use it *)

Module NodePath.

Definition slash : ascii := ascii_of_nat 47.
Definition dot : ascii := ascii_of_nat 46.

(** The path without the slashes that end it. *)
Fixpoint stripTrailingSlashes (p : string) : string :=
  match p with
  | "" => ""
  | String c p' =>
      match stripTrailingSlashes p' with
      | "" => if Ascii.eqb c slash then "" else String c ""
      | t => String c t
      end
  end.

(** The part after the last slash. *)
Fixpoint lastSegment (p : string) : string :=
  match p with
  | "" => ""
  | String c p' =>
      if Js.includes p' (String slash "") then lastSegment p'
      else if Ascii.eqb c slash then p' else p
  end.

(** The suffix that starts at the last dot, when there is a dot. *)
Fixpoint fromLastDot (s : string) : option string :=
  match s with
  | "" => None
  | String c s' =>
      match fromLastDot s' with
      | Some e => Some e
      | None => if Ascii.eqb c dot then Some s else None
      end
  end.

(** [path.extname(p)]: the extension of the last path component, from its
    last dot on; empty when that component has no dot, starts with its
    only dot, or is [..]. *)
Definition extname (p : string) : string :=
  let base := lastSegment (stripTrailingSlashes p) in
  match fromLastDot base with
  | None => ""
  | Some e =>
      if (String.length e =? String.length base) || String.eqb base ".."
      then "" else e
  end.

(** [normalizeString]: the components of a path with the empty ones and
    [.] dropped and [..] resolved against the component before it. *)
Definition pushSegment (allowAboveRoot : bool) (stack : list string)
  (seg : string) : list string :=
  if String.eqb seg "" || String.eqb seg "." then stack
  else if String.eqb seg ".." then
    match rev stack with
    | top :: below =>
        if String.eqb top ".." then
          (if allowAboveRoot then stack ++ [".."] else stack)
        else rev below
    | [] => if allowAboveRoot then [".."] else []
    end
  else stack ++ [seg].

Definition normalizeSegments (allowAboveRoot : bool) (segs : list string)
  : list string :=
  fold_left (pushSegment allowAboveRoot) segs [].

Definition endsWithSlash (p : string) : bool :=
  match String.length p - String.length (stripTrailingSlashes p) with
  | O => false
  | _ => true
  end.

(** [path.normalize(p)] *)
Definition normalize (p : string) : string :=
  match p with
  | "" => "."
  | String c _ =>
      let isAbsolute := Ascii.eqb c slash in
      let trailingSeparator := endsWithSlash p in
      let body :=
        Js.join "/" (normalizeSegments (negb isAbsolute) (Js.split slash p)) in
      match body with
      | "" => if isAbsolute then "/"
              else if trailingSeparator then "./" else "."
      | _ =>
          let body' := if trailingSeparator then body +:+ "/" else body in
          if isAbsolute then "/" +:+ body' else body'
      end
  end.

(** [path.join(a, b)]: the non-empty arguments joined by a slash, then
    normalized. *)
Definition join (a b : string) : string :=
  let joined :=
    match a, b with
    | "", _ => b
    | _, "" => a
    | _, _ => a +:+ "/" +:+ b
    end in
  normalize joined.

End NodePath.

(** ** The export service ([backend/services/exportService.js]) *)

Module ExportService.

(** *** The [docx] objects the renderer builds *)

Inductive HeadingLevel : Type :=
| HEADING_1 | HEADING_2 | HEADING_3 | HEADING_4 | HEADING_5 | HEADING_6.

(** [spacing: { before, after }]; a key that is not given is [None]. *)
Record Spacing : Type := mkSpacing {
  before : option Z;
  after : option Z
}.

(** [new TextRun({ text, font, size })] *)
Record TextRun : Type := mkTextRun {
  run_text : string;
  run_font : string;
  run_size : Z
}.

(** [new Paragraph({ text, heading, spacing, indent, children })];
    an option that is not given is [None] (or [[]] for [children]). *)
Record Paragraph : Type := mkParagraph {
  text : option string;
  heading : option HeadingLevel;
  spacing : Spacing;
  indent_left : option Z;
  runs : list TextRun
}.

(** [new Document({ sections: [{ properties: {}, children }] })] *)
Record DocSection : Type := mkSection { children : list Paragraph }.
Record Document : Type := mkDocument { sections : list DocSection }.

(** The paragraph pushed when a fence closes. *)
Definition codeParagraph (codeBlockContent : list string) : Paragraph :=
  {| text := None; heading := None;
     spacing := mkSpacing (Some 200%Z) (Some 200%Z);
     indent_left := None;
     runs := [ {| run_text := Js.join Js.nl codeBlockContent;
                  run_font := "Courier New";
                  run_size := 20 |} ] |}.

Definition headingParagraph (lvl : HeadingLevel) (bef : Z) (t : string)
  : Paragraph :=
  {| text := Some t; heading := Some lvl;
     spacing := mkSpacing (Some bef) (Some 200%Z);
     indent_left := None; runs := [] |}.

Definition quoteParagraph (t : string) : Paragraph :=
  {| text := Some t; heading := None;
     spacing := mkSpacing (Some 200%Z) (Some 200%Z);
     indent_left := Some 720%Z; runs := [] |}.

Definition emptyParagraph : Paragraph :=
  {| text := None; heading := None;
     spacing := mkSpacing (Some 200%Z) None;
     indent_left := None; runs := [] |}.

Definition plainParagraph (t : string) : Paragraph :=
  {| text := Some t; heading := None;
     spacing := mkSpacing (Some 200%Z) (Some 200%Z);
     indent_left := None; runs := [] |}.

(** *** [markdownToDOCX] *)

(** The [if / else if] chain of the loop body, reached for a line that is
    neither a fence nor inside one. *)
Definition lineParagraph (line : string) : Paragraph :=
  if Js.startsWith line "# " then
    headingParagraph HEADING_1 400 (Js.substring line 2)
  else if Js.startsWith line "## " then
    headingParagraph HEADING_2 300 (Js.substring line 3)
  else if Js.startsWith line "### " then
    headingParagraph HEADING_3 200 (Js.substring line 4)
  else if Js.startsWith line "#### " then
    headingParagraph HEADING_4 200 (Js.substring line 5)
  else if Js.startsWith line "##### " then
    headingParagraph HEADING_5 200 (Js.substring line 6)
  else if Js.startsWith line "###### " then
    headingParagraph HEADING_6 200 (Js.substring line 7)
  else if Js.startsWith line "> " then
    quoteParagraph (Js.substring line 2)
  else if String.eqb (Js.trim line) "" then
    emptyParagraph
  else
    plainParagraph line.

(** The variables of the loop: [children], [inCodeBlock],
    [codeBlockContent]. *)
Record LoopState : Type := mkLoop {
  st_children : list Paragraph;
  inCodeBlock : bool;
  codeBlockContent : list string
}.

Definition initial : LoopState := mkLoop [] false [].

Definition isFence (line : string) : bool := Js.startsWith line "```".

(** One iteration of [for (let i = 0; i < lines.length; i++)]. *)
Definition step (st : LoopState) (line : string) : LoopState :=
  if isFence line then
    if inCodeBlock st then
      mkLoop (st_children st ++ [codeParagraph (codeBlockContent st)])
             false []
    else
      mkLoop (st_children st) true (codeBlockContent st)
  else if inCodeBlock st then
    mkLoop (st_children st) true (codeBlockContent st ++ [line])
  else
    mkLoop (st_children st ++ [lineParagraph line])
           false (codeBlockContent st).

Definition run (st : LoopState) (lines : list string) : LoopState :=
  fold_left step lines st.

(** The [children] array after the loop over [lines]. *)
Definition renderLines (lines : list string) : list Paragraph :=
  st_children (run initial lines).

Definition markdownToDOCX (markdown : string) : Document :=
  let lines := Js.split Js.LF markdown in
  mkDocument [ mkSection (renderLines lines) ].

(** The paragraphs of the one section of a document. *)
Definition paragraphs (d : Document) : list Paragraph :=
  match sections d with
  | s :: _ => children s
  | [] => []
  end.

(** The markers the [if / else if] chain tests, and the lines that match
    none of them and are not blank: the "other" lines. *)
Definition markers : list string :=
  [ "# "; "## "; "### "; "#### "; "##### "; "###### "; "> " ].


(** The number of lines that start with three backticks. *)
Definition countFences (lines : list string) : nat :=
  length (List.filter isFence lines).

(** *** The files written by an export *)

(** [{ format, url, filePath, size, note }]; [note] is given by the pdf
    export only. *)
Record ExportDescriptor : Type := mkExportDescriptor {
  format : string;
  url : string;
  filePath : string;
  size : nat;
  note : option string
}.

(** The number of bytes of the UTF-8 encoding: one for a code unit below
    128, two for the others below 256. *)
Fixpoint utf8Length (s : string) : nat :=
  match s with
  | "" => 0
  | String c s' => (if nat_of_ascii c <? 128 then 1 else 2) + utf8Length s'
  end.

(** The text of the template before and after [${html}]. *)
Definition htmlHead : string :=
  "
      <!DOCTYPE html>
      <html>
      <head>
        <meta charset=" +:+ Js.dq +:+ "UTF-8" +:+ Js.dq +:+ ">
        <title>Documentation</title>
        <style>
          body {
            font-family: -apple-system, BlinkMacSystemFont, 'Segoe UI', Roboto, sans-serif;
            line-height: 1.6;
            color: #333;
            max-width: 800px;
            margin: 0 auto;
            padding: 20px;
          }
          h1, h2, h3, h4, h5, h6 {
            color: #2c3e50;
            margin-top: 1.5em;
            margin-bottom: 0.5em;
          }
          h1 { font-size: 2em; border-bottom: 2px solid #eee; padding-bottom: 0.3em; }
          h2 { font-size: 1.5em; border-bottom: 1px solid #eee; padding-bottom: 0.3em; }
          h3 { font-size: 1.25em; }
          code {
            background-color: #f6f8fa;
            padding: 0.2em 0.4em;
            border-radius: 3px;
            font-family: 'SFMono-Regular', Consolas, 'Liberation Mono', Menlo, monospace;
            font-size: 0.9em;
          }
          pre {
            background-color: #f6f8fa;
            padding: 16px;
            border-radius: 6px;
            overflow-x: auto;
          }
          pre code {
            background-color: transparent;
            padding: 0;
          }
          blockquote {
            border-left: 4px solid #ddd;
            margin: 0;
            padding-left: 1em;
            color: #666;
          }
          table {
            border-collapse: collapse;
            width: 100%;
            margin: 1em 0;
          }
          th, td {
            border: 1px solid #ddd;
            padding: 8px 12px;
            text-align: left;
          }
          th {
            background-color: #f6f8fa;
            font-weight: 600;
          }
          img {
            max-width: 100%;
            height: auto;
          }
          a {
            color: #0366d6;
            text-decoration: none;
          }
          a:hover {
            text-decoration: underline;
          }
        </style>
      </head>
      <body>
        ".

Definition htmlTail : string :=
  "
      </body>
      </html>
    ".

Section Exports.

(** [this.uploadDir] *)
Variable uploadDir : string.

(** [marked(markdown)], with the options [markdownToHTML] sets. *)
Variable marked : string -> string.

(** Whether [fs.writeFile] succeeds for a path. *)
Variable canWrite : string -> bool.

(** The upload directory: the text stored under each path. *)
Definition Disk : Type := gmap string string.

(** [await fs.writeFile(path, data, 'utf8')]; [None] when it rejects. *)
Definition writeFile (disk : Disk) (path data : string) : option Disk :=
  if canWrite path then Some (<[ path := data ]> disk) else None.

(** [fs.statSync(path).size]; [None] when it throws. *)
Definition statSize (disk : Disk) (path : string) : option nat :=
  match disk !! path with
  | Some data => Some (utf8Length data)
  | None => None
  end.

Definition markdownToHTML (markdown : string) : string :=
  let html := marked markdown in
  htmlHead +:+ html +:+ htmlTail.

(** Each export returns its outcome and the directory it leaves. *)
Definition exportToMarkdown (disk : Disk) (content filename : string)
  : Js.result ExportDescriptor * Disk :=
  let filePath := NodePath.join uploadDir (filename +:+ ".md") in
  match writeFile disk filePath content with
  | None => (Js.Throw "Failed to export to Markdown", disk)
  | Some disk' =>
      match statSize disk' filePath with
      | None => (Js.Throw "Failed to export to Markdown", disk')
      | Some n =>
          (Js.Ok {| format := "markdown";
                    url := "/uploads/" +:+ filename +:+ ".md";
                    filePath := filePath;
                    size := n;
                    note := None |}, disk')
      end
  end.

Definition exportToPDF (disk : Disk) (content filename : string)
  : Js.result ExportDescriptor * Disk :=
  let htmlContent := markdownToHTML content in
  let htmlPath := NodePath.join uploadDir (filename +:+ ".html") in
  match writeFile disk htmlPath htmlContent with
  | None => (Js.Throw "Failed to export to PDF", disk)
  | Some disk' =>
      match statSize disk' htmlPath with
      | None => (Js.Throw "Failed to export to PDF", disk')
      | Some n =>
          (Js.Ok {| format := "pdf";
                    url := "/uploads/" +:+ filename +:+ ".html";
                    filePath := htmlPath;
                    size := n;
                    note := Some "HTML file generated. Use browser print to PDF or a PDF service." |},
           disk')
      end
  end.

End Exports.

End ExportService.

(** ** The GitHub service ([backend/services/githubService.js]) *)

Module GitHubService.

(** *** [parseGitHubUrl] *)

Record ParsedUrl : Type := mkParsedUrl {
  owner : string;
  repo : string;
  branch : string
}.

(** [[^\/]+], greedy: the longest run of characters other than a slash,
    and what follows it. *)
Fixpoint spanNotSlash (s : string) : string * string :=
  match s with
  | "" => ("", "")
  | String c s' =>
      if Ascii.eqb c NodePath.slash then ("", s)
      else let (run, rest) := spanNotSlash s' in (String c run, rest)
  end.

(** [s] with the prefix [p] removed, when [s] starts with [p]. *)
Definition stripPrefix (p s : string) : option string :=
  if Js.startsWith s p then Some (Js.substring s (String.length p))
  else None.

(** The groups of a match: [match[1]], [match[2]] and [match[3]]
    ([None] when the optional group did not take part). *)
Record UrlMatch : Type := mkUrlMatch {
  group1 : string;
  group2 : string;
  group3 : option string
}.

(** The optional group [(?:\/tree\/([^\/]+))?] at the head of [s]. *)
Definition treeGroup (s : string) : option string :=
  match stripPrefix "/tree/" s with
  | Some r =>
      match fst (spanNotSlash r) with
      | "" => None
      | b => Some b
      end
  | None => None
  end.

(** The pattern [github\.com\/([^\/]+)\/([^\/]+)(?:\/tree\/([^\/]+))?]
    matched at the head of [s].  A run of [[^\/]+] that is followed by a
    slash in the pattern can only end where the run of non-slashes ends,
    and the second run is followed by an optional group only, so the
    greedy choice is the longest run in both places. *)
Definition matchHere (s : string) : option UrlMatch :=
  match stripPrefix "github.com/" s with
  | None => None
  | Some r1 =>
      match spanNotSlash r1 with
      | ("", _) => None
      | (_, "") => None
      | (g1, String c r2) =>
          if Ascii.eqb c NodePath.slash then
            match spanNotSlash r2 with
            | ("", _) => None
            | (g2, r3) => Some (mkUrlMatch g1 g2 (treeGroup r3))
            end
          else None
      end
  end.

(** [url.match(re)]: the match at the leftmost position that has one. *)
Fixpoint urlMatch (url : string) : option UrlMatch :=
  match matchHere url with
  | Some m => Some m
  | None =>
      match url with
      | "" => None
      | String _ url' => urlMatch url'
      end
  end.

Definition parseGitHubUrl (url : string) : Js.result ParsedUrl :=
  match urlMatch url with
  | None => Js.Throw "Invalid GitHub URL format"
  | Some m =>
      Js.Ok {| owner := group1 m;
               repo := Js.replace (group2 m) ".git" "";
               branch := match group3 m with
                         | Some b => if Js.truthy b then b else "main"
                         | None => "main"
                         end |}
  end.

(** [s] holds no slash. *)
Definition noSlash (s : string) : Prop := Js.noChar NodePath.slash s.

(** [rest] is empty or starts with a slash. *)
Definition atBoundary (rest : string) : Prop :=
  rest = "" \/ exists rest', rest = String NodePath.slash rest'.

(** The pattern, read as a set of strings: somewhere in the text stands
    [github.com/], a non-empty owner without a slash, a slash and a
    non-empty repository name without a slash. *)
Definition MatchesPattern (url : string) : Prop :=
  exists before o r after,
    url = before +:+ "github.com/" +:+ o +:+ "/" +:+ r +:+ after
    /\ o <> "" /\ r <> "" /\ noSlash o /\ noSlash r.

(** What follows the repository name holds the segment [/tree/b]. *)
Definition TreeSegment (after b : string) : Prop :=
  exists rest,
    after = "/tree/" +:+ b +:+ rest
    /\ b <> "" /\ noSlash b /\ atBoundary rest.

(** *** [detectLanguage] *)

(** What a property read on the [languageMap] literal can yield: one of
    its own entries, or, for the two lower-case names every object
    inherits, the inherited value. *)
Inductive LanguageValue : Type :=
| LanguageName (name : string)
| InheritedConstructor
| InheritedProto.

Definition languageMap : list (string * string) :=
  [ ("js", "JavaScript"); ("ts", "TypeScript"); ("jsx", "React JSX");
    ("tsx", "React TSX"); ("py", "Python"); ("java", "Java");
    ("cpp", "C++"); ("c", "C"); ("cs", "C#"); ("php", "PHP");
    ("rb", "Ruby"); ("go", "Go"); ("rs", "Rust"); ("swift", "Swift");
    ("kt", "Kotlin"); ("scala", "Scala"); ("html", "HTML"); ("css", "CSS");
    ("scss", "SCSS"); ("sass", "Sass"); ("json", "JSON"); ("xml", "XML");
    ("yaml", "YAML"); ("yml", "YAML"); ("md", "Markdown"); ("txt", "Text");
    ("sql", "SQL"); ("sh", "Shell"); ("bash", "Bash") ].

Fixpoint assoc {A : Type} (key : string) (table : list (string * A))
  : option A :=
  match table with
  | [] => None
  | (k, v) :: table' => if String.eqb k key then Some v else assoc key table'
  end.

(** [table[ext] || 'Unknown'] *)
Definition lookupLanguage (table : list (string * string)) (ext : string)
  : LanguageValue :=
  match assoc ext table with
  | Some l => LanguageName l
  | None =>
      if String.eqb ext "constructor" then InheritedConstructor
      else if String.eqb ext "__proto__" then InheritedProto
      else LanguageName "Unknown"
  end.

(** [filename.split('.').pop()] *)
Definition lastDotPart (filename : string) : string :=
  List.last (Js.split NodePath.dot filename) "".

Definition detectLanguage (filename : string) : LanguageValue :=
  let ext := Js.toLowerCase (lastDotPart filename) in
  lookupLanguage languageMap ext.

(** *** The upstream requests *)

(** [response.data] of [GET /repos/:owner/:repo], as far as it is read. *)
Record RepoData : Type := mkRepoData {
  data_name : string;
  data_description : option string;
  data_language : option string;
  data_stargazers_count : Z;
  data_forks_count : Z;
  data_size : Z;
  data_default_branch : string;
  data_topics : option (list string);
  data_homepage : option string;
  data_license_name : option string
}.

(** What [getRepoInfo] returns. *)
Record RepoInfo : Type := mkRepoInfo {
  info_name : string;
  info_description : option string;
  info_language : option string;
  info_stars : Z;
  info_forks : Z;
  info_size : Z;
  info_defaultBranch : string;
  info_topics : list string;
  info_homepage : option string;
  info_license : option string
}.

(** An entry of [response.data.tree]. *)
Record TreeItem : Type := mkTreeItem {
  item_type : string;
  item_path : string;
  item_size : option Z;
  item_sha : string;
  item_url : string
}.

(** An entry of the file list. *)
Record File : Type := mkFile {
  name : string;
  size : option Z;
  sha : string;
  url : string;
  file_language : LanguageValue
}.

(** A parsed JSON text.  Of the numbers those with an integer value are
    kept: [JNumber z] is the double whose value is [z]. *)
#[warnings="-register-all"]
Inductive Json : Type :=
| JNull
| JBool (b : bool)
| JNumber (z : Z)
| JString (s : string)
| JArray (items : list Json)
| JObject (fields : list (string * Json)).

(** The upstream host, seen from the service: what each request yields.
    For the two content requests the data is the text that
    [Buffer.from(content, 'base64').toString('utf-8')] decodes. *)
Record Upstream : Type := mkUpstream {
  getRepo : string -> string -> Js.response RepoData;
  getTree : string -> string -> string -> Js.response (option (list TreeItem));
  getReadme : string -> string -> Js.response string;
  getPackage : string -> string -> string -> Js.response string
}.

(** *** [analyzeRepository] *)

(** The [analysis] object. *)
Record Analysis : Type := mkAnalysis {
  language : string;
  framework : string;
  fileCount : nat;
  totalLines : nat;
  fileTypes : gmap string nat;
  hasTests : bool;
  hasDocs : bool;
  hasDocker : bool;
  hasCI : bool
}.

(** [frameworkIndicators], in the order of the literal, which is the order
    [Object.entries] walks it in. *)
Definition frameworkIndicators : list (string * list string) :=
  [ ("react", ["package.json"; "jsx"; "tsx"]);
    ("vue", ["vue.config.js"; ".vue"]);
    ("angular", ["angular.json"; "ng-"]);
    ("express", ["express"; "app.js"; "server.js"]);
    ("django", ["manage.py"; "settings.py"]);
    ("flask", ["app.py"; "flask"]);
    ("spring", ["pom.xml"; "build.gradle"]);
    ("laravel", ["artisan"; "composer.json"]);
    ("rails", ["Gemfile"; "config.ru"]);
    ("next", ["next.config.js"]);
    ("nuxt", ["nuxt.config.js"]);
    ("gatsby", ["gatsby-config.js"]);
    ("svelte", ["svelte.config.js"]);
    ("astro", ["astro.config.mjs"]) ].

(** The [if / else if] chain over the extension: the language a file
    counts for, if any. *)
Definition languageOfExt (ext : string) : option string :=
  if Js.arrayIncludes [".js"; ".jsx"; ".ts"; ".tsx"] ext then Some "JavaScript"
  else if Js.arrayIncludes [".py"] ext then Some "Python"
  else if Js.arrayIncludes [".java"] ext then Some "Java"
  else if Js.arrayIncludes [".cpp"; ".c"; ".h"; ".hpp"] ext then Some "C++"
  else if Js.arrayIncludes [".php"] ext then Some "PHP"
  else if Js.arrayIncludes [".rb"] ext then Some "Ruby"
  else if Js.arrayIncludes [".go"] ext then Some "Go"
  else if Js.arrayIncludes [".rs"] ext then Some "Rust"
  else if Js.arrayIncludes [".swift"] ext then Some "Swift"
  else if Js.arrayIncludes [".kt"] ext then Some "Kotlin"
  else if Js.arrayIncludes [".scala"] ext then Some "Scala"
  else None.

(** [languageCounts]: an object whose keys keep the order in which they
    were first written.  [counts[key] = (counts[key] || 0) + 1]. *)
Fixpoint increment (key : string) (counts : list (string * nat))
  : list (string * nat) :=
  match counts with
  | [] => [(key, 1)]
  | (k, n) :: counts' =>
      if String.eqb k key then (k, S n) :: counts'
      else (k, n) :: increment key counts'
  end.

(** [indicators.some(indicator => fileName.includes(indicator))] *)
Definition someIncluded (fileName : string) (indicators : list string)
  : bool :=
  existsb (fun indicator => Js.includes fileName indicator) indicators.

(** [framework.charAt(0).toUpperCase() + framework.slice(1)] *)
Definition capitalize (framework : string) : string :=
  Js.toUpperCase (Js.charAt0 framework) +:+ Js.substring framework 1.

(** The inner [for ... of Object.entries(frameworkIndicators)] with its
    [break]: the framework the loop assigns for this file name, if any. *)
Fixpoint frameworkFor (table : list (string * list string))
  (fileName : string) : option string :=
  match table with
  | [] => None
  | (fw, indicators) :: table' =>
      if someIncluded fileName indicators then Some (capitalize fw)
      else frameworkFor table' fileName
  end.

(** The variables the loop over the files updates. *)
Record AnalysisState : Type := mkAnalysisState {
  analysis : Analysis;
  languageCounts : list (string * nat)
}.

(** The body of [for (const file of files)]. *)
Definition analyzeFile (st : AnalysisState) (file : File) : AnalysisState :=
  let a := analysis st in
  let ext := Js.toLowerCase (NodePath.extname (name file)) in
  let fileName := Js.toLowerCase (name file) in
  {| analysis :=
       {| language := language a;
          framework :=
            match frameworkFor frameworkIndicators fileName with
            | Some fw => fw
            | None => framework a
            end;
          fileCount := fileCount a;
          totalLines := totalLines a;
          fileTypes :=
            <[ ext := default 0 (fileTypes a !! ext) + 1 ]> (fileTypes a);
          hasTests :=
            if Js.includes fileName "test" || Js.includes fileName "spec"
            then true else hasTests a;
          hasDocs :=
            if Js.includes fileName "readme" || Js.includes fileName "docs"
               || Js.includes fileName "documentation"
            then true else hasDocs a;
          hasDocker :=
            if Js.includes fileName "dockerfile"
               || Js.includes fileName "docker-compose"
            then true else hasDocker a;
          hasCI :=
            if Js.includes fileName ".github/workflows"
               || Js.includes fileName ".gitlab-ci"
               || Js.includes fileName "travis"
            then true else hasCI a |};
     languageCounts :=
       match languageOfExt ext with
       | Some l => increment l (languageCounts st)
       | None => languageCounts st
       end |}.

Definition initialAnalysis (files : list File) : AnalysisState :=
  {| analysis :=
       {| language := "Unknown"; framework := "Unknown";
          fileCount := length files; totalLines := 0;
          fileTypes := ∅;
          hasTests := false; hasDocs := false;
          hasDocker := false; hasCI := false |};
     languageCounts := [] |}.

(** [Object.entries(languageCounts).sort(([,a], [,b]) => b - a)[0][0]],
    when the object has a key. *)
Definition primaryLanguage (counts : list (string * nat)) : option string :=
  match
    Js.sort (fun x y => (Z.of_nat (snd y) - Z.of_nat (snd x))%Z) counts
  with
  | (l, _) :: _ => Some l
  | [] => None
  end.

Definition analyzeRepository (owner repo : string) (files : list File)
  : Analysis :=
  let st := fold_left analyzeFile files (initialAnalysis files) in
  let a := analysis st in
  match languageCounts st with
  | [] => a
  | _ :: _ =>
      match primaryLanguage (languageCounts st) with
      | Some l =>
          {| language := l; framework := framework a;
             fileCount := fileCount a; totalLines := totalLines a;
             fileTypes := fileTypes a; hasTests := hasTests a;
             hasDocs := hasDocs a; hasDocker := hasDocker a;
             hasCI := hasCI a |}
      | None => a
      end
  end.

(** The language a file counts for, the framework the indicator table
    gives for a file, and the number of files that count for a
    language. *)
Definition fileLanguage (file : File) : option string :=
  languageOfExt (Js.toLowerCase (NodePath.extname (name file))).

Definition fileFramework (file : File) : option string :=
  frameworkFor frameworkIndicators (Js.toLowerCase (name file)).

Definition countsFor (l : string) (file : File) : bool :=
  match fileLanguage file with
  | Some l' => String.eqb l' l
  | None => false
  end.

Definition occurrences (l : string) (files : list File) : nat :=
  length (List.filter (countsFor l) files).

(** What one iteration does to [languageCounts] and to
    [analysis.framework]. *)
Definition countStep (counts : list (string * nat)) (file : File)
  : list (string * nat) :=
  match fileLanguage file with
  | Some l => increment l counts
  | None => counts
  end.

Definition frameworkStep (fw : string) (file : File) : string :=
  match fileFramework file with
  | Some fw' => fw'
  | None => fw
  end.

(** The first entry among those of greatest count. *)
Fixpoint firstMax (counts : list (string * nat)) : option (string * nat) :=
  match counts with
  | [] => None
  | x :: counts' =>
      match firstMax counts' with
      | None => Some x
      | Some h => if snd h <=? snd x then Some x else Some h
      end
  end.

(** [l] stands before [l'] in a list of keys. *)
Definition Before (l l' : string) (keys : list string) : Prop :=
  exists k1 k2, keys = k1 ++ l :: k2 /\ In l' k2.

(** The first file that counts for [l] stands before every file that
    counts for [l']. *)
Definition EncounteredBefore (l l' : string) (files : list File) : Prop :=
  exists pre file post,
    files = pre ++ file :: post
    /\ fileLanguage file = Some l
    /\ Forall (fun other => fileLanguage other <> Some l') pre.

(** The language field as the specification words it: the declared
    primary language when there is one, the computed one otherwise. *)
Definition declaredOrComputed (declared : option string)
  (computed : string) : string :=
  match declared with
  | Some l => l
  | None => computed
  end.

(** The framework as the specification words it: the first file that
    matches an indicator decides, and later files do not change it. *)
Fixpoint firstMatchingFile (files : list File) : string :=
  match files with
  | [] => "Unknown"
  | file :: files' =>
      match fileFramework file with
      | Some fw => fw
      | None => firstMatchingFile files'
      end
  end.

(** *** [getRepositoryData] *)

(** [{ ...metadata, repoName, repoOwner, branch, url }] *)
Record Metadata : Type := mkMetadata {
  meta_analysis : Analysis;
  repoName : string;
  repoOwner : string;
  meta_branch : string;
  meta_url : string
}.

(** The analyzer output. *)
Record RepositoryData : Type := mkRepositoryData {
  metadata : Metadata;
  files : list File;
  readme : option string;
  packageJson : option Json;
  repoInfo : RepoInfo
}.

Section Requests.

Variable upstream : Upstream.

(** [a.localeCompare(b)], in the locale of the process. *)
Variable localeCompare : string -> string -> Z.

(** [JSON.parse]: [None] when it throws. *)
Variable JSON_parse : string -> option Json.

Definition getRepoInfo (owner repo : string) : Js.result RepoInfo :=
  match getRepo upstream owner repo with
  | Js.Resolved d =>
      Js.Ok {| info_name := data_name d;
               info_description := data_description d;
               info_language := data_language d;
               info_stars := data_stargazers_count d;
               info_forks := data_forks_count d;
               info_size := data_size d;
               info_defaultBranch := data_default_branch d;
               info_topics := match data_topics d with
                              | Some t => t
                              | None => []
                              end;
               info_homepage := data_homepage d;
               info_license := data_license_name d |}
  | Js.Rejected _ => Js.Throw "Failed to fetch repository information"
  end.

Definition fileOfItem (item : TreeItem) : File :=
  {| name := item_path item;
     size := item_size item;
     sha := item_sha item;
     url := item_url item;
     file_language := detectLanguage (item_path item) |}.

Definition getRepoFiles (owner repo branch : string) : list File :=
  match getTree upstream owner repo branch with
  | Js.Resolved None => []
  | Js.Resolved (Some tree) =>
      Js.sort (fun a b => localeCompare (name a) (name b))
        (map fileOfItem
           (List.filter (fun item => String.eqb (item_type item) "blob")
              tree))
  | Js.Rejected _ => []
  end.

(** [null] is [None]. *)
Definition getReadmeContent (owner repo branch : string) : option string :=
  match getReadme upstream owner repo with
  | Js.Resolved content => Some content
  | Js.Rejected _ => None
  end.

(** [null] is [None]; the value [JSON.parse] returns may itself be the
    JSON [null]. *)
Definition getPackageJson (owner repo branch : string) : option Json :=
  match getPackage upstream owner repo branch with
  | Js.Resolved content => JSON_parse content
  | Js.Rejected _ => None
  end.

Definition getRepositoryData (repoUrl : string)
  : Js.result RepositoryData :=
  match parseGitHubUrl repoUrl with
  | Js.Throw message =>
      Js.Throw ("Failed to fetch repository data: " +:+ message)
  | Js.Ok parsed =>
      let owner := owner parsed in
      let repo := repo parsed in
      let branch := branch parsed in
      match getRepoInfo owner repo with
      | Js.Throw message =>
          Js.Throw ("Failed to fetch repository data: " +:+ message)
      | Js.Ok repoInfo =>
          let files := getRepoFiles owner repo branch in
          let readme := getReadmeContent owner repo branch in
          let packageJson := getPackageJson owner repo branch in
          let metadata := analyzeRepository owner repo files in
          Js.Ok {| metadata :=
                     {| meta_analysis := metadata;
                        repoName := repo;
                        repoOwner := owner;
                        meta_branch := branch;
                        meta_url := repoUrl |};
                   files := files;
                   readme := readme;
                   packageJson := packageJson;
                   repoInfo := repoInfo |}
      end
  end.

End Requests.

End GitHubService.

(** ** The generation client (class [OpenRouterService] of the services) *)

Module OpenRouterService.

Import GitHubService.

(** *** [detectLanguage] and [formatFileStructure] *)

(** The service's own [languageMap]: the one of the GitHub service and two
    more entries. *)
Definition languageMap : list (string * string) :=
  GitHubService.languageMap ++
  [ ("dockerfile", "Docker"); ("docker", "Docker") ].

Definition detectLanguage (filename : string) : LanguageValue :=
  let ext := Js.toLowerCase (lastDotPart filename) in
  lookupLanguage languageMap ext.

(** How a value read from [languageMap] prints in a template. *)
Definition languageText (v : LanguageValue) : string :=
  match v with
  | LanguageName l => l
  | InheritedConstructor => "function Object() { [native code] }"
  | InheritedProto => "[object Object]"
  end.

Definition zToString (z : Z) : string :=
  match z with
  | Z0 => "0"
  | Zpos _ => NilEmpty.string_of_uint (Nat.to_uint (Z.to_nat z))
  | Zneg _ => "-" +:+ NilEmpty.string_of_uint (Nat.to_uint (Z.to_nat (- z)))
  end.

(** The object has an own property of that name: [JSON.parse] defines
    every key of an object literal as an own property, [toString] and
    [__proto__] included. *)
Definition hasOwn (key : string) (fields : list (string * Json)) : bool :=
  existsb (fun field => String.eqb (fst field) key) fields.

(** The texts of the elements, when the conversion of each gave one. *)
Fixpoint allTexts (texts : list (option string)) : option (list string) :=
  match texts with
  | [] => Some []
  | Some t :: texts' => option_map (cons t) (allTexts texts')
  | None :: _ => None
  end.

Definition jsonTruthy (j : Json) : bool :=
  match j with
  | JNull => false
  | JBool b => b
  | JNumber z => negb (z =? 0)%Z
  | JString s => Js.truthy s
  | JArray _ | JObject _ => true
  end.

(** The [repoData] argument of the client.  It reaches the client from a
    request body, so each of the four keys the prompt builder reads may be
    missing ([None] stands for [undefined] and for [null]). *)
Record PromptInput : Type := mkPromptInput {
  in_files : option (list File);
  in_metadata : option Metadata;
  in_readme : option string;
  in_packageJson : option Json
}.

(** An analyzer output, seen as such an argument. *)
Definition ofAnalyzer (repoData : RepositoryData) : PromptInput :=
  {| in_files := Some (files repoData);
     in_metadata := Some (metadata repoData);
     in_readme := readme repoData;
     in_packageJson := packageJson repoData |}.

Section Prompt.

(** [formatFileSize(bytes)]: computed in floating point, kept abstract. *)
Variable formatFileSize : Z -> string.

(** [error.message] of a [TypeError]: the argument names what was
    [undefined] when a property of it was read, and is [primitive value]
    for an object that cannot be converted to one. *)
Variable typeErrorMessage : string -> string.

(** [String.prototype.toUpperCase], in full Unicode, kept abstract. *)
Variable toUpperCase : string -> string.

(** [Number.prototype.toString] for an integer of 2^53 or more in
    magnitude: the shortest digits that give the double back, in
    exponent form from 1e21 on; kept abstract. *)
Variable largeNumberText : Z -> string.

Definition fileLine (file : File) : string :=
  let language := detectLanguage (name file) in
  let size :=
    match size file with
    | Some bytes =>
        if (bytes =? 0)%Z then ""
        else " (" +:+ formatFileSize bytes +:+ ")"
    | None => ""
    end in
  "- " +:+ name file +:+ size +:+ " [" +:+ languageText language +:+ "]".

Definition formatFileStructure (files : option (list File)) : string :=
  match files with
  | None | Some [] => "No files available"
  | Some files =>
      let maxFiles := 50 in
      let displayFiles := firstn maxFiles files in
      Js.join Js.nl (map fileLine displayFiles)
  end.

(** *** [buildDocumentationPrompt] *)

(** [`${readme ? `README Content:\n${readme}\n` : ''}`] *)
Definition readmeSegment (readme : option string) : string :=
  match readme with
  | Some text =>
      if Js.truthy text
      then "README Content:" +:+ Js.nl +:+ text +:+ Js.nl
      else ""
  | None => ""
  end.

(** [String(number)] for a number with an integer value: all its digits
    below 2^53, where every integer is a double and is its own shortest
    form. *)
Definition numberText (z : Z) : string :=
  if (Z.abs z <? 2 ^ 53)%Z then zToString z else largeNumberText z.

(** The conversion to a string a template applies to a parsed JSON value;
    [None] when it throws a [TypeError].  An array is joined by commas,
    with [null] elements as empty texts.  An object without an own
    [toString] is converted by [Object.prototype.toString]; with an own
    [toString], which is no function, the conversion goes on to
    [valueOf], which is no function either or returns the object, and
    throws. *)
Fixpoint jsonToString (j : Json) : option string :=
  match j with
  | JNull => Some "null"
  | JBool true => Some "true"
  | JBool false => Some "false"
  | JNumber z => Some (numberText z)
  | JString s => Some s
  | JArray items =>
      option_map (Js.join ",")
        (allTexts (map (fun item => match item with
                                    | JNull => Some ""
                                    | _ => jsonToString item
                                    end) items))
  | JObject fields =>
      if hasOwn "toString" fields then None else Some "[object Object]"
  end.

(** [`${packageJson ? `Package.json:\n${packageJson}\n` : ''}`] *)
Definition packageSegment (packageJson : option Json) : Js.result string :=
  match packageJson with
  | Some j =>
      if jsonTruthy j then
        match jsonToString j with
        | Some text =>
            Js.Ok ("Package.json:" +:+ Js.nl +:+ text +:+ Js.nl)
        | None => Js.Throw (typeErrorMessage "primitive value")
        end
      else Js.Ok ""
  | None => Js.Ok ""
  end.

(** [value || 'Unknown'] *)
Definition orUnknown (value : string) : string :=
  if Js.truthy value then value else "Unknown".

(** The fixed text between the file listing and the last
    [${format.toUpperCase()}]. *)
Definition promptInstructions : string :=
  "Please create documentation that includes:

1. **Project Overview**
   - Brief description of what the project does
   - Key features and capabilities
   - Technology stack used

2. **Installation Guide**
   - Prerequisites
   - Step-by-step installation instructions
   - Environment setup

3. **Usage Guide**
   - How to run the project
   - Basic usage examples
   - Configuration options

4. **API Documentation** (if applicable)
   - Available endpoints
   - Request/response formats
   - Authentication methods

5. **Development Guide**
   - How to contribute
   - Development setup
   - Testing instructions

6. **Architecture Overview**
   - Project structure
   - Key components
   - Data flow

7. **Troubleshooting**
   - Common issues and solutions
   - Debugging tips

Please ensure the documentation is:
- Well-structured with clear headings
- Easy to follow for new developers
- Professional and comprehensive
- Include code examples where relevant
- Use proper ".

Definition promptEnd : string :=
  " formatting

Generate the complete documentation now:".

(** The text before the README segment. *)
Definition promptHeader (m : Metadata) (format style : string) : string :=
  let a := meta_analysis m in
  "Generate comprehensive " +:+ style +:+
  " documentation for this GitHub repository in " +:+
  toUpperCase format +:+ " format.

Repository Information:
- Name: " +:+ repoName m +:+ "
- Owner: " +:+ repoOwner m +:+ "
- Language: " +:+ orUnknown (language a) +:+ "
- Framework: " +:+ orUnknown (framework a) +:+ "
- Total Files: " +:+ Js.natToString (fileCount a) +:+ "
- Total Lines: " +:+ Js.natToString (totalLines a) +:+ "

".

(** The text after the manifest segment. *)
Definition promptFooter (files : option (list File)) (format : string)
  : string :=
  "

Key Files Structure:
" +:+ formatFileStructure files +:+ "

" +:+ promptInstructions +:+ toUpperCase format +:+ promptEnd.

(** The template is evaluated from left to right: [format.toUpperCase()]
    comes first, then the reads of [metadata], then the conversion of the
    manifest to a string. *)
Definition buildDocumentationPrompt (repoData : PromptInput)
  (format : option string) (style : string) : Js.result string :=
  match format with
  | None => Js.Throw (typeErrorMessage "format")
  | Some format =>
      match in_metadata repoData with
      | None => Js.Throw (typeErrorMessage "metadata")
      | Some m =>
          match packageSegment (in_packageJson repoData) with
          | Js.Throw message => Js.Throw message
          | Js.Ok segment =>
              Js.Ok (promptHeader m format style +:+
                     readmeSegment (in_readme repoData) +:+ Js.nl +:+
                     segment +:+
                     promptFooter (in_files repoData) format)
          end
      end
  end.

End Prompt.

(** *** [generateDocumentation] *)

(** The [options] object; a key that is absent is [None]. *)
Record GenerationOptions : Type := mkOptions {
  opt_model : option string;
  opt_temperature : option Q;
  opt_maxTokens : option Z;
  opt_format : option string;
  opt_style : option string
}.

Record Message : Type := mkMessage { role : string; content : string }.

(** The body of [POST /chat/completions]. *)
Record ChatRequest : Type := mkChatRequest {
  req_model : string;
  req_messages : list Message;
  req_temperature : Q;
  req_max_tokens : Z;
  req_stream : option bool
}.

Record Choice : Type := mkChoice {
  message_content : string;
  finish_reason : option string
}.

(** [response.data] of the completion request. *)
Record ChatData : Type := mkChatData {
  choices : list Choice;
  data_usage : option Json;
  data_model : option string
}.

Record GenerationResult : Type := mkGenerationResult {
  result_content : string;
  result_model : option string;
  result_usage : option Json;
  result_finishReason : option string
}.

(** An entry of the vendor's model catalog. *)
Record ModelEntry : Type := mkModelEntry {
  model_id : string;
  model_name : option string
}.

(** The vendor, seen from the client.  The catalog answer is the array
    [response.data.data]; [None] when the body holds no such array, in
    which case reading it throws inside the [try]. *)
Record Vendor : Type := mkVendor {
  postChatCompletions : ChatRequest -> Js.response ChatData;
  getModels : Js.response (option (list ModelEntry))
}.

Definition systemMessage : string :=
  "You are an expert software documentation writer. Generate clear, comprehensive, and professional documentation.".

Definition defaultModel : string := "anthropic/claude-3.5-sonnet".

Section Client.

Variable formatFileSize : Z -> string.
Variable typeErrorMessage : string -> string.
Variable toUpperCase : string -> string.
Variable largeNumberText : Z -> string.
Variable vendor : Vendor.

(** The request body [generateDocumentation] posts, for the prompt it
    has built. *)
Definition chatRequest (prompt : string) (options : GenerationOptions)
  : ChatRequest :=
  let model := default defaultModel (opt_model options) in
  let temperature := default (Qmake 3 10) (opt_temperature options) in
  let maxTokens := default 4000%Z (opt_maxTokens options) in
  {| req_model := model;
     req_messages := [ mkMessage "system" systemMessage;
                       mkMessage "user" prompt ];
     req_temperature := temperature;
     req_max_tokens := maxTokens;
     req_stream := Some false |}.

(** [error.response?.data?.error?.message || error.message] *)
Definition failureText (error : Js.Rejection) : string :=
  match Js.vendor_error error with
  | Some v =>
      match Js.vendor_message v with
      | Some m => if Js.truthy m then m else Js.error_message error
      | None => Js.error_message error
      end
  | None => Js.error_message error
  end.

(** The body of the [try] after the request, and the [catch]. *)
Definition readCompletion (request : ChatRequest)
  (response : Js.response ChatData) : Js.result GenerationResult :=
  match response with
  | Js.Resolved data =>
      match choices data with
      | choice :: _ =>
          Js.Ok {| result_content := message_content choice;
                   result_model := Some (req_model request);
                   result_usage := data_usage data;
                   result_finishReason := finish_reason choice |}
      | [] =>
          Js.Throw ("AI generation failed: " +:+
                    typeErrorMessage "choices[0]")
      end
  | Js.Rejected error =>
      Js.Throw ("AI generation failed: " +:+ failureText error)
  end.

(** The prompt is built before the [try]: what it throws is not
    caught. *)
Definition generateDocumentation (repoData : PromptInput)
  (options : GenerationOptions) : Js.result GenerationResult :=
  let format := default "markdown" (opt_format options) in
  let style := default "professional" (opt_style options) in
  match
    buildDocumentationPrompt formatFileSize typeErrorMessage
      toUpperCase largeNumberText
      repoData (Some format) style
  with
  | Js.Throw message => Js.Throw message
  | Js.Ok prompt =>
      let request := chatRequest prompt options in
      readCompletion request (postChatCompletions vendor request)
  end.

(** *** [getAvailableModels] *)

Definition isListedModel (m : ModelEntry) : bool :=
  Js.includes (model_id m) "claude"
  || Js.includes (model_id m) "gpt"
  || Js.includes (model_id m) "gemini".

Definition getAvailableModels : list ModelEntry :=
  match getModels vendor with
  | Js.Resolved (Some data) => List.filter isListedModel data
  | Js.Resolved None => []
  | Js.Rejected _ => []
  end.

End Client.

End OpenRouterService.

(** ** The single-file server

    The server carries a second [OpenRouterService] class of its own.  Its
    prompt is built by the server's own [buildDocumentationPrompt], which is
    not embedded here: the request is stated for whatever text it returns. *)

Module InlineServer.

Import OpenRouterService.

Definition reliableModels : list string :=
  [ "openai/gpt-3.5-turbo"; "google/gemini-pro";
    "anthropic/claude-3-haiku"; "meta-llama/llama-3.1-8b-instruct" ].

(** [selectedModel] after the [if] that follows its declaration. *)
Definition selectedModel (requested : option string) : string :=
  match requested with
  | Some m =>
      if Js.truthy m && Js.arrayIncludes reliableModels m then m
      else "openai/gpt-3.5-turbo"
  | None => "openai/gpt-3.5-turbo"
  end.

Definition systemMessage : string :=
  "You are an expert technical writer. Generate comprehensive documentation for software projects. Keep responses under 2000 tokens.".

(** [options.temperature || 0.3]: zero is falsy. *)
Definition temperatureOr (t : option Q) : Q :=
  match t with
  | Some q => if (Qnum q =? 0)%Z then Qmake 3 10 else q
  | None => Qmake 3 10
  end.

(** [Math.min(options.maxTokens || 800, 800)] *)
Definition maxTokensOr (n : option Z) : Z :=
  Z.min (match n with
         | Some z => if (z =? 0)%Z then 800 else z
         | None => 800
         end) 800.

Definition chatRequest (prompt : string) (options : GenerationOptions)
  : ChatRequest :=
  {| req_model := selectedModel (opt_model options);
     req_messages := [ mkMessage "system" systemMessage;
                       mkMessage "user" prompt ];
     req_temperature := temperatureOr (opt_temperature options);
     req_max_tokens := maxTokensOr (opt_maxTokens options);
     req_stream := None |}.

(** The [catch] block: the message chosen from the vendor's error code
    and [error.code]. *)
Definition failureText (error : option Js.Rejection) : string :=
  let vendorCode :=
    match error with
    | Some e =>
        match Js.vendor_error e with
        | Some v => Js.vendor_code v
        | None => None
        end
    | None => None
    end in
  let code :=
    match error with
    | Some e => Js.error_code e
    | None => None
    end in
  if bool_decide (vendorCode = Some 402%Z) then
    "Free tier limit reached. Try with a smaller repository or wait for credits to refresh."
  else if bool_decide (vendorCode = Some 408%Z)
          || bool_decide (code = Some "ECONNABORTED") then
    "Request timeout. Please try again in a moment."
  else if bool_decide (vendorCode = Some 400%Z) then
    "Invalid request. Please check your input and try again."
  else "Failed to generate documentation with AI. Please try again.".

Definition generateDocumentation (vendor : Vendor) (prompt : string)
  (options : GenerationOptions) : Js.result GenerationResult :=
  match postChatCompletions vendor (chatRequest prompt options) with
  | Js.Resolved data =>
      match choices data with
      | choice :: _ =>
          Js.Ok {| result_content := message_content choice;
                   result_model := data_model data;
                   result_usage := data_usage data;
                   result_finishReason := finish_reason choice |}
      | [] => Js.Throw (failureText None)
      end
  | Js.Rejected error => Js.Throw (failureText (Some error))
  end.

Definition isFreeTierModel (m : ModelEntry) : bool :=
  Js.includes (model_id m) "deepseek"
  || Js.includes (model_id m) "gemini"
  || Js.includes (model_id m) "llama"
  || Js.includes (model_id m) "phi"
  || Js.includes (model_id m) "mistral".

Definition fallbackModels : list ModelEntry :=
  [ mkModelEntry "openai/gpt-3.5-turbo" (Some "GPT-3.5 Turbo (Free)");
    mkModelEntry "google/gemini-pro" (Some "Gemini Pro (Free)");
    mkModelEntry "anthropic/claude-3-haiku" (Some "Claude 3 Haiku (Free)");
    mkModelEntry "meta-llama/llama-3.1-8b-instruct" (Some "Llama 3.1 (Free)") ].

Definition getAvailableModels (vendor : Vendor) : list ModelEntry :=
  match getModels vendor with
  | Js.Resolved (Some data) => firstn 8 (List.filter isFreeTierModel data)
  | Js.Resolved None => fallbackModels
  | Js.Rejected _ => fallbackModels
  end.

(** The server's own [GitHubService.analyzeRepository] is not embedded as a
whole; two of its places are: the language it reports and the [catch]
block that ends it. *)

(** [repoData.language || 'Unknown'] *)
Definition declaredLanguage (declared : option string) : string :=
match declared with
| Some l => if Js.truthy l then l else "Unknown"
| None => "Unknown"
end.

(** The message of the error the [catch] block throws, chosen from
[error.response?.status]. *)
Definition analysisFailureText (status : option nat) : string :=
if bool_decide (status = Some 404) then
"Repository not found. Please check the URL and ensure the repository is public."
else if bool_decide (status = Some 403) then
"Rate limit exceeded. Please try again later or add a GitHub token."
else if bool_decide (status = Some 401) then
"Authentication failed. Please check your GitHub token or try with a public repository."
else "Failed to analyze repository. Please check the URL and try again.".

End InlineServer.

(** ** Sample inputs *)

Module Examples.

Import GitHubService OpenRouterService.

Definition file (path : string) : File :=
  mkFile path None "" "" (GitHubService.detectLanguage path).

Definition blob (path : string) : TreeItem :=
  mkTreeItem "blob" path (Some 10%Z) "" "".

(** A file list in which two files match an indicator. *)
Definition twoManifests : list File :=
  [ file "package.json"; file "manage.py" ].

Definition helloUrl : string := "https://github.com/octocat/Hello-World".

Definition treeUrl : string :=
  "https://github.com/octocat/Hello-World.git/tree/dev/src".

(** Two Python and two JavaScript files, a Python file first. *)
Definition tiedFiles : list File :=
  [ file "setup.py"; file "src/index.js"; file "src/app.JS";
    file "tools/run.py"; file "README.md" ].


Definition unclosedLines : list string :=
  [ "## Usage"; "```"; "npm start"; "# lost" ].

(** A repository whose declared primary language is Python. *)
Definition helloWorld : RepoData :=
  {| data_name := "Hello-World";
     data_description := None;
     data_language := Some "Python";
     data_stargazers_count := 0;
     data_forks_count := 0;
     data_size := 1;
     data_default_branch := "main";
     data_topics := None;
     data_homepage := None;
     data_license_name := None |}.

Definition rejection (status : option nat) : Js.Rejection :=
  Js.mkRejection "Request failed" status None None.

(** The host answers every request; the tree holds one JavaScript file,
    and there is no README and no manifest. *)
Definition pythonDeclared : Upstream :=
  {| getRepo := fun _ _ => Js.Resolved helloWorld;
     getTree := fun _ _ _ => Js.Resolved (Some [ blob "index.js" ]);
     getReadme := fun _ _ => Js.Rejected (rejection (Some 404));
     getPackage := fun _ _ _ => Js.Rejected (rejection (Some 404)) |}.

(** The repository request fails with the given status. *)
Definition repoFails (status : option nat) : Upstream :=
  {| getRepo := fun _ _ => Js.Rejected (rejection status);
     getTree := fun _ _ _ => Js.Resolved (Some [ blob "index.js" ]);
     getReadme := fun _ _ => Js.Resolved "readme";
     getPackage := fun _ _ _ => Js.Resolved "{}" |}.

(** Only the tree request fails. *)
Definition treeFails : Upstream :=
  {| getRepo := fun _ _ => Js.Resolved helloWorld;
     getTree := fun _ _ _ => Js.Rejected (rejection (Some 500));
     getReadme := fun _ _ => Js.Resolved "readme";
     getPackage := fun _ _ _ => Js.Rejected (rejection (Some 404)) |}.

Definition byteCompare (a b : string) : Z :=
  match String.compare a b with
  | Lt => (-1)%Z
  | Eq => 0%Z
  | Gt => 1%Z
  end.

Definition noJson (_ : string) : option Json := None.

Definition sizeInBytes (bytes : Z) : string := zToString bytes +:+ " B".

Definition typeErrorMessage (what : string) : string :=
  if String.eqb what "primitive value"
  then "Cannot convert object to primitive value"
  else "Cannot read properties of undefined (reading '" +:+ what +:+ "')".

(** A sample of the two text functions that are parameters of the prompt
    builder: the upper-case forms within the range of [string], and one
    text for every large number. *)
Definition upperCase (s : string) : string := Js.toUpperCase s.

Definition largeNumber (_ : Z) : string := "1e+21".

(** An analyzer output without README and manifest. *)
Definition bareRepository : RepositoryData :=
  {| metadata :=
       {| meta_analysis := analyzeRepository "octocat" "Hello-World"
                             [ file "index.js" ];
          repoName := "Hello-World";
          repoOwner := "octocat";
          meta_branch := "main";
          meta_url := helloUrl |};
     files := [ file "index.js" ];
     readme := None;
     packageJson := None;
     repoInfo :=
       {| info_name := "Hello-World"; info_description := None;
          info_language := None; info_stars := 0; info_forks := 0;
          info_size := 1; info_defaultBranch := "main";
          info_topics := []; info_homepage := None;
          info_license := None |} |}.

(** A manifest with the keys [name] and [toString], as [JSON.parse]
    returns it for a [package.json] that has them, and the analyzer
    output of a repository without README that holds it. *)
Definition shadowedManifest : Json :=
  JObject [ ("name", JString "x"); ("toString", JNumber 1) ].

Definition shadowedRepository : RepositoryData :=
  {| metadata := metadata bareRepository;
     files := files bareRepository;
     readme := None;
     packageJson := Some shadowedManifest;
     repoInfo := repoInfo bareRepository |}.

(** The prompt for that output with the default format and style. *)
Definition barePrompt : string :=
  match
    buildDocumentationPrompt sizeInBytes typeErrorMessage
      upperCase largeNumber
      (ofAnalyzer bareRepository) (Some "markdown") "professional"
  with
  | Js.Ok prompt => prompt
  | Js.Throw _ => ""
  end.

Definition noOptions : GenerationOptions :=
  mkOptions None None None None None.

Definition unknownModel : GenerationOptions :=
  mkOptions (Some "not-a-real-model") None None None None.

(** A vendor that answers with the model identifier it was sent, and
    whose catalog request fails. *)
Definition echoVendor : Vendor :=
  {| postChatCompletions := fun request =>
       Js.Resolved {| choices := [ mkChoice (req_model request) None ];
                      data_usage := None;
                      data_model := Some (req_model request) |};
     getModels := Js.Rejected (rejection (Some 500)) |}.

(** A vendor that rejects every model but the default one. *)
Definition strictVendor : Vendor :=
  {| postChatCompletions := fun request =>
       if String.eqb (req_model request) defaultModel then
         Js.Resolved {| choices := [ mkChoice "# Hello-World" (Some "stop") ];
                        data_usage := None;
                        data_model := Some defaultModel |}
       else
         Js.Rejected
           (Js.mkRejection "Request failed with status code 400" (Some 400)
              (Some (Js.mkVendorError (Some 400%Z)
                       (Some "not a valid model ID")))
              None);
     getModels :=
       Js.Resolved
         (Some [ mkModelEntry "anthropic/claude-3.5-sonnet" None;
                 mkModelEntry "meta-llama/llama-3.1-8b-instruct" None;
                 mkModelEntry "openai/gpt-4o" None ]) |}.

End Examples.

(** ** The age sweep of the export service ([cleanupOldFiles]) *)

Module Maintenance.

(** The upload directory as the sweep sees it: the modification time, in
    milliseconds, of each entry [fs.readdir] names. *)
Definition Directory : Type := gmap string Z.

(** [24 * 60 * 60 * 1000] *)
Definition maxAge : Z := 24 * 60 * 60 * 1000.

(** [now - stats.mtime.getTime() > maxAge] *)
Definition tooOld (now mtime : Z) : bool := (now - mtime >? maxAge)%Z.

(** The loop over the names [fs.readdir] returned.  An entry that is no
    longer there makes [fs.stat] throw, which ends the loop in the
    [catch]. *)
Fixpoint sweep (now : Z) (names : list string) (dir : Directory)
  : Directory :=
  match names with
  | [] => dir
  | file :: names' =>
      match dir !! file with
      | None => dir
      | Some mtime =>
          sweep now names'
            (if tooOld now mtime then delete file dir else dir)
      end
  end.

Definition readdir (dir : Directory) : list string :=
  map fst (map_to_list dir).

Definition cleanupOldFiles (now : Z) (dir : Directory) : Directory :=
  sweep now (readdir dir) dir.

End Maintenance.

(** ** The URL check of the generator page ([handleAnalyze]) *)

Module Generator.

(** The message of the toast that stops [handleAnalyze] before any
    request; [None] when the analysis is started. *)
Definition urlProblem (repoUrl : string) : option string :=
  if negb (Js.truthy (Js.trim repoUrl)) then
    Some "Please enter a GitHub repository URL"
  else if negb (Js.includes repoUrl "github.com") then
    Some "Please enter a valid GitHub repository URL"
  else None.

End Generator.

(** ** The routes of the single-file server, without a database *)

Module DocumentStore.

Import OpenRouterService.

(** [arr.slice(start, end)]: a negative index counts from the end. *)
Definition sliceIndex (len : nat) (i : Z) : nat :=
  if (i <? 0)%Z then Z.to_nat (Z.max (Z.of_nat len + i) 0)
  else Z.to_nat (Z.min i (Z.of_nat len)).

Definition slice {A : Type} (l : list A) (start stop : Z) : list A :=
  let s := sliceIndex (length l) start in
  let e := sliceIndex (length l) stop in
  firstn (e - s) (skipn s l).

(** What a route answers: [res.json({ success: true, data })], or
    [res.status(code).json({ error })]. *)
Inductive Reply (A : Type) : Type :=
| Success (data : A)
| Failure (code : nat) (error : string).
Arguments Success {A} data.
Arguments Failure {A} code error.

(** [repoData.metadata] of a request body, as far as the route reads it. *)
Record RequestMetadata : Type := mkRequestMetadata {
  rm_repoName : option string;
  rm_url : option string;
  rm_language : option string;
  rm_framework : option string
}.

(** An entry of [document.exports]. *)
Record ExportEntry : Type := mkExportEntry {
  exp_format : string;
  exp_url : string;
  exp_filePath : string;
  exp_size : nat;
  exp_createdAt : Z
}.

(** A stored document; [exports] is [None] until the first export. *)
Record Document : Type := mkDocument {
  doc_id : string;
  doc_title : string;
  doc_description : string;
  doc_githubUrl : option string;
  doc_content : string;
  doc_metadata : RequestMetadata;
  doc_aiModel : option string;
  doc_status : string;
  doc_processingTime : Z;
  doc_tags : list string;
  doc_createdAt : Z;
  doc_updatedAt : Z;
  doc_exports : option (list ExportEntry)
}.

(** [inMemoryDocuments] and [documentCounter]. *)
Record Store : Type := mkStore {
  inMemoryDocuments : list Document;
  documentCounter : nat
}.

Definition initialStore : Store := mkStore [] 1.

(** [value || fallback] *)
Definition orElse (value : option string) (fallback : string) : string :=
  match value with
  | Some s => if Js.truthy s then s else fallback
  | None => fallback
  end.

(** [values.filter(Boolean)] *)
Fixpoint filterTruthy (values : list (option string)) : list string :=
  match values with
  | [] => []
  | Some s :: values' =>
      if Js.truthy s then s :: filterTruthy values' else filterTruthy values'
  | None :: values' => filterTruthy values'
  end.

(** [metadata?.key] *)
Definition readKey (metadata : option RequestMetadata)
  (key : RequestMetadata -> option string) : option string :=
  match metadata with
  | Some m => key m
  | None => None
  end.

(** A request to [POST /api/ai/generate]: the metadata and the options of
    its body, the prompt the server's prompt builder makes of the body
    ([None] when it throws), the vendor as it answers, and the four
    readings of the clock. *)
Record GenerateRequest : Type := mkGenerateRequest {
  gen_metadata : option RequestMetadata;
  gen_options : GenerationOptions;
  gen_prompt : option string;
  gen_vendor : Vendor;
  gen_startTime : Z;
  gen_endTime : Z;
  gen_createdAt : Z;
  gen_updatedAt : Z
}.

(** [openRouterService.generateDocumentation(repoData, options)] *)
Definition callGenerator (request : GenerateRequest)
  : Js.result GenerationResult :=
  match gen_prompt request with
  | None => Js.Throw (InlineServer.failureText None)
  | Some prompt =>
      InlineServer.generateDocumentation (gen_vendor request) prompt
        (gen_options request)
  end.

(** [{ _id: `mem_${documentCounter++}`, ...documentData }] *)
Definition newDocument (counter : nat) (request : GenerateRequest)
  (aiResult : GenerationResult) : Document :=
  let repoName := readKey (gen_metadata request) rm_repoName in
  {| doc_id := "mem_" +:+ Js.natToString counter;
     doc_title := orElse repoName "Repository" +:+ " Documentation";
     doc_description :=
       "AI-generated documentation for " +:+ orElse repoName "repository";
     doc_githubUrl := readKey (gen_metadata request) rm_url;
     doc_content := result_content aiResult;
     doc_metadata :=
       match gen_metadata request with
       | Some m => m
       | None => mkRequestMetadata None None None None
       end;
     doc_aiModel := result_model aiResult;
     doc_status := "completed";
     doc_processingTime := (gen_endTime request - gen_startTime request)%Z;
     doc_tags :=
       filterTruthy [ readKey (gen_metadata request) rm_language;
                      readKey (gen_metadata request) rm_framework ];
     doc_createdAt := gen_createdAt request;
     doc_updatedAt := gen_updatedAt request;
     doc_exports := None |}.

(** [POST /api/ai/generate] *)
Definition generateRoute (store : Store) (request : GenerateRequest)
  : Reply (Document * GenerationResult) * Store :=
  match callGenerator request with
  | Js.Throw message => (Failure 500 message, store)
  | Js.Ok aiResult =>
      let savedDocument :=
        newDocument (documentCounter store) request aiResult in
      (Success (savedDocument, aiResult),
       {| inMemoryDocuments := inMemoryDocuments store ++ [savedDocument];
          documentCounter := S (documentCounter store) |})
  end.

(** [inMemoryDocuments.find(doc => doc._id === id)] *)
Definition findDocument (store : Store) (id : string) : option Document :=
  List.find (fun doc => String.eqb (doc_id doc) id) (inMemoryDocuments store).

(** [GET /api/docs/:id] *)
Definition getRoute (store : Store) (id : string) : Reply Document :=
  match findDocument store id with
  | Some document => Success document
  | None => Failure 404 "Document not found"
  end.

(** The entry an export makes for a document. *)
Definition exportData (document : Document) (documentId : string)
  (format : option string) (now createdAt : Z) : ExportEntry :=
  let format := default "markdown" format in
  let filename := "doc-" +:+ documentId +:+ "-" +:+ zToString now in
  {| exp_format := format;
     exp_url := "/uploads/" +:+ filename +:+ "." +:+ format;
     exp_filePath := "./uploads/" +:+ filename +:+ "." +:+ format;
     exp_size := String.length (doc_content document);
     exp_createdAt := createdAt |}.

(** [document.exports.push(exportData)], after [exports] was made an
    empty array if it was missing. *)
Definition pushExport (entry : ExportEntry) (document : Document)
  : Document :=
  {| doc_id := doc_id document;
     doc_title := doc_title document;
     doc_description := doc_description document;
     doc_githubUrl := doc_githubUrl document;
     doc_content := doc_content document;
     doc_metadata := doc_metadata document;
     doc_aiModel := doc_aiModel document;
     doc_status := doc_status document;
     doc_processingTime := doc_processingTime document;
     doc_tags := doc_tags document;
     doc_createdAt := doc_createdAt document;
     doc_updatedAt := doc_updatedAt document;
     doc_exports := Some (default [] (doc_exports document) ++ [entry]) |}.

(** The array after the object [find] returned was changed: the first
    document with the identifier, and no other. *)
Fixpoint updateFirst (id : string) (change : Document -> Document)
  (documents : list Document) : list Document :=
  match documents with
  | [] => []
  | doc :: documents' =>
      if String.eqb (doc_id doc) id then change doc :: documents'
      else doc :: updateFirst id change documents'
  end.

(** [POST /api/export/:documentId] *)
Definition exportRoute (store : Store) (documentId : string)
  (format : option string) (now createdAt : Z)
  : Reply (ExportEntry * Document) * Store :=
  match findDocument store documentId with
  | None => (Failure 404 "Document not found", store)
  | Some document =>
      let entry := exportData document documentId format now createdAt in
      (Success (entry, pushExport entry document),
       {| inMemoryDocuments :=
            updateFirst documentId (pushExport entry)
              (inMemoryDocuments store);
          documentCounter := documentCounter store |})
  end.

(** The [pagination] object; [totalPages] is [None] when the division is
    by zero. *)
Record Pagination : Type := mkPagination {
  currentPage : Z;
  totalPages : option Z;
  totalDocuments : nat;
  hasNextPage : bool;
  hasPrevPage : bool
}.

(** The callback of [inMemoryDocuments.filter]. *)
Definition matchesQuery (search status : option string) (doc : Document)
  : bool :=
  match search with
  | Some s =>
      if Js.truthy s then
        Js.includes (Js.toLowerCase (doc_title doc)) (Js.toLowerCase s)
        || Js.includes (Js.toLowerCase (doc_description doc))
             (Js.toLowerCase s)
      else
        match status with
        | Some st => if Js.truthy st then String.eqb (doc_status doc) st
                     else true
        | None => true
        end
  | None =>
      match status with
      | Some st => if Js.truthy st then String.eqb (doc_status doc) st
                   else true
      | None => true
      end
  end.

(** [(a, b) => new Date(b.createdAt) - new Date(a.createdAt)] *)
Definition newestFirst (a b : Document) : Z :=
  (doc_createdAt b - doc_createdAt a)%Z.

(** [Math.ceil(total / limit)] for integers. *)
Definition ceilDiv (total limit : Z) : option Z :=
  if (limit =? 0)%Z then None else Some (- ((- total) / limit))%Z.

(** [GET /api/docs], for the integers the query gives as [page] and
    [limit] ([None] when the key is missing). *)
Definition listRoute (store : Store) (page limit : option Z)
  (search status : option string) : list Document * Pagination :=
  let page := default 1%Z page in
  let limit := default 12%Z limit in
  let skip := ((page - 1) * limit)%Z in
  let documents :=
    slice
      (Js.sort newestFirst
         (List.filter (matchesQuery search status) (inMemoryDocuments store)))
      skip (skip + limit) in
  let total := length (inMemoryDocuments store) in
  (documents,
   {| currentPage := page;
      totalPages := ceilDiv (Z.of_nat total) limit;
      totalDocuments := total;
      hasNextPage := (skip + Z.of_nat (length documents) <? Z.of_nat total)%Z;
      hasPrevPage := (page >? 1)%Z |}).

(** [GET /api/ai/models]: the listing of the server's client, filtered
    once more and cut at ten entries. *)
Definition isPopularModel (m : ModelEntry) : bool :=
  Js.includes (model_id m) "claude"
  || Js.includes (model_id m) "gpt"
  || Js.includes (model_id m) "gemini".

Definition modelsRoute (vendor : Vendor) : list ModelEntry :=
  firstn 10 (List.filter isPopularModel (InlineServer.getAvailableModels vendor)).

(** The requests that change or read the store, and the store after a
    sequence of them. *)
Inductive Request : Type :=
| Generate (request : GenerateRequest)
| Export (documentId : string) (format : option string) (now createdAt : Z)
| Get (id : string)
| ListDocuments (page limit : option Z) (search status : option string).

Definition handle (store : Store) (request : Request) : Store :=
  match request with
  | Generate r => snd (generateRoute store r)
  | Export id format now createdAt =>
      snd (exportRoute store id format now createdAt)
  | Get _ => store
  | ListDocuments _ _ _ _ => store
  end.

Definition serve (store : Store) (requests : list Request) : Store :=
  fold_left handle requests store.

(** The identifiers in use are those the counter has handed out. *)
Definition WellNumbered (store : Store) : Prop :=
  List.NoDup (map doc_id (inMemoryDocuments store))
  /\ Forall (fun doc =>
               exists k, doc_id doc = "mem_" +:+ Js.natToString k
                         /\ k < documentCounter store)
       (inMemoryDocuments store).

(** [later] holds [earlier] with, at most, more exports behind those it
    had. *)
Definition SameBut (earlier later : Document) : Prop :=
  doc_id later = doc_id earlier
  /\ doc_title later = doc_title earlier
  /\ doc_description later = doc_description earlier
  /\ doc_content later = doc_content earlier
  /\ doc_status later = doc_status earlier
  /\ doc_createdAt later = doc_createdAt earlier
  /\ exists more,
      default [] (doc_exports later)
      = default [] (doc_exports earlier) ++ more.

End DocumentStore.

(** ** Notions used to state the further properties *)

Module FileViews.

Import GitHubService.

(** The file counts under the key [ext] of [fileTypes]. *)
Definition extensionIs (ext : string) (file : File) : bool :=
  String.eqb (Js.toLowerCase (NodePath.extname (name file))) ext.

(** Some lower-cased file name includes one of the words. *)
Definition mentions (words : list string) (files : list File) : bool :=
  existsb (fun file => someIncluded (Js.toLowerCase (name file)) words) files.

End FileViews.

Module StoreViews.

Import OpenRouterService DocumentStore.

(** The identifier the counter value [k] gives. *)
Definition idOf (k : nat) : string := "mem_" +:+ Js.natToString k.

(** The documents are numbered in the order of their creation. *)
Definition Numbered (store : Store) : Prop :=
  documentCounter store = S (length (inMemoryDocuments store))
  /\ map doc_id (inMemoryDocuments store)
     = map idOf (seq 1 (length (inMemoryDocuments store))).

(** The four messages the [catch] of the server's client chooses from. *)
Definition failureMessages : list string :=
  [ "Free tier limit reached. Try with a smaller repository or wait for credits to refresh.";
    "Request timeout. Please try again in a moment.";
    "Invalid request. Please check your input and try again.";
    "Failed to generate documentation with AI. Please try again." ].

End StoreViews.

(** ** Further sample data *)

Module Samples.

Import GitHubService OpenRouterService DocumentStore.

(** What the analyzer returns for [Examples.helloUrl] when the host
    answers as [Examples.pythonDeclared]. *)
Definition helloData : RepositoryData :=
  match
    getRepositoryData Examples.pythonDeclared Examples.byteCompare
      Examples.noJson Examples.helloUrl
  with
  | Js.Ok data => data
  | Js.Throw _ => Examples.bareRepository
  end.

(** Fifty files and one more. *)
Definition fiftyFiles : list File := repeat (Examples.file "src/a.js") 50.

Definition oneMore : list File := [ Examples.file "README.md" ].

(** A generation request the vendor answers. *)
Definition sampleRequest : GenerateRequest :=
  {| gen_metadata :=
       Some (mkRequestMetadata (Some "Hello-World") (Some Examples.helloUrl)
               (Some "JavaScript") None);
     gen_options := Examples.noOptions;
     gen_prompt := Some "Describe the repository.";
     gen_vendor := Examples.echoVendor;
     gen_startTime := 1000;
     gen_endTime := 1500;
     gen_createdAt := 1500;
     gen_updatedAt := 1501 |}.

Definition sampleResult : GenerationResult :=
  {| result_content := "openai/gpt-3.5-turbo";
     result_model := Some "openai/gpt-3.5-turbo";
     result_usage := None;
     result_finishReason := None |}.

Definition sampleDocument : Document :=
  newDocument 1 sampleRequest sampleResult.

(** The store after that request. *)
Definition oneDocument : Store := mkStore [ sampleDocument ] 2.

End Samples.

(** * Properties *)

(** ** Strings *)

Module JsFacts.

Import Js.

Lemma app_nil_r (s : string) : s +:+ "" = s.
Proof. induction s as [|c s IH]; simpl; [reflexivity | now rewrite IH]. Qed.

Lemma app_assoc (a b c : string) : a +:+ (b +:+ c) = (a +:+ b) +:+ c.
Proof. induction a as [|x a IH]; simpl; [reflexivity | now rewrite IH]. Qed.

Lemma length_app (a b : string) :
  String.length (a +:+ b) = String.length a + String.length b.
Proof. induction a as [|x a IH]; simpl; [reflexivity | now rewrite IH]. Qed.

Lemma startsWith_app (p s : string) : startsWith (p +:+ s) p = true.
Proof.
  induction p as [|c p IH]; simpl; [reflexivity|].
  now rewrite Ascii.eqb_refl, IH.
Qed.

Lemma startsWith_true (s p : string) :
  startsWith s p = true <-> exists r, s = p +:+ r.
Proof.
  split.
  - revert s; induction p as [|c p IH]; intros s H; simpl in *.
    + now exists s.
    + destruct s as [|b s]; [discriminate|].
      apply andb_prop in H as [Hc Hs].
      apply Ascii.eqb_eq in Hc; subst b.
      destruct (IH _ Hs) as [r ->]. now exists r.
  - intros [r ->]. apply startsWith_app.
Qed.

Lemma substring_app (p s : string) : substring (p +:+ s) (String.length p) = s.
Proof. induction p as [|c p IH]; simpl; [reflexivity | exact IH]. Qed.

Lemma includes_startsWith (hay needle : string) :
  startsWith hay needle = true -> includes hay needle = true.
Proof. intros H. destruct hay; simpl; now rewrite H. Qed.

Lemma includes_true (hay needle : string) :
  includes hay needle = true <->
  exists before after, hay = before +:+ needle +:+ after.
Proof.
  split.
  - induction hay as [|c hay IH]; simpl; intros H.
    + rewrite orb_false_r in H. apply startsWith_true in H as [r ->].
      now exists "", r.
    + apply orb_prop in H as [H|H].
      * apply startsWith_true in H as [r ->]. now exists "", r.
      * destruct (IH H) as (b & a & ->). now exists (String c b), a.
  - intros (before & after & ->).
    induction before as [|c before IH]; simpl.
    + apply includes_startsWith, startsWith_app.
    + rewrite IH. apply orb_true_r.
Qed.

(** *** [split] and [join] *)

Lemma noChar_cons (c x : ascii) (s : string) :
  noChar c (String x s) <-> x <> c /\ noChar c s.
Proof.
  split.
  - intros H; split.
    + intros ->. now apply (H "" s).
    + intros a b ->. now apply (H (String x a) b).
  - intros [Hx Hs] a b E. destruct a as [|y a]; simpl in E.
    + now inversion E.
    + inversion E; subst. now apply (Hs a b).
Qed.

Lemma split_not_nil (sep : ascii) (s : string) : split sep s <> [].
Proof.
  induction s as [|c s IH]; simpl; [discriminate|].
  destruct (Ascii.eqb c sep); [discriminate|].
  destruct (split sep s); [contradiction | discriminate].
Qed.

Lemma split_noChar (sep : ascii) (s : string) :
  noChar sep s -> split sep s = [s].
Proof.
  induction s as [|c s IH]; intros H; simpl; [reflexivity|].
  apply noChar_cons in H as [Hc Hs].
  apply Ascii.eqb_neq in Hc. rewrite Hc, (IH Hs). reflexivity.
Qed.



(** *** [trim] *)

Lemma trimEnd_empty (s : string) :
  trimEnd s = "" <-> allWhiteSpace s = true.
Proof.
  induction s as [|c s IH]; simpl; [tauto|].
  destruct (trimEnd s) eqn:E.
  - destruct (isWhiteSpace c); simpl.
    + tauto.
    + split; discriminate.
  - split; [discriminate|].
    intros H. apply andb_prop in H as [_ H].
    apply IH in H. discriminate.
Qed.

Lemma trimStart_white (s : string) :
  allWhiteSpace s = true -> trimStart s = "".
Proof.
  induction s as [|c s IH]; simpl; [reflexivity|].
  intros H. apply andb_prop in H as [-> H]. auto.
Qed.

Lemma allWhiteSpace_trimStart (s : string) :
  allWhiteSpace (trimStart s) = allWhiteSpace s.
Proof.
  induction s as [|c s IH]; simpl; [reflexivity|].
  destruct (isWhiteSpace c) eqn:E; simpl; [exact IH | now rewrite E].
Qed.

Lemma trim_empty (s : string) : trim s = "" <-> allWhiteSpace s = true.
Proof.
  unfold trim. rewrite trimEnd_empty. now rewrite allWhiteSpace_trimStart.
Qed.

End JsFacts.

(** ** The DOCX renderer *)

Module ExportFacts.

Import ExportService.

(** A white-space character starts none of the markers and no fence. *)
Lemma white_not_marker (c : ascii) :
  Js.isWhiteSpace c = true ->
  Ascii.eqb "#" c = false /\ Ascii.eqb ">" c = false
  /\ Ascii.eqb "`" c = false.
Proof.
  destruct c as [[] [] [] [] [] [] [] []]; vm_compute; intros H;
    solve [discriminate H | repeat split; reflexivity].
Qed.

Lemma blank_line (line : string) :
  Js.allWhiteSpace line = true -> lineParagraph line = emptyParagraph.
Proof.
  intros H. pose proof (proj2 (JsFacts.trim_empty line) H) as Ht.
  unfold lineParagraph. rewrite Ht.
  destruct line as [|c line]; [reflexivity|].
  simpl in H. apply andb_prop in H as [Hc _].
  destruct (white_not_marker c Hc) as (H1 & H2 & _).
  simpl. rewrite H1, H2. reflexivity.
Qed.

Lemma blank_not_fence (line : string) :
  Js.allWhiteSpace line = true -> isFence line = false.
Proof.
  destruct line as [|c line]; [reflexivity|].
  simpl. intros H. apply andb_prop in H as [Hc _].
  destruct (white_not_marker c Hc) as (_ & _ & H3).
  unfold isFence. simpl. now rewrite H3.
Qed.


(** *** The loop *)

Lemma run_app (st : LoopState) (l1 l2 : list string) :
  run st (l1 ++ l2) = run (run st l1) l2.
Proof. apply fold_left_app. Qed.

Lemma run_cons (st : LoopState) (line : string) (lines : list string) :
  run st (line :: lines) = run (step st line) lines.
Proof. reflexivity. Qed.

Lemma step_open (c : list Paragraph) (content : list string) (line : string) :
  isFence line = true ->
  step (mkLoop c false content) line = mkLoop c true content.
Proof. intros H. unfold step. now rewrite H. Qed.

Lemma step_close (c : list Paragraph) (content : list string) (line : string) :
  isFence line = true ->
  step (mkLoop c true content) line
  = mkLoop (c ++ [codeParagraph content]) false [].
Proof. intros H. unfold step. now rewrite H. Qed.

Lemma step_inside (c : list Paragraph) (content : list string) (line : string) :
  isFence line = false ->
  step (mkLoop c true content) line = mkLoop c true (content ++ [line]).
Proof. intros H. unfold step. now rewrite H. Qed.

Lemma step_outside (c : list Paragraph) (content : list string) (line : string) :
  isFence line = false ->
  step (mkLoop c false content) line
  = mkLoop (c ++ [lineParagraph line]) false content.
Proof. intros H. unfold step. now rewrite H. Qed.

(** Paragraphs pushed so far stay at the front. *)
Lemma run_children (lines : list string) :
  forall c b content,
    st_children (run (mkLoop c b content) lines)
    = c ++ st_children (run (mkLoop [] b content) lines).
Proof.
  induction lines as [|line lines IH]; intros c b content.
  - simpl. now rewrite List.app_nil_r.
  - rewrite !run_cons.
    destruct (isFence line) eqn:E, b;
      rewrite ?step_open, ?step_close, ?step_inside, ?step_outside
        by assumption;
      rewrite IH; symmetry; rewrite IH; simpl;
      now rewrite <- ?List.app_assoc.
Qed.

(** Inside a fence, lines that are not fences only accumulate. *)
Lemma run_inside (body : list string) :
  forall c content,
    Forall (fun line => isFence line = false) body ->
    run (mkLoop c true content) body = mkLoop c true (content ++ body).
Proof.
  induction body as [|line body IH]; intros c content H.
  - simpl. now rewrite List.app_nil_r.
  - inversion H as [|? ? Hl Hb]; subst.
    rewrite run_cons, step_inside, IH by assumption.
    now rewrite <- List.app_assoc.
Qed.

Lemma renderLines_line (line : string) (rest : list string) :
  isFence line = false ->
  renderLines (line :: rest) = lineParagraph line :: renderLines rest.
Proof.
  intros H. unfold renderLines, initial.
  rewrite run_cons, step_outside by assumption.
  now rewrite run_children.
Qed.


(** Whether the loop is inside a fence after [lines]. *)
Lemma inCodeBlock_run (lines : list string) :
  forall st,
    inCodeBlock (run st lines)
    = xorb (inCodeBlock st) (Nat.odd (countFences lines)).
Proof.
  unfold countFences.
  induction lines as [|line lines IH]; intros st; simpl.
  - now rewrite xorb_false_r.
  - rewrite IH. unfold step.
    destruct (isFence line) eqn:E; simpl.
    + rewrite Nat.odd_succ, <- Nat.negb_odd.
      destruct (inCodeBlock st); simpl;
        now destruct (Nat.odd (length (List.filter isFence lines))).
    + now destruct (inCodeBlock st).
Qed.

(** After an opening fence that is never closed nothing is pushed. *)
Lemma run_unclosed (st : LoopState) (fence : string) (post : list string) :
  inCodeBlock st = false ->
  isFence fence = true ->
  Forall (fun line => isFence line = false) post ->
  st_children (run st (fence :: post)) = st_children st.
Proof.
  intros Hst Hf Hp. destruct st as [c b content]. simpl in Hst. subst b.
  rewrite run_cons, step_open, run_inside by assumption. reflexivity.
Qed.

(** A list with a fence splits at its last fence. *)
Lemma last_fence (lines : list string) :
  countFences lines <> 0 ->
  exists pre fence post,
    lines = pre ++ fence :: post
    /\ isFence fence = true
    /\ Forall (fun line => isFence line = false) post.
Proof.
  unfold countFences.
  induction lines as [|line lines IH]; simpl; [congruence|].
  intros H.
  destruct (List.filter isFence lines) as [|x xs] eqn:E.
  - destruct (isFence line) eqn:El; [|simpl in H; congruence].
    exists [], line, lines. repeat split; [assumption|].
    apply Forall_forall. intros y Hy.
    destruct (isFence y) eqn:Ey; [|reflexivity].
    assert (In y (List.filter isFence lines))
      by (apply List.filter_In; split; [now apply list_elem_of_In | assumption]).
    rewrite E in *. contradiction.
  - destruct IH as (pre & fence & post & -> & Hf & Hp); [discriminate|].
    exists (line :: pre), fence, post. now repeat split.
Qed.




(** C10. When the number of fence lines is odd, the text splits at its
    last fence line; that fence is never closed, and the document holds
    exactly the paragraphs of the lines before it: the lines after it
    give no paragraph and no heading. *)
Theorem markdownToDOCX_unclosed_fence (markdown : string) :
  Nat.odd (countFences (Js.split Js.LF markdown)) = true ->
  exists pre fence post,
    Js.split Js.LF markdown = pre ++ fence :: post
    /\ isFence fence = true
    /\ Forall (fun line => isFence line = false) post
    /\ Nat.even (countFences pre) = true
    /\ paragraphs (markdownToDOCX markdown) = renderLines pre.
Proof.
  intros Hodd.
  destruct (last_fence (Js.split Js.LF markdown))
    as (pre & fence & post & E & Hf & Hp).
  { intros H0. rewrite H0 in Hodd. discriminate. }
  exists pre, fence, post.
  assert (Hpre : Nat.even (countFences pre) = true).
  { rewrite E in Hodd. unfold countFences in *.
    rewrite List.filter_app, length_app in Hodd. simpl in Hodd.
    rewrite Hf in Hodd.
    replace (List.filter isFence post) with (@nil string) in Hodd.
    - simpl in Hodd. rewrite Nat.add_1_r, Nat.odd_succ in Hodd. exact Hodd.
    - symmetry. clear -Hp. induction Hp as [|x l Hx _ IH]; simpl;
        [reflexivity | now rewrite Hx]. }
  repeat split; try assumption.
  unfold markdownToDOCX, paragraphs; simpl. rewrite E.
  unfold renderLines. rewrite run_app.
  pose proof (inCodeBlock_run pre initial) as Hb.
  rewrite <- Nat.negb_even, Hpre in Hb. simpl in Hb.
  now apply run_unclosed.
Qed.

End ExportFacts.

(** ** URL parsing *)

Module UrlFacts.

Import GitHubService.

Lemma noSlash_nil : noSlash "".
Proof. intros a b H. destruct a; discriminate. Qed.

Lemma noSlash_cons (c : ascii) (s : string) :
  noSlash (String c s) <-> c <> NodePath.slash /\ noSlash s.
Proof. apply JsFacts.noChar_cons. Qed.

Lemma noSlash_includes (s : string) :
  Js.includes s "/" = false -> noSlash s.
Proof.
  intros H a b E.
  assert (Hi : Js.includes s "/" = true)
    by (apply JsFacts.includes_true; now exists a, b).
  congruence.
Qed.

Lemma spanNotSlash_spec (s : string) :
  s = fst (spanNotSlash s) +:+ snd (spanNotSlash s)
  /\ noSlash (fst (spanNotSlash s))
  /\ atBoundary (snd (spanNotSlash s)).
Proof.
  induction s as [|c s (IH1 & IH2 & IH3)]; simpl.
  - repeat split; [apply noSlash_nil | now left].
  - destruct (Ascii.eqb_spec c NodePath.slash) as [->|Hc]; simpl.
    + repeat split; [apply noSlash_nil | right; now exists s].
    + destruct (spanNotSlash s) as [run rest]; simpl in *.
      repeat split; [now f_equal | now apply noSlash_cons | assumption].
Qed.

Lemma spanNotSlash_app (a b : string) :
  noSlash a -> atBoundary b -> spanNotSlash (a +:+ b) = (a, b).
Proof.
  intros Ha Hb. induction a as [|c a IH]; simpl.
  - destruct Hb as [->|[b' ->]]; reflexivity.
  - apply noSlash_cons in Ha as [Hc Ha].
    apply Ascii.eqb_neq in Hc. rewrite Hc, (IH Ha). reflexivity.
Qed.

(** The longest run of non-slashes at the head of [a ++ rest] starts with
    [a] when [a] has no slash. *)
Lemma spanNotSlash_prefix (a rest : string) :
  noSlash a ->
  exists more rest',
    spanNotSlash (a +:+ rest) = (a +:+ more, rest')
    /\ rest = more +:+ rest'.
Proof.
  intros Ha. induction a as [|c a IH]; simpl.
  - exists (fst (spanNotSlash rest)), (snd (spanNotSlash rest)).
    split; [now destruct (spanNotSlash rest) | apply spanNotSlash_spec].
  - apply noSlash_cons in Ha as [Hc Ha].
    apply Ascii.eqb_neq in Hc. rewrite Hc.
    destruct (IH Ha) as (more & rest' & E & Hr).
    exists more, rest'. now rewrite E.
Qed.

Lemma stripPrefix_Some (p s r : string) :
  stripPrefix p s = Some r <-> s = p +:+ r.
Proof.
  unfold stripPrefix. split.
  - destruct (Js.startsWith s p) eqn:E; [|discriminate].
    apply JsFacts.startsWith_true in E as [r' ->].
    rewrite JsFacts.substring_app. now intros [= ->].
  - intros ->. now rewrite JsFacts.startsWith_app, JsFacts.substring_app.
Qed.

Lemma treeGroup_Some (after b : string) :
  treeGroup after = Some b <-> TreeSegment after b.
Proof.
  unfold treeGroup, TreeSegment. split.
  - destruct (stripPrefix "/tree/" after) as [r|] eqn:E; [|discriminate].
    apply stripPrefix_Some in E. subst after.
    destruct (spanNotSlash_spec r) as (Hr & Hn & Hb).
    destruct (spanNotSlash r) as [run rest]; simpl in *.
    destruct run as [|c run]; [discriminate|].
    intros [= <-]. exists rest. subst r. now repeat split.
  - intros (rest & -> & Hne & Hn & Hb).
    rewrite (proj2 (stripPrefix_Some "/tree/" _ (b +:+ rest)) eq_refl).
    rewrite spanNotSlash_app by assumption. simpl.
    destruct b; [contradiction | reflexivity].
Qed.

Lemma matchHere_Some (s : string) (m : UrlMatch) :
  matchHere s = Some m ->
  exists after,
    s = "github.com/" +:+ group1 m +:+ "/" +:+ group2 m +:+ after
    /\ group1 m <> "" /\ group2 m <> ""
    /\ noSlash (group1 m) /\ noSlash (group2 m)
    /\ atBoundary after
    /\ group3 m = treeGroup after.
Proof.
  unfold matchHere.
  destruct (stripPrefix "github.com/" s) as [r1|] eqn:E1; [|discriminate].
  apply stripPrefix_Some in E1.
  destruct (spanNotSlash_spec r1) as (Hr1 & Hn1 & _).
  destruct (spanNotSlash r1) as [g1 rest1]; simpl in *.
  destruct g1 as [|c1 g1]; [discriminate|].
  destruct rest1 as [|c r2]; [discriminate|].
  destruct (Ascii.eqb_spec c NodePath.slash) as [->|]; [|discriminate].
  destruct (spanNotSlash_spec r2) as (Hr2 & Hn2 & Hb2).
  destruct (spanNotSlash r2) as [g2 r3]; simpl in *.
  destruct g2 as [|c2 g2]; [discriminate|].
  intros [= <-]; simpl. exists r3.
  repeat split; try assumption; try discriminate.
  subst s r1 r2. reflexivity.
Qed.

Lemma matchHere_complete (o r after : string) :
  o <> "" -> r <> "" -> noSlash o -> noSlash r ->
  exists m,
    matchHere ("github.com/" +:+ o +:+ "/" +:+ r +:+ after) = Some m.
Proof.
  intros Ho Hr Hno Hnr. unfold matchHere.
  rewrite (proj2 (stripPrefix_Some "github.com/" _
                    (o +:+ "/" +:+ r +:+ after)) eq_refl).
  rewrite spanNotSlash_app;
    [|assumption | right; now exists (r +:+ after)].
  destruct o as [|co o]; [contradiction|].
  simpl. 
  destruct (spanNotSlash_prefix r after Hnr) as (more & rest' & E & _).
  rewrite E. destruct r as [|cr r]; [contradiction|].
  simpl. eauto.
Qed.

Lemma urlMatch_unfold (url : string) :
  urlMatch url
  = match matchHere url with
    | Some m => Some m
    | None =>
        match url with
        | "" => None
        | String _ url' => urlMatch url'
        end
    end.
Proof. destruct url; reflexivity. Qed.

Lemma urlMatch_Some (url : string) (m : UrlMatch) :
  urlMatch url = Some m ->
  exists before s, url = before +:+ s /\ matchHere s = Some m.
Proof.
  induction url as [|c url IH]; rewrite urlMatch_unfold.
  - discriminate.
  - destruct (matchHere (String c url)) eqn:E.
    + intros [= <-]. now exists "", (String c url).
    + intros H. destruct (IH H) as (before & s & -> & Hs).
      now exists (String c before), s.
Qed.

Lemma urlMatch_complete (before s : string) (m : UrlMatch) :
  matchHere s = Some m -> exists m', urlMatch (before +:+ s) = Some m'.
Proof.
  intros Hs. induction before as [|c before IH];
    rewrite urlMatch_unfold; simpl String.append.
  - rewrite Hs; eauto.
  - destruct (matchHere (String c (before +:+ s))); eauto.
Qed.

Lemma urlMatch_None (url : string) :
  ~ MatchesPattern url -> urlMatch url = None.
Proof.
  intros Hno. destruct (urlMatch url) as [m|] eqn:E; [|reflexivity].
  exfalso. apply Hno.
  destruct (urlMatch_Some _ _ E) as (before & s & -> & Hs).
  destruct (matchHere_Some _ _ Hs) as (after & -> & H1 & H2 & H3 & H4 & _).
  now exists before, (group1 m), (group2 m), after.
Qed.

Lemma urlMatch_matches (url : string) :
  MatchesPattern url -> exists m, urlMatch url = Some m.
Proof.
  intros (before & o & r & after & -> & Ho & Hr & Hno & Hnr).
  destruct (matchHere_complete o r after Ho Hr Hno Hnr) as [m Hm].
  apply (urlMatch_complete before _ m Hm).
Qed.

(** C6. A text that does not hold [github.com/owner/repo] makes
    [parseGitHubUrl] throw; a text that does is parsed into the owner,
    the repository name (the longest run without a slash, less its first
    [.git]) and the branch: the name in the [/tree/] segment that follows
    the repository name when there is one, [main] otherwise. *)
Theorem parseGitHubUrl_pattern (url : string) :
  (~ MatchesPattern url ->
   parseGitHubUrl url = Js.Throw "Invalid GitHub URL format")
  /\ (MatchesPattern url ->
      exists before o r after b,
        url = before +:+ "github.com/" +:+ o +:+ "/" +:+ r +:+ after
        /\ o <> "" /\ r <> "" /\ noSlash o /\ noSlash r
        /\ atBoundary after
        /\ parseGitHubUrl url
           = Js.Ok (mkParsedUrl o (Js.replace r ".git" "") b)
        /\ (forall t, TreeSegment after t -> b = t)
        /\ ((forall t, ~ TreeSegment after t) -> b = "main")).
Proof.
  split.
  - intros H. unfold parseGitHubUrl. now rewrite urlMatch_None.
  - intros H. destruct (urlMatch_matches url H) as [m E].
    destruct (urlMatch_Some _ _ E) as (before & s & -> & Hs).
    destruct (matchHere_Some _ _ Hs)
      as (after & -> & H1 & H2 & H3 & H4 & H5 & H6).
    unfold parseGitHubUrl. rewrite E.
    exists before, (group1 m), (group2 m), after.
    destruct (group3 m) as [t|] eqn:E3.
    + symmetry in H6. pose proof (proj1 (treeGroup_Some _ _) H6) as Ht.
      exists t. repeat split; try assumption.
      * destruct Ht as (_ & _ & Hne & _).
        destruct t; [contradiction | reflexivity].
      * intros t' Ht'. apply treeGroup_Some in Ht'. congruence.
      * intros Hnone. now destruct (Hnone t).
    + exists "main". repeat split; try assumption.
      intros t Ht. apply treeGroup_Some in Ht. congruence.
Qed.

End UrlFacts.

(** ** The file-list analysis *)

Module AnalyzerFacts.

Import GitHubService.

(** *** The loop, one variable at a time *)

Lemma languageCounts_fold (files : list File) :
  forall st,
    languageCounts (fold_left analyzeFile files st)
    = fold_left countStep files (languageCounts st).
Proof.
  induction files as [|f files IH]; intros st; [reflexivity|].
  simpl. now rewrite IH.
Qed.

Lemma framework_fold (files : list File) :
  forall st,
    framework (analysis (fold_left analyzeFile files st))
    = fold_left frameworkStep files (framework (analysis st)).
Proof.
  induction files as [|f files IH]; intros st; [reflexivity|].
  simpl. now rewrite IH.
Qed.

Lemma analyzeRepository_framework (o r : string) (files : list File) :
  framework (analyzeRepository o r files)
  = fold_left frameworkStep files "Unknown".
Proof.
  pose proof (framework_fold files (initialAnalysis files)) as H.
  change (framework (analysis (initialAnalysis files))) with "Unknown" in H.
  rewrite <- H. unfold analyzeRepository.
  destruct (languageCounts _); [reflexivity|].
  now destruct (primaryLanguage _).
Qed.

Lemma analyzeRepository_language (o r : string) (files : list File) :
  language (analyzeRepository o r files)
  = match primaryLanguage (fold_left countStep files []) with
    | Some l => l
    | None => "Unknown"
    end.
Proof.
  assert (Hl : forall fs st,
             language (analysis (fold_left analyzeFile fs st))
             = language (analysis st)).
  { induction fs as [|f fs IH]; intros st; [reflexivity|].
    simpl. now rewrite IH. }
  unfold analyzeRepository.
  rewrite (languageCounts_fold files (initialAnalysis files)).
  change (languageCounts (initialAnalysis files)) with (@nil (string * nat)).
  destruct (fold_left countStep files []) as [|x xs] eqn:E.
  - apply Hl.
  - destruct (primaryLanguage (x :: xs)); [reflexivity | apply Hl].
Qed.

(** *** The framework: the last file that matches decides *)

Lemma frameworkStep_none (files : list File) (fw : string) :
  Forall (fun file => fileFramework file = None) files ->
  fold_left frameworkStep files fw = fw.
Proof.
  intros H. revert fw. induction H as [|f files Hf _ IH]; intros fw.
  - reflexivity.
  - simpl. unfold frameworkStep at 2. rewrite Hf. apply IH.
Qed.

Lemma frameworkStep_last (pre post : list File) (file : File)
  (fw0 fw : string) :
  fileFramework file = Some fw ->
  Forall (fun other => fileFramework other = None) post ->
  fold_left frameworkStep (pre ++ file :: post) fw0 = fw.
Proof.
  intros Hf Hpost. rewrite fold_left_app. simpl.
  unfold frameworkStep at 2. rewrite Hf.
  now apply frameworkStep_none.
Qed.

(** Within a file, the first row of the table that has an indicator in
    the file name decides. *)
Lemma frameworkFor_first (rows1 rows2 : list (string * list string))
  (fw : string) (indicators : list string) (fileName : string) :
  Forall (fun row => someIncluded fileName (snd row) = false) rows1 ->
  someIncluded fileName indicators = true ->
  frameworkFor (rows1 ++ (fw, indicators) :: rows2) fileName
  = Some (capitalize fw).
Proof.
  intros H1 H2. induction H1 as [|[k inds] rows1 Hk _ IH]; simpl.
  - now rewrite H2.
  - simpl in Hk. now rewrite Hk.
Qed.

Lemma frameworkFor_none (rows : list (string * list string))
  (fileName : string) :
  Forall (fun row => someIncluded fileName (snd row) = false) rows ->
  frameworkFor rows fileName = None.
Proof.
  intros H. induction H as [|[k inds] rows Hk _ IH]; simpl; [reflexivity|].
  simpl in Hk. now rewrite Hk.
Qed.

(** *** The language: the first of the most frequent ones *)

Lemma insertSorted_head {A : Type} (cmp : A -> A -> Z) (x : A) (l : list A) :
  hd_error (Js.insertSorted cmp x l)
  = match hd_error l with
    | None => Some x
    | Some h => if (cmp x h <=? 0)%Z then Some x else Some h
    end.
Proof. destruct l as [|h l]; simpl; [reflexivity|]. now destruct (_ <=? _)%Z. Qed.

Lemma sort_head (counts : list (string * nat)) :
  hd_error
    (Js.sort (fun x y => (Z.of_nat (snd y) - Z.of_nat (snd x))%Z) counts)
  = firstMax counts.
Proof.
  induction counts as [|x counts IH]; [reflexivity|].
  unfold Js.sort in *. simpl. rewrite insertSorted_head, IH.
  destruct (firstMax counts) as [h|]; [|reflexivity].
  destruct (Nat.leb_spec (snd h) (snd x));
    destruct (Z.leb_spec (Z.of_nat (snd h) - Z.of_nat (snd x)) 0);
    try reflexivity; lia.
Qed.

Lemma primaryLanguage_firstMax (counts : list (string * nat)) :
  primaryLanguage counts = option_map fst (firstMax counts).
Proof.
  unfold primaryLanguage. rewrite <- sort_head.
  destruct (Js.sort _ counts) as [|[l n] rest]; reflexivity.
Qed.

Lemma firstMax_None (counts : list (string * nat)) :
  firstMax counts = None -> counts = [].
Proof.
  destruct counts as [|x counts]; [reflexivity|]. simpl.
  destruct (firstMax counts); [|discriminate].
  now destruct (_ <=? _).
Qed.

Lemma firstMax_split (counts : list (string * nat)) (h : string * nat) :
  firstMax counts = Some h ->
  exists a1 a2,
    counts = a1 ++ h :: a2
    /\ Forall (fun e => snd e < snd h) a1
    /\ Forall (fun e => snd e <= snd h) a2.
Proof.
  revert h. induction counts as [|x counts IH]; intros h; [discriminate|].
  simpl. destruct (firstMax counts) as [h0|] eqn:E.
  - destruct (IH h0 eq_refl) as (b1 & b2 & -> & Hb1 & Hb2).
    destruct (Nat.leb_spec (snd h0) (snd x)); intros [= <-].
    + exists [], (b1 ++ h0 :: b2). repeat split; [constructor|].
      apply Forall_app; split; [|constructor].
      * eapply List.Forall_impl; [|exact Hb1]. simpl; intros; lia.
      * assumption.
      * eapply List.Forall_impl; [|exact Hb2]. simpl; intros; lia.
    + exists (x :: b1), b2. repeat split; [|assumption].
      constructor; assumption.
  - apply firstMax_None in E. subst counts. intros [= <-].
    exists [], []. repeat split; constructor.
Qed.

(** *** The counts after the loop *)

Lemma assoc_increment (l l' : string) (counts : list (string * nat)) :
  assoc l' (increment l counts)
  = if String.eqb l l' then Some (S (default 0 (assoc l counts)))
    else assoc l' counts.
Proof.
  induction counts as [|[k n] counts IH]; simpl.
  - now destruct (String.eqb l l').
  - destruct (String.eqb_spec k l) as [->|Hk]; simpl.
    + destruct (String.eqb_spec l l') as [->|]; [reflexivity|].
      reflexivity.
    + rewrite IH.
      destruct (String.eqb_spec l l') as [<-|]; [|reflexivity].
      destruct (String.eqb_spec k l); [contradiction | reflexivity].
Qed.

Lemma keys_increment_in (l : string) (counts : list (string * nat)) :
  In l (map fst counts) ->
  map fst (increment l counts) = map fst counts.
Proof.
  induction counts as [|[k n] counts IH]; simpl; [contradiction|].
  intros H. destruct (String.eqb_spec k l) as [->|Hk]; [reflexivity|].
  simpl. f_equal. apply IH. destruct H; [contradiction | assumption].
Qed.

Lemma keys_increment_new (l : string) (counts : list (string * nat)) :
  ~ In l (map fst counts) ->
  map fst (increment l counts) = map fst counts ++ [l].
Proof.
  induction counts as [|[k n] counts IH]; simpl; [reflexivity|].
  intros H. destruct (String.eqb_spec k l) as [->|Hk]; [tauto|].
  simpl. f_equal. apply IH. tauto.
Qed.

Lemma assoc_keys (l : string) (counts : list (string * nat)) :
  In l (map fst counts) <-> assoc l counts <> None.
Proof.
  induction counts as [|[k n] counts IH]; simpl; [tauto|].
  destruct (String.eqb_spec k l) as [->|Hk].
  - split; [discriminate | auto].
  - rewrite <- IH. tauto.
Qed.

Lemma assoc_In (l : string) (n : nat) (counts : list (string * nat)) :
  List.NoDup (map fst counts) ->
  In (l, n) counts <-> assoc l counts = Some n.
Proof.
  induction counts as [|[k m] counts IH]; simpl; intros Hnd.
  - split; [contradiction | discriminate].
  - apply List.NoDup_cons_iff in Hnd as [Hk Hnd].
    destruct (String.eqb_spec k l) as [->|Hkl].
    + split.
      * intros [[= ->]|Hin]; [reflexivity|].
        exfalso. apply Hk. now apply (in_map fst) in Hin.
      * intros [= ->]. now left.
    + rewrite <- (IH Hnd). split; [|auto].
      intros [[= -> _]|Hin]; [contradiction | assumption].
Qed.

Lemma countsFor_true (l : string) (file : File) :
  countsFor l file = true <-> fileLanguage file = Some l.
Proof.
  unfold countsFor. destruct (fileLanguage file) as [l'|].
  - rewrite String.eqb_eq. split; congruence.
  - split; discriminate.
Qed.

Lemma occurrences_app (l : string) (a b : list File) :
  occurrences l (a ++ b) = occurrences l a + occurrences l b.
Proof. unfold occurrences. now rewrite List.filter_app, length_app. Qed.

Lemma occurrences_zero (l : string) (files : list File) :
  occurrences l files = 0 ->
  Forall (fun file => fileLanguage file <> Some l) files.
Proof.
  unfold occurrences. induction files as [|f files IH]; simpl; intros H.
  - constructor.
  - destruct (countsFor l f) eqn:E; [discriminate|].
    constructor; [|now apply IH].
    intros Hf. apply countsFor_true in Hf. congruence.
Qed.

Lemma occurrences_pos (l : string) (files : list File) :
  0 < occurrences l files ->
  exists pre file post,
    files = pre ++ file :: post /\ fileLanguage file = Some l.
Proof.
  unfold occurrences. induction files as [|f files IH]; simpl; [lia|].
  destruct (countsFor l f) eqn:E.
  - intros _. exists [], f, files. split; [reflexivity|].
    now apply countsFor_true.
  - intros H. destruct (IH H) as (pre & file & post & -> & Hf).
    now exists (f :: pre), file, post.
Qed.

Lemma before_snoc (l l' x : string) (keys : list string) :
  Before l l' (keys ++ [x]) ->
  Before l l' keys \/ (In l keys /\ l' = x).
Proof.
  intros (k1 & k2 & E & Hin).
  destruct (exists_last (l := k2)) as (k2' & y & ->).
  { intros ->. contradiction. }
  change (l :: k2' ++ [y]) with ((l :: k2') ++ [y]) in E.
  rewrite List.app_assoc in E.
  apply List.app_inj_tail in E as [-> ->].
  apply List.in_app_or in Hin as [Hin|[<-|[]]].
  - left. now exists k1, k2'.
  - right. split; [|reflexivity].
    apply List.in_or_app. right. now left.
Qed.

Lemma encountered_snoc (l l' : string) (files : list File) (file : File) :
  EncounteredBefore l l' files -> EncounteredBefore l l' (files ++ [file]).
Proof.
  intros (pre & f & post & -> & Hf & Hpre).
  exists pre, f, (post ++ [file]).
  split; [now rewrite <- List.app_assoc | now split].
Qed.

(** What the loop leaves in [languageCounts]: one entry for each language
    that some file counts for, holding the number of these files, the
    entries standing in the order in which the languages were first
    met. *)
Lemma languageCounts_invariant (files : list File) :
  let counts := fold_left countStep files [] in
  List.NoDup (map fst counts)
  /\ (forall l,
        assoc l counts
        = if occurrences l files =? 0 then None
          else Some (occurrences l files))
  /\ (forall l l',
        Before l l' (map fst counts) -> EncounteredBefore l l' files).
Proof.
  induction files as [|file files IH] using List.rev_ind; simpl.
  - split; [constructor|split; [reflexivity|]].
    intros l l' (k1 & k2 & E & _). destruct k1; discriminate.
  - destruct IH as (Hnd & Hassoc & Hord).
    rewrite fold_left_app. cbn [fold_left].
    set (counts := fold_left countStep files []) in *.
    destruct (fileLanguage file) as [l0|] eqn:El.
    + replace (countStep counts file) with (increment l0 counts)
        by (unfold countStep; now rewrite El).
      assert (Hc : forall l, countsFor l file = String.eqb l0 l).
      { intros l. unfold countsFor. now rewrite El. }
      assert (Hocc : forall l, occurrences l (files ++ [file])
                               = occurrences l files
                                 + (if String.eqb l0 l then 1 else 0)).
      { intros l. rewrite occurrences_app. f_equal.
        unfold occurrences. simpl. rewrite Hc.
        now destruct (String.eqb l0 l). }
      split; [|split].
      * destruct (in_dec string_dec l0 (map fst counts)) as [Hin|Hin].
        -- now rewrite keys_increment_in.
        -- rewrite keys_increment_new by assumption.
           apply List.NoDup_app; repeat split;
             [assumption | repeat constructor; auto | ].
           intros a Ha [<-|[]]. contradiction.
      * intros l. rewrite assoc_increment, Hocc, !Hassoc.
        destruct (String.eqb_spec l0 l) as [<-|Hne].
        -- destruct (Nat.eqb_spec (occurrences l0 files) 0) as [->|];
             simpl.
           ++ reflexivity.
           ++ destruct (Nat.eqb_spec (occurrences l0 files + 1) 0);
                [lia|]. f_equal. lia.
        -- now rewrite Nat.add_0_r.
      * intros l l' Hb.
        destruct (in_dec string_dec l0 (map fst counts)) as [Hin|Hin].
        -- rewrite keys_increment_in in Hb by assumption.
           apply encountered_snoc. now apply Hord.
        -- rewrite keys_increment_new in Hb by assumption.
           apply before_snoc in Hb as [Hb|[Hl ->]].
           ++ apply encountered_snoc. now apply Hord.
           ++ apply assoc_keys in Hl. rewrite Hassoc in Hl.
              destruct (Nat.eqb_spec (occurrences l files) 0) as [|Hpos];
                [contradiction|].
              destruct (occurrences_pos l files)
                as (pre & f & post & -> & Hf); [lia|].
              assert (H0 : occurrences l0 (pre ++ f :: post) = 0).
              { destruct (Nat.eqb_spec
                            (occurrences l0 (pre ++ f :: post)) 0)
                  as [E|E]; [exact E|].
                exfalso. apply Hin. apply assoc_keys.
                rewrite Hassoc.
                destruct (Nat.eqb_spec
                            (occurrences l0 (pre ++ f :: post)) 0);
                  [contradiction | discriminate]. }
              apply occurrences_zero in H0.
              apply Forall_app in H0 as [Hpre _].
              exists pre, f, (post ++ [file]).
              split; [now rewrite <- List.app_assoc | now split].
    + replace (countStep counts file) with counts
        by (unfold countStep; now rewrite El).
      assert (Hocc : forall l, occurrences l (files ++ [file])
                               = occurrences l files).
      { intros l. rewrite occurrences_app.
        unfold occurrences at 2. simpl. unfold countsFor.
        rewrite El. simpl. lia. }
      split; [assumption|split].
      * intros l. now rewrite Hocc.
      * intros l l' Hb. apply encountered_snoc. now apply Hord.
Qed.

Lemma countStep_none (files : list File) (counts : list (string * nat)) :
  Forall (fun file => fileLanguage file = None) files ->
  fold_left countStep files counts = counts.
Proof.
  intros H. revert counts. induction H as [|f files Hf _ IH]; intros counts.
  - reflexivity.
  - simpl. unfold countStep at 2. rewrite Hf. apply IH.
Qed.

(** The language the analysis reports, for a file list in which some
    file counts for a language. *)
Lemma most_frequent_first (o r : string) (files : list File) :
  Exists (fun file => fileLanguage file <> None) files ->
  let l := language (analyzeRepository o r files) in
  0 < occurrences l files
  /\ (forall l', occurrences l' files <= occurrences l files)
  /\ (forall l',
        l' <> l -> occurrences l' files = occurrences l files ->
        EncounteredBefore l l' files).
Proof.
  intros Hex. simpl.
  rewrite analyzeRepository_language, primaryLanguage_firstMax.
  destruct (languageCounts_invariant files) as (Hnd & Hassoc & Hord).
  set (counts := fold_left countStep files []) in *.
  assert (Hentry : forall l n,
             In (l, n) counts <-> occurrences l files = n /\ 0 < n).
  { intros l n. rewrite (assoc_In l n counts Hnd), Hassoc.
    destruct (Nat.eqb_spec (occurrences l files) 0) as [E|E].
    - split; [discriminate | lia].
    - split; [intros [= <-]; lia | intros [-> _]; reflexivity]. }
  assert (Hne : counts <> []).
  { apply List.Exists_exists in Hex as (f & Hin & Hf).
    destruct (fileLanguage f) as [l0|] eqn:El; [|contradiction].
    assert (0 < occurrences l0 files).
    { apply in_split in Hin as (pre & post & ->).
      rewrite occurrences_app. unfold occurrences at 2. simpl.
      apply countsFor_true in El. rewrite El. simpl. lia. }
    intros E0. assert (Hin0 : In (l0, occurrences l0 files) counts)
      by (apply Hentry; split; [reflexivity | assumption]).
    rewrite E0 in Hin0. contradiction. }
  destruct (firstMax counts) as [[l n]|] eqn:Emax;
    [|now apply firstMax_None in Emax].
  destruct (firstMax_split _ _ Emax) as (a1 & a2 & Ecounts & Ha1 & Ha2).
  simpl in *.
  assert (Hl : occurrences l files = n /\ 0 < n).
  { apply Hentry. rewrite Ecounts. apply in_or_app. right. now left. }
  destruct Hl as [Hl Hpos]. rewrite Hl.
  assert (Hle : forall l', occurrences l' files <= n).
  { intros l'.
    destruct (Nat.eq_dec (occurrences l' files) 0) as [->|Hnz]; [lia|].
    assert (Hin : In (l', occurrences l' files) counts)
      by (apply Hentry; split; [reflexivity | lia]).
    rewrite Ecounts in Hin.
    apply in_app_or in Hin as [Hin|[Heq|Hin]].
    - rewrite List.Forall_forall in Ha1. apply Ha1 in Hin. simpl in Hin. lia.
    - inversion Heq. lia.
    - rewrite List.Forall_forall in Ha2. apply Ha2 in Hin. simpl in Hin. lia. }
  repeat split; [assumption | assumption |].
  intros l' Hneq Htie. apply Hord.
  assert (Hin : In (l', n) counts)
    by (apply Hentry; split; [assumption | assumption]).
  rewrite Ecounts in Hin |- *.
  apply in_app_or in Hin as [Hin|[Heq|Hin]].
  - rewrite List.Forall_forall in Ha1. apply Ha1 in Hin. simpl in Hin. lia.
  - inversion Heq. congruence.
  - exists (map fst a1), (map fst a2).
    split; [now rewrite map_app |].
    now apply (in_map fst) in Hin.
Qed.

(** *** What [getRepositoryData] returns *)

Lemma getRepositoryData_Ok (upstream : Upstream)
  (localeCompare : string -> string -> Z)
  (JSON_parse : string -> option Json) (url : string)
  (data : RepositoryData) :
  getRepositoryData upstream localeCompare JSON_parse url = Js.Ok data ->
  exists parsed info,
    parseGitHubUrl url = Js.Ok parsed
    /\ getRepoInfo upstream (owner parsed) (repo parsed) = Js.Ok info
    /\ data =
       {| metadata :=
            {| meta_analysis :=
                 analyzeRepository (owner parsed) (repo parsed)
                   (getRepoFiles upstream localeCompare
                      (owner parsed) (repo parsed) (branch parsed));
               repoName := repo parsed;
               repoOwner := owner parsed;
               meta_branch := branch parsed;
               meta_url := url |};
          files := getRepoFiles upstream localeCompare
                     (owner parsed) (repo parsed) (branch parsed);
          readme := getReadmeContent upstream
                      (owner parsed) (repo parsed) (branch parsed);
          packageJson := getPackageJson upstream JSON_parse
                           (owner parsed) (repo parsed) (branch parsed);
          repoInfo := info |}.
Proof.
  unfold getRepositoryData.
  destruct (parseGitHubUrl url) as [parsed|] eqn:Ep; [|discriminate].
  destruct (getRepoInfo upstream (owner parsed) (repo parsed))
    as [info|] eqn:Ei; [|discriminate].
  intros [= <-]. exists parsed, info. repeat split. exact Ei.
Qed.

(** C2 (amended). The derived language does not depend on the declared
    primary language, which the analysis never reads: it is [Unknown]
    when no file counts for a language by its extension, and otherwise
    the language most files count for, the one met first in the pass
    over the files when several share the greatest count.  The declared
    value is returned as [repoInfo.language] only. *)
Theorem language_from_file_extensions :
  (forall o r files,
      Forall (fun file => fileLanguage file = None) files ->
      language (analyzeRepository o r files) = "Unknown")
  /\ (forall o r files,
        Exists (fun file => fileLanguage file <> None) files ->
        let l := language (analyzeRepository o r files) in
        0 < occurrences l files
        /\ (forall l', occurrences l' files <= occurrences l files)
        /\ (forall l',
              l' <> l -> occurrences l' files = occurrences l files ->
              EncounteredBefore l l' files))
  /\ (forall upstream localeCompare JSON_parse url data,
        getRepositoryData upstream localeCompare JSON_parse url
        = Js.Ok data ->
        language (meta_analysis (metadata data))
        = language (analyzeRepository (repoOwner (metadata data))
                      (repoName (metadata data)) (files data))
        /\ exists d,
            getRepo upstream (repoOwner (metadata data))
              (repoName (metadata data)) = Js.Resolved d
            /\ info_language (repoInfo data) = data_language d).
Proof.
  split; [|split].
  - intros o r files H.
    rewrite analyzeRepository_language, countStep_none by assumption.
    reflexivity.
  - exact most_frequent_first.
  - intros upstream localeCompare JSON_parse url data H.
    destruct (getRepositoryData_Ok _ _ _ _ _ H)
      as (parsed & info & _ & Hinfo & ->). simpl.
    split; [reflexivity|].
    unfold getRepoInfo in Hinfo.
    destruct (getRepo upstream (owner parsed) (repo parsed)) as [d|];
      [|discriminate].
    exists d. split; [reflexivity|].
    injection Hinfo as <-. reflexivity.
Qed.

(** C2, as stated, fails: the repository declares Python, its one file
    is [index.js], and the derived language is JavaScript. *)
Lemma declared_language_not_used :
  exists data,
    getRepositoryData Examples.pythonDeclared Examples.byteCompare
      Examples.noJson Examples.helloUrl = Js.Ok data
    /\ info_language (repoInfo data) = Some "Python"
    /\ language (meta_analysis (metadata data)) = "JavaScript"
    /\ language (meta_analysis (metadata data))
       <> declaredOrComputed (info_language (repoInfo data))
            (language (analyzeRepository "octocat" "Hello-World"
                         (files data))).
Proof.
  eexists. split; [vm_compute; reflexivity|].
  split; [reflexivity|]. split; [reflexivity|].
  vm_compute. discriminate.
Qed.

(** C3 (amended). For one file the first row of the indicator table, in
    the order of the table, that has an indicator in the lower-cased
    file name gives the framework; over the file list the last file
    that has such a row decides, and the framework is [Unknown] when no
    file has one. *)
Theorem framework_from_last_matching_file :
  (forall file rows1 fw indicators rows2,
      frameworkIndicators = rows1 ++ (fw, indicators) :: rows2 ->
      Forall (fun row =>
                someIncluded (Js.toLowerCase (name file)) (snd row) = false)
        rows1 ->
      someIncluded (Js.toLowerCase (name file)) indicators = true ->
      fileFramework file = Some (capitalize fw))
  /\ (forall file,
        Forall (fun row =>
                  someIncluded (Js.toLowerCase (name file)) (snd row) = false)
          frameworkIndicators ->
        fileFramework file = None)
  /\ (forall o r files,
        Forall (fun file => fileFramework file = None) files ->
        framework (analyzeRepository o r files) = "Unknown")
  /\ (forall o r pre file post fw,
        fileFramework file = Some fw ->
        Forall (fun other => fileFramework other = None) post ->
        framework (analyzeRepository o r (pre ++ file :: post)) = fw).
Proof.
  repeat split.
  - intros file rows1 fw indicators rows2 E H1 H2.
    unfold fileFramework. rewrite E. now apply frameworkFor_first.
  - intros file H. now apply frameworkFor_none.
  - intros o r files H.
    rewrite analyzeRepository_framework. now apply frameworkStep_none.
  - intros o r pre file post fw Hf Hpost.
    rewrite analyzeRepository_framework. now apply frameworkStep_last.
Qed.

(** C3, as stated, fails: [package.json] matches the React row and comes
    first, [manage.py] matches the Django row and comes later, and the
    derived framework is Django. *)
Lemma later_file_changes_framework :
  fileFramework (Examples.file "package.json") = Some "React"
  /\ firstMatchingFile Examples.twoManifests = "React"
  /\ framework (analyzeRepository "octocat" "Hello-World"
                  Examples.twoManifests) = "Django"
  /\ framework (analyzeRepository "octocat" "Hello-World"
                  Examples.twoManifests)
     <> firstMatchingFile Examples.twoManifests.
Proof. repeat split; try reflexivity. vm_compute. discriminate. Qed.

(** C5 (amended). A text that is not a repository URL and a failing
    repository request make the analysis fail, the latter with one and
    the same message whatever the status of the response; a failing
    tree request leaves the file list empty and a failing README or
    manifest request leaves [null], and the analysis succeeds. *)
Theorem getRepositoryData_failures (upstream : Upstream)
  (localeCompare : string -> string -> Z)
  (JSON_parse : string -> option Json) (url : string) :
  (forall message,
      parseGitHubUrl url = Js.Throw message ->
      getRepositoryData upstream localeCompare JSON_parse url
      = Js.Throw "Failed to fetch repository data: Invalid GitHub URL format")
  /\ (forall parsed,
        parseGitHubUrl url = Js.Ok parsed ->
        (forall error,
            getRepo upstream (owner parsed) (repo parsed)
            = Js.Rejected error ->
            getRepositoryData upstream localeCompare JSON_parse url
            = Js.Throw "Failed to fetch repository data: Failed to fetch repository information")
        /\ (forall d,
              getRepo upstream (owner parsed) (repo parsed)
              = Js.Resolved d ->
              exists data,
                getRepositoryData upstream localeCompare JSON_parse url
                = Js.Ok data
                /\ (forall error,
                      getTree upstream (owner parsed) (repo parsed)
                        (branch parsed) = Js.Rejected error ->
                      files data = []
                      /\ fileCount (meta_analysis (metadata data)) = 0
                      /\ language (meta_analysis (metadata data))
                         = "Unknown")
                /\ (forall error,
                      getReadme upstream (owner parsed) (repo parsed)
                      = Js.Rejected error ->
                      readme data = None)
                /\ (forall error,
                      getPackage upstream (owner parsed) (repo parsed)
                        (branch parsed) = Js.Rejected error ->
                      packageJson data = None))).
Proof.
  split.
  - intros message H. unfold getRepositoryData. rewrite H.
    unfold parseGitHubUrl in H.
    destruct (urlMatch url); [discriminate|]. now inversion H.
  - intros parsed Hp. split.
    + intros error He. unfold getRepositoryData, getRepoInfo.
      now rewrite Hp, He.
    + intros d Hd. unfold getRepositoryData, getRepoInfo.
      rewrite Hp, Hd. eexists. split; [reflexivity|].
      cbn [files metadata meta_analysis readme packageJson].
      split; [|split]; intros error H.
      * unfold getRepoFiles. rewrite H. now repeat split.
      * unfold getReadmeContent. now rewrite H.
      * unfold getPackageJson. now rewrite H.
Qed.

(** C5, as stated, fails: the statuses 404 and 403 of the repository
    request give the same failure, and a tree request that fails gives
    a success with no file. *)
Lemma failures_not_told_apart :
  getRepositoryData (Examples.repoFails (Some 404)) Examples.byteCompare
    Examples.noJson Examples.helloUrl
  = getRepositoryData (Examples.repoFails (Some 403)) Examples.byteCompare
      Examples.noJson Examples.helloUrl
  /\ exists data,
      getRepositoryData Examples.treeFails Examples.byteCompare
        Examples.noJson Examples.helloUrl = Js.Ok data
      /\ files data = []
      /\ fileCount (meta_analysis (metadata data)) = 0.
Proof.
  split; [reflexivity|].
  eexists. split; [vm_compute; reflexivity|]. split; reflexivity.
Qed.

End AnalyzerFacts.

(** ** The generation client *)

Module OpenRouterFacts.

Import GitHubService OpenRouterService.

(** What the prompt builder returns for a [repoData] that holds its
    [metadata], as every analyzer output does.  When the manifest
    segment is built, the prompt is the header, the README segment, a
    newline, the manifest segment and the footer, and the segment of a
    README or manifest that is [null] or absent is the empty string
    (that of a README that is there holds its text); the builder throws
    exactly when the manifest segment does, which is when the manifest
    is truthy and its conversion to a string throws, as that of an
    object with an own [toString] does. *)
Theorem buildDocumentationPrompt_optional_segments
  (formatFileSize : Z -> string) (typeErrorMessage : string -> string)
  (toUpperCase : string -> string) (largeNumberText : Z -> string)
  (format style : string) :
  (forall repoData : RepositoryData,
      in_metadata (ofAnalyzer repoData) = Some (metadata repoData)
      /\ in_readme (ofAnalyzer repoData) = readme repoData
      /\ in_packageJson (ofAnalyzer repoData) = packageJson repoData)
  /\ (forall input m segment,
        in_metadata input = Some m ->
        packageSegment typeErrorMessage largeNumberText
          (in_packageJson input) = Js.Ok segment ->
        buildDocumentationPrompt formatFileSize typeErrorMessage
          toUpperCase largeNumberText input (Some format) style
        = Js.Ok (promptHeader toUpperCase m format style +:+
                 readmeSegment (in_readme input) +:+ Js.nl +:+
                 segment +:+
                 promptFooter formatFileSize toUpperCase (in_files input)
                   format))
  /\ (forall input m message,
        in_metadata input = Some m ->
        packageSegment typeErrorMessage largeNumberText
          (in_packageJson input) = Js.Throw message ->
        buildDocumentationPrompt formatFileSize typeErrorMessage
          toUpperCase largeNumberText input (Some format) style
        = Js.Throw message)
  /\ readmeSegment None = ""
  /\ packageSegment typeErrorMessage largeNumberText None = Js.Ok ""
  /\ (forall input m,
        in_metadata input = Some m ->
        in_readme input = None ->
        in_packageJson input = None ->
        buildDocumentationPrompt formatFileSize typeErrorMessage
          toUpperCase largeNumberText input (Some format) style
        = Js.Ok (promptHeader toUpperCase m format style +:+ Js.nl +:+
                 promptFooter formatFileSize toUpperCase (in_files input)
                   format))
  /\ (forall c text,
        readmeSegment (Some (String c text))
        = "README Content:" +:+ Js.nl +:+ String c text +:+ Js.nl)
  /\ (forall manifest,
        (exists text,
            packageSegment typeErrorMessage largeNumberText (Some manifest)
            = Js.Ok text)
        \/ (packageSegment typeErrorMessage largeNumberText (Some manifest)
            = Js.Throw (typeErrorMessage "primitive value")
            /\ jsonTruthy manifest = true
            /\ jsonToString largeNumberText manifest = None))
  /\ (forall fields,
        jsonToString largeNumberText (JObject fields) = None
        <-> hasOwn "toString" fields = true).
Proof.
  split; [intros; repeat split|].
  split.
  { intros input m segment Hm Hs. unfold buildDocumentationPrompt.
    now rewrite Hm, Hs. }
  split.
  { intros input m message Hm Hs. unfold buildDocumentationPrompt.
    now rewrite Hm, Hs. }
  split; [reflexivity|]. split; [reflexivity|].
  split.
  { intros input m Hm Hr Hp. unfold buildDocumentationPrompt.
    now rewrite Hm, Hr, Hp. }
  split; [reflexivity|].
  split.
  { intros manifest. unfold packageSegment.
    destruct (jsonTruthy manifest); [|left; now eexists].
    destruct (jsonToString largeNumberText manifest);
      [left; now eexists | right; now repeat split]. }
  intros fields. cbn [jsonToString].
  destruct (hasOwn "toString" fields); split; congruence.
Qed.

(** C8. The analyzer output of a repository that has no README and whose
    manifest has a key [toString] makes the prompt builder throw: the
    template converts the parsed manifest to a string, and the
    conversion of such an object is a [TypeError], whatever the format
    and the style. *)
Lemma manifest_with_toString_throws :
  readme Examples.shadowedRepository = None
  /\ packageJson Examples.shadowedRepository
     = Some (JObject [ ("name", JString "x"); ("toString", JNumber 1) ])
  /\ buildDocumentationPrompt Examples.sizeInBytes Examples.typeErrorMessage
       Examples.upperCase Examples.largeNumber
       (ofAnalyzer Examples.shadowedRepository) (Some "markdown")
       "professional"
     = Js.Throw "Cannot convert object to primitive value"
  /\ (forall formatFileSize typeErrorMessage toUpperCase largeNumberText
             format style,
        buildDocumentationPrompt formatFileSize typeErrorMessage
          toUpperCase largeNumberText
          (ofAnalyzer Examples.shadowedRepository) (Some format) style
        = Js.Throw (typeErrorMessage "primitive value")).
Proof. repeat split. Qed.

(** C4 (amended). The request that [generateDocumentation] posts carries
    the model identifier of the options as it is, whether the vendor
    knows it or not; the default [anthropic/claude-3.5-sonnet] is used
    only when the options carry no identifier.  The outcome is read off
    the vendor's answer to that request. *)
Theorem generateDocumentation_sends_requested_model
  (formatFileSize : Z -> string) (typeErrorMessage : string -> string)
  (toUpperCase : string -> string) (largeNumberText : Z -> string)
  (vendor : Vendor) (input : PromptInput) (options : GenerationOptions)
  (prompt : string) :
  buildDocumentationPrompt formatFileSize typeErrorMessage
    toUpperCase largeNumberText input
    (Some (default "markdown" (opt_format options)))
    (default "professional" (opt_style options)) = Js.Ok prompt ->
  generateDocumentation formatFileSize typeErrorMessage
    toUpperCase largeNumberText vendor input options
  = readCompletion typeErrorMessage (chatRequest prompt options)
      (postChatCompletions vendor (chatRequest prompt options))
  /\ (forall m,
        opt_model options = Some m ->
        req_model (chatRequest prompt options) = m)
  /\ (opt_model options = None ->
      req_model (chatRequest prompt options)
      = "anthropic/claude-3.5-sonnet").
Proof.
  intros Hp. repeat split.
  - unfold generateDocumentation. now rewrite Hp.
  - intros m Hm. unfold chatRequest. now rewrite Hm.
  - intros Hm. unfold chatRequest. now rewrite Hm.
Qed.

(** C4, as stated, fails: the identifier [not-a-real-model] is posted as
    it is, a vendor that echoes the identifier answers with it, and with
    a vendor that rejects it the generation fails. *)
Lemma unknown_model_sent_upstream :
  (forall prompt,
      req_model (chatRequest prompt Examples.unknownModel)
      = "not-a-real-model")
  /\ "not-a-real-model" <> defaultModel
  /\ (exists result,
        generateDocumentation Examples.sizeInBytes Examples.typeErrorMessage
          Examples.upperCase Examples.largeNumber
          Examples.echoVendor (ofAnalyzer Examples.bareRepository)
          Examples.unknownModel = Js.Ok result
        /\ result_content result = "not-a-real-model"
        /\ result_model result = Some "not-a-real-model")
  /\ generateDocumentation Examples.sizeInBytes Examples.typeErrorMessage
          Examples.upperCase Examples.largeNumber
       Examples.strictVendor (ofAnalyzer Examples.bareRepository)
       Examples.unknownModel
     = Js.Throw "AI generation failed: not a valid model ID".
Proof.
  split; [reflexivity|]. split; [discriminate|]. split.
  - eexists. split; [vm_compute; reflexivity|]. split; reflexivity.
  - vm_compute. reflexivity.
Qed.

Lemma isListedModel_true (m : ModelEntry) :
  isListedModel m = true <->
  exists before after,
    model_id m = before +:+ "claude" +:+ after
    \/ model_id m = before +:+ "gpt" +:+ after
    \/ model_id m = before +:+ "gemini" +:+ after.
Proof.
  unfold isListedModel. rewrite !orb_true_iff, !JsFacts.includes_true.
  split.
  - intros [[(b & a & H)|(b & a & H)]|(b & a & H)]; exists b, a; tauto.
  - intros (b & a & [H|[H|H]]); eauto.
Qed.

(** C7 (amended). The model listing keeps the entries of the vendor's
    catalog whose identifier holds [claude], [gpt] or [gemini], in the
    order of the catalog; when the catalog request fails, or its answer
    holds no list, the listing is the empty list, and no error is
    thrown. *)
Theorem getAvailableModels_filters_or_empty (vendor : Vendor) :
  (forall data,
      getModels vendor = Js.Resolved (Some data) ->
      getAvailableModels vendor = List.filter isListedModel data
      /\ forall m,
          In m (getAvailableModels vendor) <->
          In m data
          /\ exists before after,
              model_id m = before +:+ "claude" +:+ after
              \/ model_id m = before +:+ "gpt" +:+ after
              \/ model_id m = before +:+ "gemini" +:+ after)
  /\ (getModels vendor = Js.Resolved None -> getAvailableModels vendor = [])
  /\ (forall error,
        getModels vendor = Js.Rejected error ->
        getAvailableModels vendor = []).
Proof.
  unfold getAvailableModels. split; [|split].
  - intros data H. rewrite H. split; [reflexivity|].
    intros m. rewrite List.filter_In, isListedModel_true. tauto.
  - intros H. now rewrite H.
  - intros error H. now rewrite H.
Qed.

(** C7, as stated, fails: when the catalog request is rejected the
    listing is empty. *)
Lemma no_fallback_models :
  getModels Examples.echoVendor
  = Js.Rejected (Examples.rejection (Some 500))
  /\ getAvailableModels Examples.echoVendor = []
  /\ length (getAvailableModels Examples.echoVendor) = 0.
Proof. repeat split. Qed.

(** The single-file server does what the two statements ask for: an
    identifier outside its list of four is replaced by its default, and
    a failing catalog request gives its four fixed entries. *)
Lemma inline_selectedModel_default (requested : option string) :
  (forall m, requested = Some m -> In m InlineServer.reliableModels ->
             InlineServer.selectedModel requested = m)
  /\ ((forall m, requested = Some m -> ~ In m InlineServer.reliableModels) ->
      InlineServer.selectedModel requested = "openai/gpt-3.5-turbo").
Proof.
  unfold InlineServer.selectedModel. split.
  - intros m -> Hin. simpl in Hin.
    destruct Hin as [<-|[<-|[<-|[<-|[]]]]]; reflexivity.
  - intros H. destruct requested as [m|]; [|reflexivity].
    destruct (Js.arrayIncludes InlineServer.reliableModels m) eqn:E;
      [|now rewrite andb_false_r].
    exfalso. apply (H m eq_refl).
    unfold Js.arrayIncludes in E. apply existsb_exists in E as (x & Hx & E).
    apply String.eqb_eq in E. now subst.
Qed.

Lemma inline_request_model (prompt : string) (options : GenerationOptions) :
  req_model (InlineServer.chatRequest prompt options)
  = InlineServer.selectedModel (opt_model options).
Proof. reflexivity. Qed.

Lemma inline_fallback_models (vendor : Vendor) (error : Js.Rejection) :
  getModels vendor = Js.Rejected error ->
  InlineServer.getAvailableModels vendor = InlineServer.fallbackModels
  /\ length (InlineServer.getAvailableModels vendor) = 4.
Proof.
  intros H. unfold InlineServer.getAvailableModels. now rewrite H.
Qed.

(** In the single-file server the failure of the analysis is told apart
by the status: 404, 403, 401 and the rest give four different messages;
and the language it reports is the declared one. *)
Lemma inline_analysis_failures (status : option nat) :
InlineServer.analysisFailureText (Some 404)
<> InlineServer.analysisFailureText (Some 403)
/\ InlineServer.analysisFailureText (Some 404)
<> InlineServer.analysisFailureText (Some 401)
/\ InlineServer.analysisFailureText (Some 403)
<> InlineServer.analysisFailureText (Some 401)
/\ (status <> Some 404 -> status <> Some 403 -> status <> Some 401 ->
InlineServer.analysisFailureText status
= "Failed to analyze repository. Please check the URL and try again."
/\ InlineServer.analysisFailureText status
<> InlineServer.analysisFailureText (Some 404)
/\ InlineServer.analysisFailureText status
<> InlineServer.analysisFailureText (Some 403)
/\ InlineServer.analysisFailureText status
<> InlineServer.analysisFailureText (Some 401)).
Proof.
split; [discriminate|]. split; [discriminate|]. split; [discriminate|].
intros H4 H3 H1. unfold InlineServer.analysisFailureText at 1 2 4 6.
rewrite !bool_decide_eq_false_2 by assumption.
repeat split; discriminate.
Qed.

Lemma inline_declared_language (c : ascii) (l : string) :
InlineServer.declaredLanguage (Some (String c l)) = String c l
/\ InlineServer.declaredLanguage None = "Unknown".
Proof. split; reflexivity. Qed.

End OpenRouterFacts.

(** ** Paths *)

Module NodePathFacts.

Import NodePath.

(** The last component of [w ++ t] ends with [t] when [t] has no
    separator. *)
Lemma split_app_last (sep : ascii) (w t : string) :
  Js.noChar sep t ->
  exists init lastSeg,
    Js.split sep (w +:+ t) = init ++ [lastSeg +:+ t].
Proof.
  intros Ht. induction w as [|c w (init & l & IH)]; simpl.
  - exists [], "". now rewrite JsFacts.split_noChar.
  - destruct (Ascii.eqb c sep).
    + exists ("" :: init), l. now rewrite IH.
    + rewrite IH. destruct init as [|h init]; simpl.
      * now exists [], (String c l).
      * now exists (String c h :: init), l.
Qed.

Lemma long_not_dots (s : string) :
  2 < String.length s ->
  String.eqb s "" = false /\ String.eqb s "." = false
  /\ String.eqb s ".." = false.
Proof.
  intros H. repeat split; apply String.eqb_neq; intros ->; simpl in H; lia.
Qed.

Lemma normalizeSegments_snoc (allow : bool) (segs : list string)
  (seg : string) :
  2 < String.length seg ->
  normalizeSegments allow (segs ++ [seg])
  = normalizeSegments allow segs ++ [seg].
Proof.
  intros H. unfold normalizeSegments. rewrite fold_left_app. simpl.
  unfold pushSegment at 1.
  destruct (long_not_dots seg H) as (-> & -> & ->). reflexivity.
Qed.

Lemma join_snoc (sep : string) (parts : list string) (x : string) :
  exists stem, Js.join sep (parts ++ [x]) = stem +:+ x.
Proof.
  unfold Js.join. induction parts as [|p parts (stem & IH)]; simpl.
  - now exists "".
  - destruct (parts ++ [x]) as [|y ys] eqn:E.
    + destruct parts; discriminate.
    + rewrite IH. exists (p +:+ sep +:+ stem).
      now rewrite <- !JsFacts.app_assoc.
Qed.

Lemma stripTrailingSlashes_suffix (w t : string) :
  t <> "" -> Js.noChar slash t ->
  stripTrailingSlashes (w +:+ t) = w +:+ t.
Proof.
  intros Hne Ht.
  assert (Hbase : stripTrailingSlashes t = t /\ t <> "").
  { split; [|assumption]. clear Hne.
    induction t as [|c t IH]; [reflexivity|].
    apply JsFacts.noChar_cons in Ht as [Hc Ht].
    simpl. rewrite (IH Ht).
    destruct t; [|reflexivity].
    apply Ascii.eqb_neq in Hc. now rewrite Hc. }
  destruct Hbase as [Hbase _].
  induction w as [|c w IH]; simpl; [exact Hbase|].
  rewrite IH. destruct (w +:+ t) eqn:E; [|reflexivity].
  destruct w; simpl in E; [contradiction | discriminate].
Qed.

(** A path that ends with an extension of more than two characters
    keeps it through [normalize]. *)
Lemma normalize_suffix (w t : string) :
  2 < String.length t -> Js.noChar slash t ->
  Js.endsWith (normalize (w +:+ t)) t.
Proof.
  intros Hlen Ht.
  assert (Hne : t <> "") by (intros ->; simpl in Hlen; lia).
  unfold normalize.
  destruct (w +:+ t) as [|c rest] eqn:E.
  { destruct w; simpl in E; [contradiction | discriminate]. }
  rewrite <- E.
  assert (Htrail : endsWithSlash (w +:+ t) = false).
  { unfold endsWithSlash.
    rewrite stripTrailingSlashes_suffix by assumption.
    now rewrite Nat.sub_diag. }
  rewrite Htrail.
  destruct (split_app_last slash w t Ht) as (init & l & ->).
  rewrite normalizeSegments_snoc
    by (rewrite JsFacts.length_app; lia).
  destruct (join_snoc "/" (normalizeSegments (negb (Ascii.eqb c slash)) init)
              (l +:+ t)) as (stem & ->).
  destruct (stem +:+ l +:+ t) as [|b body] eqn:Eb.
  { exfalso. assert (Hl : String.length (stem +:+ l +:+ t) = 0)
      by now rewrite Eb.
    rewrite !JsFacts.length_app in Hl. lia. }
  rewrite <- Eb.
  destruct (Ascii.eqb c slash).
  - exists ("/" +:+ stem +:+ l). now rewrite <- !JsFacts.app_assoc.
  - exists (stem +:+ l). now rewrite <- !JsFacts.app_assoc.
Qed.

Lemma noSlash_html : Js.noChar slash ".html".
Proof.
  repeat (apply JsFacts.noChar_cons; split; [discriminate|]).
  intros a b H. destruct a; discriminate.
Qed.

(** [path.join(dir, name + '.html')] ends with [.html]. *)
Lemma join_html (dir name : string) :
  Js.endsWith (join dir (name +:+ ".html")) ".html".
Proof.
  unfold join.
  destruct dir as [|c dir].
  - apply normalize_suffix; [simpl; lia | apply noSlash_html].
  - destruct (name +:+ ".html") eqn:E.
    + destruct name; discriminate.
    + rewrite <- E.
      replace (String c dir +:+ "/" +:+ name +:+ ".html")
        with ((String c dir +:+ "/" +:+ name) +:+ ".html")
        by now rewrite <- !JsFacts.app_assoc.
      apply normalize_suffix; [simpl; lia | apply noSlash_html].
Qed.

End NodePathFacts.

(** ** The pdf export *)

Module PdfExportFacts.

Import ExportService.


End PdfExportFacts.

(** ** The theorems at sample inputs *)

Module Witnesses.

Import GitHubService OpenRouterService ExportService.


(** A heading and a fence that is never closed. *)
Lemma markdownToDOCX_unclosed_fence_witness :
  Nat.odd (countFences
             (Js.split Js.LF (Js.join Js.nl Examples.unclosedLines))) = true
  /\ exists pre fence post,
      Js.split Js.LF (Js.join Js.nl Examples.unclosedLines)
      = pre ++ fence :: post
      /\ isFence fence = true
      /\ Forall (fun line => isFence line = false) post
      /\ Nat.even (countFences pre) = true
      /\ paragraphs (markdownToDOCX (Js.join Js.nl Examples.unclosedLines))
         = renderLines pre.
Proof.
  split; [reflexivity|].
  apply ExportFacts.markdownToDOCX_unclosed_fence. reflexivity.
Defined.

(** A text without the pattern, and a URL with a [/tree/] segment. *)
Lemma parseGitHubUrl_pattern_witness :
  parseGitHubUrl "not a url" = Js.Throw "Invalid GitHub URL format"
  /\ exists before o r after b,
      Examples.treeUrl
      = before +:+ "github.com/" +:+ o +:+ "/" +:+ r +:+ after
      /\ o <> "" /\ r <> "" /\ noSlash o /\ noSlash r
      /\ atBoundary after
      /\ parseGitHubUrl Examples.treeUrl
         = Js.Ok (mkParsedUrl o (Js.replace r ".git" "") b)
      /\ (forall t, TreeSegment after t -> b = t)
      /\ ((forall t, ~ TreeSegment after t) -> b = "main").
Proof.
  split.
  - apply (proj1 (UrlFacts.parseGitHubUrl_pattern "not a url")).
    intros H. destruct (UrlFacts.urlMatch_matches _ H) as [m Hm].
    vm_compute in Hm. discriminate.
  - apply (proj2 (UrlFacts.parseGitHubUrl_pattern Examples.treeUrl)).
    exists "https://", "octocat", "Hello-World.git", "/tree/dev/src".
    split; [reflexivity|].
    split; [discriminate|]. split; [discriminate|].
    split; apply UrlFacts.noSlash_includes; reflexivity.
Defined.

(** No source file; two languages with two files each; a declared language. *)
Lemma language_from_file_extensions_witness :
  language (analyzeRepository "octocat" "Hello-World"
              [ Examples.file "README.md" ]) = "Unknown"
  /\ (let l := language (analyzeRepository "octocat" "Hello-World"
                           Examples.tiedFiles) in
      0 < occurrences l Examples.tiedFiles
      /\ (forall l',
            occurrences l' Examples.tiedFiles
            <= occurrences l Examples.tiedFiles)
      /\ (forall l',
            l' <> l ->
            occurrences l' Examples.tiedFiles
            = occurrences l Examples.tiedFiles ->
            EncounteredBefore l l' Examples.tiedFiles))
  /\ exists data,
      getRepositoryData Examples.pythonDeclared Examples.byteCompare
        Examples.noJson Examples.helloUrl = Js.Ok data
      /\ language (meta_analysis (metadata data))
         = language (analyzeRepository (repoOwner (metadata data))
                       (repoName (metadata data)) (files data))
      /\ exists d,
          getRepo Examples.pythonDeclared (repoOwner (metadata data))
            (repoName (metadata data)) = Js.Resolved d
          /\ info_language (repoInfo data) = data_language d.
Proof.
  destruct AnalyzerFacts.language_from_file_extensions as (H1 & H2 & H3).
  split; [|split].
  - apply H1. repeat constructor.
  - apply H2. apply Exists_cons_hd. vm_compute. discriminate.
  - eexists. split; [vm_compute; reflexivity|].
    apply (H3 Examples.pythonDeclared Examples.byteCompare Examples.noJson
             Examples.helloUrl).
    vm_compute. reflexivity.
Defined.

(** The tenth row of the table; a file list whose second file matches last. *)
Lemma framework_from_last_matching_file_witness :
  fileFramework (Examples.file "next.config.js") = Some (capitalize "next")
  /\ fileFramework (Examples.file "README.md") = None
  /\ framework (analyzeRepository "octocat" "Hello-World"
                  [ Examples.file "README.md" ]) = "Unknown"
  /\ framework (analyzeRepository "octocat" "Hello-World"
                  ([ Examples.file "package.json" ]
                     ++ Examples.file "manage.py"
                     :: [ Examples.file "README.md" ])) = "Django".
Proof.
  destruct AnalyzerFacts.framework_from_last_matching_file
    as (H1 & H2 & H3 & H4).
  split; [|split; [|split]].
  - apply (H1 (Examples.file "next.config.js")
             (firstn 9 frameworkIndicators) "next" [ "next.config.js" ]
             (skipn 10 frameworkIndicators) eq_refl).
    + repeat constructor.
    + reflexivity.
  - apply H2. repeat constructor.
  - apply H3. repeat constructor.
  - apply H4; [reflexivity | repeat constructor].
Defined.

(** A text that is no URL, a repository request and a tree request that fail. *)
Lemma getRepositoryData_failures_witness :
  getRepositoryData Examples.treeFails Examples.byteCompare
    Examples.noJson "not a url"
  = Js.Throw "Failed to fetch repository data: Invalid GitHub URL format"
  /\ getRepositoryData (Examples.repoFails (Some 404)) Examples.byteCompare
       Examples.noJson Examples.helloUrl
     = Js.Throw "Failed to fetch repository data: Failed to fetch repository information"
  /\ exists data,
      getRepositoryData Examples.treeFails Examples.byteCompare
        Examples.noJson Examples.helloUrl = Js.Ok data
      /\ files data = []
      /\ packageJson data = None.
Proof.
  split; [|split].
  - apply (proj1 (AnalyzerFacts.getRepositoryData_failures
                    Examples.treeFails Examples.byteCompare
                    Examples.noJson "not a url")
             "Invalid GitHub URL format").
    reflexivity.
  - apply (proj1 (proj2 (AnalyzerFacts.getRepositoryData_failures
                           (Examples.repoFails (Some 404))
                           Examples.byteCompare Examples.noJson
                           Examples.helloUrl)
                    (mkParsedUrl "octocat" "Hello-World" "main")
                    eq_refl)
             (Examples.rejection (Some 404))).
    reflexivity.
  - destruct (proj2 (proj2 (AnalyzerFacts.getRepositoryData_failures
                              Examples.treeFails Examples.byteCompare
                              Examples.noJson Examples.helloUrl)
                       (mkParsedUrl "octocat" "Hello-World" "main")
                       eq_refl)
                Examples.helloWorld eq_refl)
      as (data & Hdata & Htree & _ & Hpackage).
    exists data. split; [exact Hdata|]. split.
    + apply (Htree (Examples.rejection (Some 500)) eq_refl).
    + apply (Hpackage (Examples.rejection (Some 404)) eq_refl).
Defined.

(** An identifier the vendor does not know, and no identifier. *)
Lemma generateDocumentation_sends_requested_model_witness :
  generateDocumentation Examples.sizeInBytes Examples.typeErrorMessage
          Examples.upperCase Examples.largeNumber
    Examples.strictVendor (ofAnalyzer Examples.bareRepository)
    Examples.unknownModel
  = readCompletion Examples.typeErrorMessage
      (chatRequest Examples.barePrompt Examples.unknownModel)
      (postChatCompletions Examples.strictVendor
         (chatRequest Examples.barePrompt Examples.unknownModel))
  /\ req_model (chatRequest Examples.barePrompt Examples.unknownModel)
     = "not-a-real-model"
  /\ req_model (chatRequest Examples.barePrompt Examples.noOptions)
     = "anthropic/claude-3.5-sonnet".
Proof.
  assert (Hprompt : forall options,
             opt_format options = None -> opt_style options = None ->
             buildDocumentationPrompt Examples.sizeInBytes
               Examples.typeErrorMessage
               Examples.upperCase Examples.largeNumber (ofAnalyzer Examples.bareRepository)
               (Some (default "markdown" (opt_format options)))
               (default "professional" (opt_style options))
             = Js.Ok Examples.barePrompt)
    by (intros options -> ->; vm_compute; reflexivity).
  split; [|split].
  - apply (OpenRouterFacts.generateDocumentation_sends_requested_model
             Examples.sizeInBytes Examples.typeErrorMessage Examples.upperCase Examples.largeNumber
             Examples.strictVendor (ofAnalyzer Examples.bareRepository)
             Examples.unknownModel Examples.barePrompt
             (Hprompt Examples.unknownModel eq_refl eq_refl)).
  - apply (OpenRouterFacts.generateDocumentation_sends_requested_model
             Examples.sizeInBytes Examples.typeErrorMessage Examples.upperCase Examples.largeNumber
             Examples.strictVendor (ofAnalyzer Examples.bareRepository)
             Examples.unknownModel Examples.barePrompt
             (Hprompt Examples.unknownModel eq_refl eq_refl)).
    reflexivity.
  - apply (OpenRouterFacts.generateDocumentation_sends_requested_model
             Examples.sizeInBytes Examples.typeErrorMessage Examples.upperCase Examples.largeNumber
             Examples.strictVendor (ofAnalyzer Examples.bareRepository)
             Examples.noOptions Examples.barePrompt
             (Hprompt Examples.noOptions eq_refl eq_refl)).
    reflexivity.
Defined.

(** A catalog of three entries, and a catalog request that fails. *)
Lemma getAvailableModels_filters_or_empty_witness :
  getAvailableModels Examples.strictVendor
  = [ mkModelEntry "anthropic/claude-3.5-sonnet" None;
      mkModelEntry "openai/gpt-4o" None ]
  /\ getAvailableModels Examples.echoVendor = [].
Proof.
  split.
  - apply (proj1 (OpenRouterFacts.getAvailableModels_filters_or_empty
                    Examples.strictVendor) _ eq_refl).
  - apply (proj2 (proj2 (OpenRouterFacts.getAvailableModels_filters_or_empty
                           Examples.echoVendor))
             (Examples.rejection (Some 500)) eq_refl).
Defined.

(** An analyzer output without README and manifest. *)
Lemma buildDocumentationPrompt_optional_segments_witness :
  buildDocumentationPrompt Examples.sizeInBytes Examples.typeErrorMessage
    Examples.upperCase Examples.largeNumber
    (ofAnalyzer Examples.bareRepository) (Some "markdown") "professional"
  = Js.Ok (promptHeader Examples.upperCase (metadata Examples.bareRepository)
             "markdown" "professional" +:+ Js.nl +:+
           promptFooter Examples.sizeInBytes Examples.upperCase
             (Some (files Examples.bareRepository)) "markdown").
Proof.
  destruct (OpenRouterFacts.buildDocumentationPrompt_optional_segments
              Examples.sizeInBytes Examples.typeErrorMessage
              Examples.upperCase Examples.largeNumber
              "markdown" "professional")
    as (_ & _ & _ & _ & _ & Hboth & _).
  apply (Hboth (ofAnalyzer Examples.bareRepository)
           (metadata Examples.bareRepository) eq_refl eq_refl eq_refl).
Defined.


End Witnesses.


(** * Further properties of the services *)

(** ** Sorting *)

Module SortFacts.

Lemma insertSorted_perm {A : Type} (cmp : A -> A -> Z) (x : A) (l : list A) :
  Permutation (Js.insertSorted cmp x l) (x :: l).
Proof.
  induction l as [|y l IH]; simpl; [reflexivity|].
  destruct (cmp x y <=? 0)%Z; [reflexivity|].
  rewrite IH. apply perm_swap.
Qed.

Lemma sort_perm {A : Type} (cmp : A -> A -> Z) (l : list A) :
  Permutation (Js.sort cmp l) l.
Proof.
  unfold Js.sort. induction l as [|x l IH]; simpl; [reflexivity|].
  rewrite insertSorted_perm. now constructor.
Qed.

Lemma insertSorted_sorted {A : Type} (cmp : A -> A -> Z) (x : A)
  (l : list A) :
  (forall a b, (0 < cmp a b)%Z -> (cmp b a <= 0)%Z) ->
  Sorted (fun a b => (cmp a b <= 0)%Z) l ->
  Sorted (fun a b => (cmp a b <= 0)%Z) (Js.insertSorted cmp x l).
Proof.
  intros Htotal Hl. induction Hl as [|y l Hl IH Hy]; simpl.
  - repeat constructor.
  - destruct (Z.leb_spec (cmp x y) 0) as [Hle|Hgt].
    + constructor; [now constructor | now constructor].
    + constructor; [exact IH|].
      destruct l as [|z l]; simpl.
      * constructor. now apply Htotal.
      * destruct (cmp x z <=? 0)%Z.
        -- constructor. now apply Htotal.
        -- inversion Hy; subst. now constructor.
Qed.

Lemma sort_sorted {A : Type} (cmp : A -> A -> Z) (l : list A) :
  (forall a b, (0 < cmp a b)%Z -> (cmp b a <= 0)%Z) ->
  Sorted (fun a b => (cmp a b <= 0)%Z) (Js.sort cmp l).
Proof.
  intros Htotal. unfold Js.sort.
  induction l as [|x l IH]; simpl; [constructor|].
  now apply insertSorted_sorted.
Qed.

End SortFacts.

(** ** The export service, further *)

Module ExportExtras.

Import ExportService.

(** [path.join(dir, name + ext)] ends with [ext], for an extension of more
    than two characters without a slash. *)
Lemma join_extension (dir name ext : string) :
  2 < String.length ext -> Js.noChar NodePath.slash ext ->
  Js.endsWith (NodePath.join dir (name +:+ ext)) ext.
Proof.
  intros Hlen Hext. unfold NodePath.join.
  destruct dir as [|c dir].
  - now apply NodePathFacts.normalize_suffix.
  - destruct (name +:+ ext) eqn:E.
    + exfalso. assert (Hl : String.length (name +:+ ext) = 0) by now rewrite E.
      rewrite JsFacts.length_app in Hl. lia.
    + rewrite <- E.
      replace (String c dir +:+ "/" +:+ name +:+ ext)
        with ((String c dir +:+ "/" +:+ name) +:+ ext)
        by now rewrite <- !JsFacts.app_assoc.
      now apply NodePathFacts.normalize_suffix.
Qed.

Lemma noSlash_md : Js.noChar NodePath.slash ".md".
Proof.
  repeat (apply JsFacts.noChar_cons; split; [discriminate|]).
  intros a b H. destruct a; discriminate.
Qed.

(** No path ends with [.md] and with [.html]. *)
Lemma md_not_html (a b : string) : a +:+ ".md" <> b +:+ ".html".
Proof.
  revert b. induction a as [|c a IH]; intros b E.
  - apply (f_equal String.length) in E.
    rewrite !JsFacts.length_app in E. simpl in E. lia.
  - destruct b as [|c' b].
    + simpl in E. injection E as _ E.
      destruct a as [|x [|y a]]; simpl in E; try discriminate.
      apply (f_equal String.length) in E. simpl in E.
      rewrite JsFacts.length_app in E. simpl in E. lia.
    + simpl in E. injection E as _ E. now apply (IH b).
Qed.

(** X1. The Markdown export stores the text as it is under a path that
    ends with [.md] and touches no other path; the descriptor gives that
    path, the size in bytes of the text and no note.  When the write
    fails the export throws and the directory is as before. *)
Theorem exportToMarkdown_stores_text (uploadDir : string)
  (canWrite : string -> bool) (disk : Disk) (content filename : string) :
  let filePath := NodePath.join uploadDir (filename +:+ ".md") in
  Js.endsWith filePath ".md"
  /\ (canWrite filePath = true ->
      exists disk',
        exportToMarkdown uploadDir canWrite disk content filename
        = (Js.Ok {| format := "markdown";
                    url := "/uploads/" +:+ filename +:+ ".md";
                    filePath := filePath;
                    size := utf8Length content;
                    note := None |}, disk')
        /\ disk' !! filePath = Some content
        /\ forall path, path <> filePath -> disk' !! path = disk !! path)
  /\ (canWrite filePath = false ->
      exportToMarkdown uploadDir canWrite disk content filename
      = (Js.Throw "Failed to export to Markdown", disk)).
Proof.
  intros filePath. split; [|split].
  - apply join_extension; [simpl; lia | apply noSlash_md].
  - intros Hw. exists (<[ filePath := content ]> disk).
    unfold exportToMarkdown, writeFile, statSize. fold filePath.
    rewrite Hw. unfold Disk in *. rewrite lookup_insert_eq.
    split; [reflexivity|]. split; [reflexivity|].
    intros path Hp. now apply lookup_insert_ne.
  - intros Hw. unfold exportToMarkdown, writeFile. fold filePath.
    now rewrite Hw.
Qed.

(** X2. The Markdown export and the pdf export of one file name write to
    two different paths: after both, in either order, the directory holds
    the Markdown text and the HTML page. *)
Theorem exports_do_not_collide (uploadDir : string)
  (marked : string -> string) (canWrite : string -> bool) (disk : Disk)
  (text1 text2 filename : string) :
  let mdPath := NodePath.join uploadDir (filename +:+ ".md") in
  let htmlPath := NodePath.join uploadDir (filename +:+ ".html") in
  canWrite mdPath = true -> canWrite htmlPath = true ->
  mdPath <> htmlPath
  /\ (let disk1 :=
        snd (exportToMarkdown uploadDir canWrite disk text1 filename) in
      let disk2 :=
        snd (exportToPDF uploadDir marked canWrite disk1 text2 filename) in
      disk2 !! mdPath = Some text1
      /\ disk2 !! htmlPath = Some (markdownToHTML marked text2))
  /\ (let disk1 :=
        snd (exportToPDF uploadDir marked canWrite disk text2 filename) in
      let disk2 :=
        snd (exportToMarkdown uploadDir canWrite disk1 text1 filename) in
      disk2 !! mdPath = Some text1
      /\ disk2 !! htmlPath = Some (markdownToHTML marked text2)).
Proof.
  intros mdPath htmlPath Hmd Hhtml.
  assert (Hne : mdPath <> htmlPath).
  { intros E.
    destruct (join_extension uploadDir filename ".md") as [a Ha];
      [simpl; lia | apply noSlash_md |].
    destruct (NodePathFacts.join_html uploadDir filename) as [b Hb].
    fold mdPath in Ha. fold htmlPath in Hb.
    rewrite E, Hb in Ha. symmetry in Ha. now apply md_not_html in Ha. }
  split; [exact Hne|].
  unfold exportToMarkdown, exportToPDF, writeFile, statSize.
  fold mdPath. fold htmlPath. rewrite Hmd, Hhtml.
  unfold Disk in *. rewrite !lookup_insert_eq. simpl.
  rewrite !lookup_insert_eq. simpl.
  repeat split;
    first [ apply lookup_insert_eq
          | rewrite lookup_insert_ne by congruence; apply lookup_insert_eq ].
Qed.

Lemma children_bound (lines : list string) :
  forall st,
    length (st_children (run st lines))
    <= length (st_children st) + length lines.
Proof.
  induction lines as [|line lines IH]; intros st; simpl; [lia|].
  etransitivity; [apply IH|].
  unfold step.
  destruct (isFence line), (inCodeBlock st); simpl;
    rewrite ?length_app; simpl; lia.
Qed.

Lemma renderLines_plain (lines : list string) :
  Forall (fun line => isFence line = false) lines ->
  renderLines lines = map lineParagraph lines.
Proof.
  induction 1 as [|line lines Hl _ IH]; [reflexivity|].
  rewrite ExportFacts.renderLines_line by assumption.
  simpl. now rewrite IH.
Qed.

(** X3. The document never has more paragraphs than the text has lines,
    and a text without a fence line gives exactly one paragraph for each
    line, in the order of the lines. *)
Theorem markdownToDOCX_paragraph_count (markdown : string) :
  length (paragraphs (markdownToDOCX markdown))
  <= length (Js.split Js.LF markdown)
  /\ (Forall (fun line => isFence line = false) (Js.split Js.LF markdown) ->
      paragraphs (markdownToDOCX markdown)
      = map lineParagraph (Js.split Js.LF markdown)).
Proof.
  split.
  - apply (children_bound (Js.split Js.LF markdown) initial).
  - apply renderLines_plain.
Qed.

(** X4. The paragraph of a line holds the characters of the line and no
    others: its text is the line less one marker at its head at most, it
    has no run of its own, and it is without text for a blank line
    only. *)
Theorem lineParagraph_keeps_text (line : string) :
  runs (lineParagraph line) = []
  /\ ((Js.allWhiteSpace line = true /\ text (lineParagraph line) = None)
      \/ (Js.allWhiteSpace line = false
          /\ exists marker rest,
              In marker ("" :: markers)
              /\ line = marker +:+ rest
              /\ text (lineParagraph line) = Some rest)).
Proof.
  destruct (Js.allWhiteSpace line) eqn:Hw.
  - rewrite (ExportFacts.blank_line line Hw). split; [reflexivity|]. now left.
  - assert (Ht : String.eqb (Js.trim line) "" = false).
    { apply String.eqb_neq. intros E. apply JsFacts.trim_empty in E.
      congruence. }
    unfold lineParagraph. rewrite Ht.
    repeat match goal with
           | |- context [Js.startsWith line ?m] =>
               let E := fresh "E" in
               destruct (Js.startsWith line m) eqn:E;
               [apply JsFacts.startsWith_true in E as [rest ->];
                split; [reflexivity|]; right; split; [reflexivity|];
                exists m, rest; split; [simpl; tauto|];
                split; reflexivity|]
           end.
    split; [reflexivity|]. right. split; [reflexivity|].
    exists "", line. split; [now left|]. split; reflexivity.
Qed.

End ExportExtras.

(** ** The sweep of the upload directory *)

Module MaintenanceFacts.

Import Maintenance.

Lemma sweep_lookup (now : Z) (names : list string) :
  forall dir : Directory,
    NoDup names ->
    (forall file, file ∈ names -> is_Some (dir !! file)) ->
    forall file,
      sweep now names dir !! file
      = if bool_decide (file ∈ names) then
          match dir !! file with
          | Some mtime => if tooOld now mtime then None else Some mtime
          | None => None
          end
        else dir !! file.
Proof.
  induction names as [|name names IH]; intros dir Hnd Hin file.
  - cbn [sweep]. case_bool_decide as H; [|reflexivity].
    now apply elem_of_nil in H.
  - apply NoDup_cons in Hnd as [Hname Hnd].
    destruct (Hin name) as [mtime Hm]; [apply elem_of_cons; now left|].
    cbn [sweep]. rewrite Hm.
    unfold Directory in *.
    rewrite IH; [| assumption |].
    + destruct (decide (file = name)) as [->|Hne].
      * rewrite (bool_decide_eq_false_2 _ Hname).
        rewrite bool_decide_eq_true_2 by (apply elem_of_cons; now left).
        rewrite Hm.
        destruct (tooOld now mtime); [apply lookup_delete_eq | exact Hm].
      * assert (Hl : (if tooOld now mtime then delete name dir else dir)
                       !! file = dir !! file).
        { destruct (tooOld now mtime);
            [now apply lookup_delete_ne | reflexivity]. }
        rewrite Hl.
        destruct (decide (file ∈ names)) as [Hf|Hf].
        -- rewrite !bool_decide_eq_true_2;
             [reflexivity | apply elem_of_cons; now right | assumption].
        -- rewrite !bool_decide_eq_false_2; [reflexivity | | assumption].
           intros [?|?]%elem_of_cons; contradiction.
    + intros f Hf.
      assert (f <> name) by (intros ->; contradiction).
      destruct (tooOld now mtime);
        [rewrite lookup_delete_ne by congruence|];
        apply Hin; apply elem_of_cons; now right.
Qed.

(** X5. After the sweep the directory holds exactly the entries that are
    not older than twenty-four hours, with the modification times they
    had: an entry goes when [now - mtime] exceeds 86400000 milliseconds,
    and an entry of exactly that age stays. *)
Theorem cleanupOldFiles_removes_old (now : Z) (dir : Directory)
  (file : string) :
  cleanupOldFiles now dir !! file
  = match dir !! file with
    | Some mtime =>
        if (now - mtime >? 86400000)%Z then None else Some mtime
    | None => None
    end.
Proof.
  unfold cleanupOldFiles, readdir.
  rewrite sweep_lookup.
  - destruct (dir !! file) as [mtime|] eqn:E.
    + rewrite bool_decide_eq_true_2; [reflexivity|].
      apply list_elem_of_fmap. exists (file, mtime). split; [reflexivity|].
      now apply elem_of_map_to_list.
    + now destruct (bool_decide _).
  - apply NoDup_fst_map_to_list.
  - intros f [[f' m] [-> Hf]]%list_elem_of_fmap.
    apply elem_of_map_to_list in Hf. simpl. now exists m.
Qed.

End MaintenanceFacts.

(** ** The parser of repository addresses, further *)

Module UrlExtras.

Import GitHubService.

Lemma noChar_includes (c : ascii) (s : string) :
  Js.includes s (String c "") = false -> Js.noChar c s.
Proof.
  intros H a b E.
  assert (Hi : Js.includes s (String c "") = true)
    by (apply JsFacts.includes_true; now exists a, b).
  congruence.
Qed.

Lemma matchHere_exact (o r after : string) :
  o <> "" -> r <> "" -> noSlash o -> noSlash r -> atBoundary after ->
  matchHere ("github.com/" +:+ o +:+ "/" +:+ r +:+ after)
  = Some (mkUrlMatch o r (treeGroup after)).
Proof.
  intros Ho Hr Hno Hnr Hafter. unfold matchHere.
  rewrite (proj2 (UrlFacts.stripPrefix_Some "github.com/" _
                    (o +:+ "/" +:+ r +:+ after)) eq_refl).
  rewrite UrlFacts.spanNotSlash_app;
    [|assumption | right; now exists (r +:+ after)].
  destruct o as [|co o]; [contradiction|].
  simpl. rewrite UrlFacts.spanNotSlash_app by assumption.
  destruct r as [|cr r]; [contradiction|]. reflexivity.
Qed.

Lemma matchHere_other (c : ascii) (s : string) :
  c <> "g"%char -> matchHere (String c s) = None.
Proof.
  intros Hc. unfold matchHere, stripPrefix. cbn [Js.startsWith].
  replace (Ascii.eqb "g" c) with false; [reflexivity|].
  symmetry. apply Ascii.eqb_neq. congruence.
Qed.

Lemma urlMatch_skip (before s : string) :
  Js.noChar "g" before -> urlMatch (before +:+ s) = urlMatch s.
Proof.
  induction before as [|c before IH]; intros H; [reflexivity|].
  apply JsFacts.noChar_cons in H as [Hc H].
  simpl String.append. rewrite UrlFacts.urlMatch_unfold.
  rewrite (matchHere_other c _ Hc). auto.
Qed.

Lemma replace_stem (stem pat rest : string) (c : ascii) :
  Js.noChar c stem ->
  Js.replace (stem +:+ String c pat +:+ rest) (String c pat) ""
  = stem +:+ rest.
Proof.
  induction stem as [|x stem IH]; intros H.
  - cbn [String.append Js.replace].
    change (String c (pat +:+ rest)) with (String c pat +:+ rest).
    rewrite JsFacts.startsWith_app, JsFacts.substring_app. reflexivity.
  - apply JsFacts.noChar_cons in H as [Hx H].
    cbn [String.append Js.replace Js.startsWith].
    replace (Ascii.eqb c x) with false
      by (symmetry; apply Ascii.eqb_neq; congruence).
    cbn [andb]. f_equal. now apply IH.
Qed.

Lemma replace_absent (s pat by_ : string) :
  Js.includes s pat = false -> Js.replace s pat by_ = s.
Proof.
  induction s as [|c s IH]; intros H.
  - cbn [Js.includes] in H. apply orb_false_elim in H as [H _].
    cbn [Js.replace]. now rewrite H.
  - cbn [Js.includes] in H. apply orb_false_elim in H as [H1 H2].
    cbn [Js.replace]. rewrite H1. f_equal. auto.
Qed.

(** X6. When no letter g stands before the host name, as with
    [https://], [http://www.] or nothing, the parser returns the owner
    and the repository name that follow [github.com/] as they are written
    there (the name through [replace]), with the branch of a [/tree/]
    segment that follows the name at once, and [main] without one. *)
Theorem parseGitHubUrl_leftmost (before o r after : string) :
  Js.noChar "g" before ->
  o <> "" -> r <> "" -> noSlash o -> noSlash r -> atBoundary after ->
  (forall b,
     TreeSegment after b ->
     parseGitHubUrl (before +:+ "github.com/" +:+ o +:+ "/" +:+ r +:+ after)
     = Js.Ok {| owner := o; repo := Js.replace r ".git" ""; branch := b |})
  /\ ((forall b, ~ TreeSegment after b) ->
      parseGitHubUrl (before +:+ "github.com/" +:+ o +:+ "/" +:+ r +:+ after)
      = Js.Ok {| owner := o; repo := Js.replace r ".git" "";
                 branch := "main" |}).
Proof.
  intros Hb Ho Hr Hno Hnr Hafter.
  assert (E : urlMatch
                (before +:+ "github.com/" +:+ o +:+ "/" +:+ r +:+ after)
              = Some (mkUrlMatch o r (treeGroup after))).
  { rewrite urlMatch_skip by assumption.
    rewrite UrlFacts.urlMatch_unfold.
    now rewrite matchHere_exact. }
  unfold parseGitHubUrl. rewrite E. cbn [group1 group2 group3].
  split.
  - intros b Hseg. pose proof Hseg as (rest & _ & Hne & _).
    apply UrlFacts.treeGroup_Some in Hseg. rewrite Hseg.
    destruct b; [contradiction | reflexivity].
  - intros Hnone. destruct (treeGroup after) as [b|] eqn:Et; [|reflexivity].
    apply UrlFacts.treeGroup_Some in Et. now apply Hnone in Et.
Qed.

(** X7. The repository name the parser returns is the path component
    after the owner with its first [.git] removed, wherever that stands:
    a name without [.git] is returned as it is, and of a name that has
    no dot before its first [.git] only the text around that [.git] is
    left, also when more text follows it. *)
Theorem parseGitHubUrl_repo_name (url : string) (parsed : ParsedUrl) :
  parseGitHubUrl url = Js.Ok parsed ->
  exists before name after,
    url = before +:+ "github.com/" +:+ owner parsed +:+ "/" +:+ name
          +:+ after
    /\ name <> "" /\ noSlash name /\ atBoundary after
    /\ repo parsed = Js.replace name ".git" ""
    /\ (Js.includes name ".git" = false -> repo parsed = name)
    /\ (forall stem rest,
          name = stem +:+ ".git" +:+ rest -> Js.noChar "." stem ->
          repo parsed = stem +:+ rest).
Proof.
  unfold parseGitHubUrl.
  destruct (urlMatch url) as [m|] eqn:E; [|discriminate].
  intros [= <-]. cbn [repo owner].
  destruct (UrlFacts.urlMatch_Some _ _ E) as (before & s & -> & Hs).
  destruct (UrlFacts.matchHere_Some _ _ Hs)
    as (after & -> & _ & H2 & _ & H4 & H5 & _).
  exists before, (group2 m), after.
  split; [reflexivity|]. split; [assumption|]. split; [assumption|].
  split; [assumption|]. split; [reflexivity|]. split.
  - apply replace_absent.
  - intros stem rest -> Hstem. now apply (replace_stem stem "git" rest ".").
Qed.

End UrlExtras.

(** ** The analyzer, further *)

Module AnalyzerExtras.

Import GitHubService FileViews.

(** What the last step of [analyzeRepository] leaves as the loop set
    it. *)
Lemma analyzeRepository_fields (owner repo : string) (files : list File) :
  let a := analysis (fold_left analyzeFile files (initialAnalysis files)) in
  let r := analyzeRepository owner repo files in
  fileCount r = fileCount a /\ totalLines r = totalLines a
  /\ fileTypes r = fileTypes a /\ hasTests r = hasTests a
  /\ hasDocs r = hasDocs a /\ hasDocker r = hasDocker a
  /\ hasCI r = hasCI a.
Proof.
  unfold analyzeRepository.
  destruct (languageCounts _); [now repeat split|].
  destruct (primaryLanguage _); now repeat split.
Qed.

Lemma loop_fields (files : list File) :
  forall st,
    let a := analysis (fold_left analyzeFile files st) in
    fileCount a = fileCount (analysis st)
    /\ totalLines a = totalLines (analysis st)
    /\ (forall ext,
          default 0 (fileTypes a !! ext)
          = default 0 (fileTypes (analysis st) !! ext)
            + length (List.filter (extensionIs ext) files))
    /\ (forall ext,
          fileTypes a !! ext = None <->
          fileTypes (analysis st) !! ext = None
          /\ List.filter (extensionIs ext) files = []).
Proof.
  induction files as [|file files IH]; intros st; cbn [fold_left].
  - repeat split; try tauto. cbn. lia.
  - destruct (IH (analyzeFile st file)) as (H1 & H2 & H3 & H4).
    cbn zeta in *. rewrite H1, H2.
    split; [reflexivity|]. split; [reflexivity|]. split.
    + intros ext. rewrite H3.
      cbn [analyzeFile analysis fileTypes List.filter].
      unfold extensionIs at 2.
      destruct (String.eqb_spec
                  (Js.toLowerCase (NodePath.extname (name file))) ext)
        as [->|Hne].
      * rewrite lookup_insert_eq. cbn. lia.
      * rewrite lookup_insert_ne by assumption. lia.
    + intros ext. rewrite H4.
      cbn [analyzeFile analysis fileTypes List.filter].
      unfold extensionIs at 2.
      destruct (String.eqb_spec
                  (Js.toLowerCase (NodePath.extname (name file))) ext)
        as [->|Hne].
      * rewrite lookup_insert_eq.
        split; [intros [? _]; discriminate | intros [_ ?]; discriminate].
      * rewrite lookup_insert_ne by assumption. tauto.
Qed.

(** X8. The analysis counts every file once under its lower-cased
    extension: [fileTypes] has the key [ext] exactly when some file has
    that extension, with the number of such files; [fileCount] is the
    length of the file list and [totalLines] is always 0. *)
Theorem analyzeRepository_counts_extensions (owner repo : string)
  (files : list File) (ext : string) :
  let a := analyzeRepository owner repo files in
  let n := length (List.filter
                     (fun file =>
                        String.eqb
                          (Js.toLowerCase (NodePath.extname (name file))) ext)
                     files) in
  fileCount a = length files
  /\ totalLines a = 0
  /\ fileTypes a !! ext = (if n =? 0 then None else Some n).
Proof.
  cbn zeta.
  destruct (analyzeRepository_fields owner repo files)
    as (E1 & E2 & E3 & _).
  destruct (loop_fields files (initialAnalysis files)) as (H1 & H2 & H3 & H4).
  cbn zeta in *. rewrite E1, E2, E3, H1, H2.
  split; [reflexivity|]. split; [reflexivity|].
  specialize (H3 ext). specialize (H4 ext).
  cbn [initialAnalysis analysis fileTypes] in H3, H4.
  rewrite lookup_empty in H3, H4. cbn [default] in H3.
  fold (extensionIs ext).
  destruct (fileTypes _ !! ext) as [k|] eqn:Ek.
  - cbn in H3. rewrite <- H3.
    destruct (Nat.eqb_spec k 0) as [->|]; [|reflexivity].
    exfalso. symmetry in H3. apply length_zero_iff_nil in H3.
    destruct H4 as [_ H4]. now discriminate H4.
  - destruct H4 as [[_ H4] _]; [reflexivity|]. now rewrite H4.
Qed.

Lemma loop_flags (files : list File) :
  forall st,
    let a := analysis (fold_left analyzeFile files st) in
    hasTests a = hasTests (analysis st) || mentions ["test"; "spec"] files
    /\ hasDocs a
       = hasDocs (analysis st)
         || mentions ["readme"; "docs"; "documentation"] files
    /\ hasDocker a
       = hasDocker (analysis st)
         || mentions ["dockerfile"; "docker-compose"] files
    /\ hasCI a
       = hasCI (analysis st)
         || mentions [".github/workflows"; ".gitlab-ci"; "travis"] files.
Proof.
  induction files as [|file files IH]; intros st; cbn [fold_left].
  - cbn. now rewrite !orb_false_r.
  - destruct (IH (analyzeFile st file)) as (H1 & H2 & H3 & H4).
    cbn zeta in *. rewrite H1, H2, H3, H4.
    unfold mentions, someIncluded.
    cbn [analyzeFile analysis hasTests hasDocs hasDocker hasCI existsb].
    rewrite !orb_false_r.
    repeat split;
      repeat match goal with
             | |- context [Js.includes ?s ?w] => destruct (Js.includes s w)
             end;
      cbn [orb]; rewrite ?orb_true_r; reflexivity.
Qed.

(** X9. Each of the four flags is true exactly when some file name,
    lower-cased, includes one of the words of that flag; the order of the
    files and what else they match make no difference. *)
Theorem analyzeRepository_flags (owner repo : string) (files : list File) :
  let a := analyzeRepository owner repo files in
  let some words :=
    existsb (fun file =>
               existsb (fun word =>
                          Js.includes (Js.toLowerCase (name file)) word)
                 words) files in
  hasTests a = some ["test"; "spec"]
  /\ hasDocs a = some ["readme"; "docs"; "documentation"]
  /\ hasDocker a = some ["dockerfile"; "docker-compose"]
  /\ hasCI a = some [".github/workflows"; ".gitlab-ci"; "travis"].
Proof.
  cbn zeta.
  destruct (analyzeRepository_fields owner repo files)
    as (_ & _ & _ & E1 & E2 & E3 & E4).
  destruct (loop_flags files (initialAnalysis files)) as (H1 & H2 & H3 & H4).
  cbn zeta in *. rewrite E1, E2, E3, E4, H1, H2, H3, H4.
  repeat split.
Qed.

Lemma lowerChar_not_G (c : ascii) : Js.lowerChar c <> "G"%char.
Proof. destruct c as [[] [] [] [] [] [] [] []]; vm_compute; discriminate. Qed.

Lemma toLowerCase_no_G (s : string) : Js.noChar "G" (Js.toLowerCase s).
Proof.
  induction s as [|c s IH]; cbn [Js.toLowerCase].
  - intros a b H. destruct a; discriminate.
  - apply JsFacts.noChar_cons. split; [apply lowerChar_not_G | exact IH].
Qed.

(** The indicator [Gemfile], written with a capital, is looked for in a
    lower-cased name. *)
Lemma gemfile_never_included (s : string) :
  Js.includes (Js.toLowerCase s) "Gemfile" = false.
Proof.
  destruct (Js.includes (Js.toLowerCase s) "Gemfile") eqn:E; [|reflexivity].
  apply JsFacts.includes_true in E as (before & after & E).
  exfalso. apply (toLowerCase_no_G s before ("emfile" +:+ after)).
  exact E.
Qed.

(** X10. A file gives the framework Rails only through the indicator
    [config.ru]: the other indicator of that row, [Gemfile], can never
    occur in a lower-cased file name. *)
Theorem rails_from_config_ru_only (file : File) :
  fileFramework file = Some "Rails" ->
  Js.includes (Js.toLowerCase (name file)) "config.ru" = true.
Proof.
  unfold fileFramework, frameworkIndicators.
  cbn [frameworkFor someIncluded existsb].
  rewrite gemfile_never_included.
  repeat match goal with
         | |- context [Js.includes ?s ?w] =>
             lazymatch w with
             | "config.ru" => fail
             | _ => destruct (Js.includes s w); cbn [orb];
                    [vm_compute; discriminate|]
             end
         end.
  destruct (Js.includes _ "config.ru"); [reflexivity|].
  cbn [orb].
  repeat match goal with
         | |- context [Js.includes ?s ?w] =>
             destruct (Js.includes s w); cbn [orb];
             [vm_compute; discriminate|]
         end.
  discriminate.
Qed.

Lemma fromLastDot_none (s : string) :
  NodePath.fromLastDot s = None -> Js.noChar NodePath.dot s.
Proof.
  induction s as [|c s IH]; cbn.
  - intros _ a b H. destruct a; discriminate.
  - destruct (NodePath.fromLastDot s); [discriminate|].
    destruct (Ascii.eqb_spec c NodePath.dot); [discriminate|].
    intros _. apply JsFacts.noChar_cons. auto.
Qed.

Lemma fromLastDot_shape (s e : string) :
  NodePath.fromLastDot s = Some e ->
  exists e', e = String NodePath.dot e' /\ Js.noChar NodePath.dot e'.
Proof.
  induction s as [|c s IH]; cbn; [discriminate|].
  destruct (NodePath.fromLastDot s) as [e0|] eqn:E.
  - intros [= <-]. now apply IH.
  - destruct (Ascii.eqb_spec c NodePath.dot) as [->|]; [|discriminate].
    intros [= <-]. exists s. split; [reflexivity|].
    now apply fromLastDot_none.
Qed.

(** [path.extname] returns the empty string or a dot followed by text
    without a dot. *)
Lemma extname_shape (p : string) :
  NodePath.extname p = ""
  \/ exists e, NodePath.extname p = String NodePath.dot e
               /\ Js.noChar NodePath.dot e.
Proof.
  unfold NodePath.extname.
  destruct (NodePath.fromLastDot _) as [e|] eqn:E; [|now left].
  destruct (_ || _); [now left|]. right. now apply (fromLastDot_shape _ _ E).
Qed.

Lemma lowerChar_dot (c : ascii) :
  Js.lowerChar c = NodePath.dot -> c = NodePath.dot.
Proof.
  destruct c as [[] [] [] [] [] [] [] []]; vm_compute; congruence.
Qed.

Lemma toLowerCase_noChar_dot (s : string) :
  Js.noChar NodePath.dot s -> Js.noChar NodePath.dot (Js.toLowerCase s).
Proof.
  induction s as [|c s IH]; cbn [Js.toLowerCase]; [auto|].
  intros H. apply JsFacts.noChar_cons in H as [Hc H].
  apply JsFacts.noChar_cons. split; [|auto].
  intros E. now apply lowerChar_dot in E.
Qed.

Lemma lowerChar_idem (c : ascii) :
  Js.lowerChar (Js.lowerChar c) = Js.lowerChar c.
Proof.
  destruct c as [[] [] [] [] [] [] [] []]; vm_compute; reflexivity.
Qed.

Lemma toLowerCase_idem (s : string) :
  Js.toLowerCase (Js.toLowerCase s) = Js.toLowerCase s.
Proof.
  induction s as [|c s IH]; cbn; [reflexivity|].
  now rewrite lowerChar_idem, IH.
Qed.

(** X30. Every key of [fileTypes] is the lower-cased extension of one of
    the files, is in lower case, and is the empty string or a dot
    followed by text without a dot; so no key is the name of a property
    an object inherits. *)
Theorem fileTypes_keys (owner repo : string) (files : list File)
  (ext : string) (count : nat) :
  fileTypes (analyzeRepository owner repo files) !! ext = Some count ->
  (exists file,
      In file files
      /\ ext = Js.toLowerCase (NodePath.extname (name file)))
  /\ Js.toLowerCase ext = ext
  /\ (ext = ""
      \/ exists e, ext = "." +:+ e /\ Js.noChar NodePath.dot e).
Proof.
  intros Hkey.
  destruct (analyzeRepository_fields owner repo files) as (_ & _ & E & _).
  destruct (loop_fields files (initialAnalysis files)) as (_ & _ & _ & H).
  cbn zeta in *. rewrite E in Hkey. specialize (H ext).
  assert (Hfile : exists file,
             In file files
             /\ ext = Js.toLowerCase (NodePath.extname (name file))).
  { destruct (List.filter (extensionIs ext) files) as [|file rest] eqn:Ef.
    - destruct H as [_ H]. rewrite H in Hkey; [discriminate|].
      split; [apply lookup_empty | reflexivity].
    - assert (Hin : In file (List.filter (extensionIs ext) files))
        by (rewrite Ef; now left).
      apply filter_In in Hin as [Hin Hext].
      apply String.eqb_eq in Hext. now exists file. }
  split; [exact Hfile|].
  destruct Hfile as (file & _ & ->).
  split; [apply toLowerCase_idem|].
  destruct (extname_shape (name file)) as [-> | (e & -> & He)];
    [now left|].
  right. exists (Js.toLowerCase e). split; [reflexivity|].
  now apply toLowerCase_noChar_dot.
Qed.

End AnalyzerExtras.

(** ** The requests of the analyzer, further *)

Module RequestExtras.

Import GitHubService.

Lemma byteCompare_total (a b : string) :
  (0 < Examples.byteCompare a b)%Z -> (Examples.byteCompare b a <= 0)%Z.
Proof.
  unfold Examples.byteCompare. rewrite (String.compare_antisym a b).
  destruct (String.compare b a); cbn; lia.
Qed.

(** X11. When the tree request is answered, the file list holds the
    blobs of the tree and nothing else, each once for each time the tree
    has it, in an order in which no file stands right before one that
    [localeCompare] puts before it; the language of each file is the one
    [detectLanguage] gives for its path. *)
Theorem getRepoFiles_sorted_blobs (upstream : Upstream)
  (localeCompare : string -> string -> Z)
  (owner repo branch : string) (tree : list TreeItem) :
  (forall a b, (0 < localeCompare a b)%Z -> (localeCompare b a <= 0)%Z) ->
  getTree upstream owner repo branch = Js.Resolved (Some tree) ->
  let files := getRepoFiles upstream localeCompare owner repo branch in
  Permutation files
    (map fileOfItem
       (List.filter (fun item => String.eqb (item_type item) "blob") tree))
  /\ Sorted (fun a b => (localeCompare (name a) (name b) <= 0)%Z) files
  /\ List.Forall
       (fun file => file_language file = detectLanguage (name file)) files.
Proof.
  intros Htotal Htree files. subst files. unfold getRepoFiles.
  rewrite Htree.
  set (cmp := fun a b : File => localeCompare (name a) (name b)).
  set (blobs := map fileOfItem _).
  assert (Hperm : Permutation (Js.sort cmp blobs) blobs)
    by apply SortFacts.sort_perm.
  split; [exact Hperm|]. split.
  - apply (SortFacts.sort_sorted cmp). intros a b. apply Htotal.
  - apply List.Forall_forall. intros file Hin.
    apply (Permutation_in _ Hperm) in Hin.
    subst blobs. apply in_map_iff in Hin as (item & <- & _). reflexivity.
Qed.

(** X12. What a successful analysis returns is coherent: its metadata
    name the owner, the repository and the branch the parser found in
    the address, and the address itself; owner and branch are not empty;
    the file list is the one of the tree request for them, the analysis
    is the one of that file list, with its length as the file count, and
    the repository information is the one of the repository request. *)
Theorem getRepositoryData_consistent (upstream : Upstream)
  (localeCompare : string -> string -> Z)
  (JSON_parse : string -> option Json)
  (repoUrl : string) (data : RepositoryData) :
  getRepositoryData upstream localeCompare JSON_parse repoUrl = Js.Ok data ->
  let m := metadata data in
  parseGitHubUrl repoUrl
  = Js.Ok {| owner := repoOwner m; repo := repoName m;
             branch := meta_branch m |}
  /\ meta_url m = repoUrl
  /\ repoOwner m <> "" /\ meta_branch m <> ""
  /\ files data
     = getRepoFiles upstream localeCompare (repoOwner m) (repoName m)
         (meta_branch m)
  /\ meta_analysis m
     = analyzeRepository (repoOwner m) (repoName m) (files data)
  /\ fileCount (meta_analysis m) = length (files data)
  /\ getRepoInfo upstream (repoOwner m) (repoName m) = Js.Ok (repoInfo data).
Proof.
  unfold getRepositoryData.
  destruct (parseGitHubUrl repoUrl) as [parsed|] eqn:Ep; [|discriminate].
  destruct (getRepoInfo upstream (owner parsed) (repo parsed))
    as [info|] eqn:Ei; [|discriminate].
  intros [= <-]. cbn.
  split; [now destruct parsed|]. split; [reflexivity|].
  assert (Hparts : owner parsed <> "" /\ branch parsed <> "").
  { unfold parseGitHubUrl in Ep.
    destruct (urlMatch repoUrl) as [mt|] eqn:Em; [|discriminate].
    injection Ep as <-. cbn.
    destruct (UrlFacts.urlMatch_Some _ _ Em) as (before & s & -> & Hs).
    destruct (UrlFacts.matchHere_Some _ _ Hs) as (after & _ & H1 & _).
    split; [assumption|].
    destruct (group3 mt) as [[|c b]|]; cbn; discriminate. }
  destruct Hparts. repeat split; try assumption.
  set (files := getRepoFiles _ _ _ _ _).
  destruct (AnalyzerExtras.analyzeRepository_fields
              (owner parsed) (repo parsed) files) as (E1 & _).
  destruct (AnalyzerExtras.loop_fields files (initialAnalysis files))
    as (H1 & _).
  cbn zeta in *. now rewrite E1, H1.
Qed.

End RequestExtras.

(** ** The two language tables *)

Module LanguageFacts.

Import GitHubService.

Lemma split_last_part (sep : ascii) (stem ext : string) :
  Js.noChar sep ext ->
  exists init,
    Js.split sep (stem +:+ String sep ext) = init ++ [ext] /\ init <> [].
Proof.
  intros Hext. induction stem as [|c stem (init & IH & Hne)]; cbn.
  - rewrite Ascii.eqb_refl, JsFacts.split_noChar by assumption.
    now exists [""].
  - rewrite IH. destruct (Ascii.eqb c sep).
    + now exists ("" :: init).
    + destruct init as [|h init]; [contradiction|].
      now exists (String c h :: init).
Qed.

Lemma lastDotPart_extension (stem ext : string) :
  Js.noChar NodePath.dot ext ->
  lastDotPart (stem +:+ String NodePath.dot ext) = ext.
Proof.
  intros Hext. unfold lastDotPart.
  destruct (split_last_part NodePath.dot stem ext Hext) as (init & -> & _).
  apply last_last.
Qed.

Lemma lastDotPart_whole (s : string) :
  Js.noChar NodePath.dot s -> lastDotPart s = s.
Proof.
  intros H. unfold lastDotPart. now rewrite JsFacts.split_noChar.
Qed.

Lemma assoc_app {A} (key : string) (l l' : list (string * A)) :
  assoc key (l ++ l')
  = match assoc key l with
    | Some v => Some v
    | None => assoc key l'
    end.
Proof.
  induction l as [|[k v] l IH]; cbn; [reflexivity|].
  now destruct (String.eqb k key).
Qed.

(** X25. Both [detectLanguage] functions read the text after the last
    dot of the whole path, lower-cased, and what stands before that dot
    makes no difference; a path without a dot is looked up whole, so
    that a file named [go] or [sh] is given the language of that
    extension. *)
Theorem detectLanguage_last_extension (stem ext : string) :
  Js.noChar NodePath.dot ext ->
  detectLanguage (stem +:+ "." +:+ ext)
  = lookupLanguage languageMap (Js.toLowerCase ext)
  /\ detectLanguage ext = lookupLanguage languageMap (Js.toLowerCase ext)
  /\ OpenRouterService.detectLanguage (stem +:+ "." +:+ ext)
     = lookupLanguage OpenRouterService.languageMap (Js.toLowerCase ext)
  /\ OpenRouterService.detectLanguage ext
     = lookupLanguage OpenRouterService.languageMap (Js.toLowerCase ext).
Proof.
  intros Hext. unfold detectLanguage, OpenRouterService.detectLanguage.
  change (stem +:+ "." +:+ ext) with (stem +:+ String NodePath.dot ext).
  rewrite lastDotPart_extension, lastDotPart_whole by assumption.
  repeat split.
Qed.

(** X26. The [detectLanguage] of the generation client and the one of
    the analyzer give the same language for every file name but those
    whose last part, lower-cased, is [dockerfile] or [docker]: for these
    the client says Docker and the analyzer Unknown. *)
Theorem detectLanguage_tables_differ (filename : string) :
  let ext := Js.toLowerCase (lastDotPart filename) in
  (ext <> "dockerfile" -> ext <> "docker" ->
   OpenRouterService.detectLanguage filename = detectLanguage filename)
  /\ (ext = "dockerfile" \/ ext = "docker" ->
      OpenRouterService.detectLanguage filename = LanguageName "Docker"
      /\ detectLanguage filename = LanguageName "Unknown").
Proof.
  cbn zeta. unfold OpenRouterService.detectLanguage, detectLanguage.
  generalize (Js.toLowerCase (lastDotPart filename)). intros ext.
  unfold lookupLanguage, OpenRouterService.languageMap.
  rewrite assoc_app. split.
  - intros H1 H2. destruct (assoc ext languageMap); [reflexivity|].
    cbn [assoc].
    destruct (String.eqb_spec "dockerfile" ext); [congruence|].
    destruct (String.eqb_spec "docker" ext); [congruence|]. reflexivity.
  - intros [-> | ->]; split; reflexivity.
Qed.

End LanguageFacts.

(** ** The generation client, further *)

Module ClientFacts.

Import GitHubService OpenRouterService.

Lemma formatFileStructure_cut (formatFileSize : Z -> string)
  (files more : list File) :
  50 <= length files ->
  formatFileStructure formatFileSize (Some (files ++ more))
  = formatFileStructure formatFileSize (Some files).
Proof.
  intros Hlen. unfold formatFileStructure.
  destruct files as [|file files]; [cbn in Hlen; lia|].
  rewrite <- app_comm_cons.
  rewrite (app_comm_cons files more file).
  rewrite firstn_app.
  replace (50 - length (file :: files)) with 0 by lia.
  now rewrite firstn_O, app_nil_r.
Qed.

(** X28. The prompt lists the first fifty files only: with fifty files
    or more, the listing is the lines of the first fifty, and any files
    that follow change neither the listing nor the prompt. *)
Theorem prompt_lists_fifty_files (formatFileSize : Z -> string)
  (typeErrorMessage : string -> string)
  (toUpperCase : string -> string) (largeNumberText : Z -> string)
  (files more : list File)
  (metadata : option Metadata) (readme : option string)
  (packageJson : option Json) (format : option string) (style : string) :
  50 <= length files ->
  formatFileStructure formatFileSize (Some (files ++ more))
  = Js.join Js.nl (map (fileLine formatFileSize) (firstn 50 files))
  /\ buildDocumentationPrompt formatFileSize typeErrorMessage
       toUpperCase largeNumberText
       (mkPromptInput (Some (files ++ more)) metadata readme packageJson)
       format style
     = buildDocumentationPrompt formatFileSize typeErrorMessage
         toUpperCase largeNumberText
         (mkPromptInput (Some files) metadata readme packageJson)
         format style.
Proof.
  intros Hlen. split.
  - rewrite formatFileStructure_cut by assumption.
    unfold formatFileStructure.
    destruct files; [cbn in Hlen; lia | reflexivity].
  - unfold buildDocumentationPrompt, promptFooter.
    cbn [in_files in_metadata in_readme in_packageJson].
    now rewrite formatFileStructure_cut.
Qed.


End ClientFacts.

(** ** The generation client of the server *)

Module InlineFacts.

Import OpenRouterService DocumentStore StoreViews.

Lemma failureText_fixed (error : option Js.Rejection) :
  In (InlineServer.failureText error) failureMessages.
Proof.
  unfold InlineServer.failureText, failureMessages.
  repeat match goal with
         | |- context [bool_decide ?P] => destruct (bool_decide P)
         end; cbn; tauto.
Qed.

Lemma selectedModel_reliable (requested : option string) :
  In (InlineServer.selectedModel requested) InlineServer.reliableModels.
Proof.
  unfold InlineServer.selectedModel.
  destruct requested as [m|]; [|now left].
  destruct (Js.truthy m && Js.arrayIncludes InlineServer.reliableModels m)
    eqn:E; [|now left].
  apply andb_prop in E as [_ E]. unfold Js.arrayIncludes in E.
  apply existsb_exists in E as (x & Hx & E).
  apply String.eqb_eq in E. now subst x.
Qed.

Lemma generation_failure_fixed (vendor : Vendor) (prompt : string)
  (options : GenerationOptions) (message : string) :
  InlineServer.generateDocumentation vendor prompt options
  = Js.Throw message ->
  In message failureMessages.
Proof.
  unfold InlineServer.generateDocumentation.
  destruct (postChatCompletions vendor _) as [data|error].
  - destruct (choices data); [|discriminate].
    intros [= <-]. apply (failureText_fixed None).
  - intros [= <-]. apply (failureText_fixed (Some error)).
Qed.

(** X21. Whatever the options, the request the server's client posts
    names one of its four models, asks for 800 tokens at most (the
    requested number when that is smaller and not zero, also when it is
    negative), and holds the system message and the prompt. *)
Theorem inline_request_within_limits (prompt : string)
  (options : GenerationOptions) :
  let request := InlineServer.chatRequest prompt options in
  In (req_model request) InlineServer.reliableModels
  /\ (req_max_tokens request <= 800)%Z
  /\ (forall n, opt_maxTokens options = Some n -> n <> 0%Z ->
                req_max_tokens request = Z.min n 800)
  /\ (opt_maxTokens options = None \/ opt_maxTokens options = Some 0%Z ->
      req_max_tokens request = 800%Z)
  /\ req_messages request
     = [ mkMessage "system" InlineServer.systemMessage;
         mkMessage "user" prompt ].
Proof.
  cbn zeta. unfold InlineServer.chatRequest.
  cbn [req_model req_max_tokens req_messages].
  split; [apply selectedModel_reliable|].
  unfold InlineServer.maxTokensOr.
  split; [apply Z.le_min_r|]. split; [|split; [|reflexivity]].
  - intros n -> Hn. now rewrite (proj2 (Z.eqb_neq n 0) Hn).
  - intros [-> | ->]; reflexivity.
Qed.

(** X22. The server's client fails with one of four fixed messages only,
    so that no text of the vendor reaches the caller; when it succeeds
    the vendor answered with a choice, whose content it returns together
    with the model the vendor reports. *)
Theorem inline_generation_outcomes (vendor : Vendor) (prompt : string)
  (options : GenerationOptions) :
  let outcome := InlineServer.generateDocumentation vendor prompt options in
  (forall message,
      outcome = Js.Throw message ->
      In message
        [ "Free tier limit reached. Try with a smaller repository or wait for credits to refresh.";
          "Request timeout. Please try again in a moment.";
          "Invalid request. Please check your input and try again.";
          "Failed to generate documentation with AI. Please try again." ])
  /\ (forall result,
        outcome = Js.Ok result ->
        exists data choice rest,
          postChatCompletions vendor
            (InlineServer.chatRequest prompt options) = Js.Resolved data
          /\ choices data = choice :: rest
          /\ result_content result = message_content choice
          /\ result_model result = data_model data).
Proof.
  cbn zeta. split.
  - intros message. apply generation_failure_fixed.
  - unfold InlineServer.generateDocumentation.
    destruct (postChatCompletions vendor _) as [data|error];
      [|discriminate].
    destruct (choices data) as [|choice rest] eqn:E; [discriminate|].
    intros result [= <-]. exists data, choice, rest. now repeat split.
Qed.

(** X23. The generation route either answers 500 with one of the four
    messages and leaves the store as it was, or stores exactly one new
    document behind the others, under the identifier made of the
    counter, moves the counter one up, and answers with that document:
    completed, without exports, with the content and the model of the
    result. *)
Theorem generateRoute_outcome (store : Store) (request : GenerateRequest) :
  (exists message,
      generateRoute store request = (Failure 500 message, store)
      /\ In message failureMessages)
  \/ (exists document aiResult,
        generateRoute store request
        = (Success (document, aiResult),
           {| inMemoryDocuments := inMemoryDocuments store ++ [document];
              documentCounter := S (documentCounter store) |})
        /\ callGenerator request = Js.Ok aiResult
        /\ doc_id document
           = "mem_" +:+ Js.natToString (documentCounter store)
        /\ doc_content document = result_content aiResult
        /\ doc_aiModel document = result_model aiResult
        /\ doc_status document = "completed"
        /\ doc_exports document = None).
Proof.
  unfold generateRoute.
  destruct (callGenerator request) as [aiResult|message] eqn:E.
  - right. eexists _, _. repeat split.
  - left. exists message. split; [reflexivity|].
    unfold callGenerator in E. destruct (gen_prompt request).
    + now apply generation_failure_fixed in E.
    + injection E as <-. apply failureText_fixed.
Qed.

(** X24. The models route never cuts its list: the client has cut the
    catalog at eight entries before, so the route answers with at most
    eight, each an entry of the catalog that passes the filter of the
    client and the filter of the route; when the catalog request fails
    it answers with three of the four fallback entries. *)
Theorem modelsRoute_entries (vendor : Vendor) :
  modelsRoute vendor
  = List.filter isPopularModel (InlineServer.getAvailableModels vendor)
  /\ length (modelsRoute vendor) <= 8
  /\ (forall data,
        getModels vendor = Js.Resolved (Some data) ->
        List.Forall
          (fun m => In m data
                    /\ InlineServer.isFreeTierModel m = true
                    /\ isPopularModel m = true)
          (modelsRoute vendor))
  /\ (getModels vendor = Js.Resolved None
      \/ (exists error, getModels vendor = Js.Rejected error) ->
      modelsRoute vendor
      = [ mkModelEntry "openai/gpt-3.5-turbo" (Some "GPT-3.5 Turbo (Free)");
          mkModelEntry "google/gemini-pro" (Some "Gemini Pro (Free)");
          mkModelEntry "anthropic/claude-3-haiku"
            (Some "Claude 3 Haiku (Free)") ]).
Proof.
  assert (Hlen : length (InlineServer.getAvailableModels vendor) <= 8).
  { unfold InlineServer.getAvailableModels.
    destruct (getModels vendor) as [[data|]|error];
      [apply firstn_le_length | cbn; lia | cbn; lia]. }
  assert (Hcut : modelsRoute vendor
                 = List.filter isPopularModel
                     (InlineServer.getAvailableModels vendor)).
  { unfold modelsRoute. apply firstn_all2.
    pose proof (filter_length_le isPopularModel
                  (InlineServer.getAvailableModels vendor)). lia. }
  split; [exact Hcut|]. split; [|split].
  - rewrite Hcut.
    pose proof (filter_length_le isPopularModel
                  (InlineServer.getAvailableModels vendor)). lia.
  - intros data Hdata. rewrite Hcut.
    unfold InlineServer.getAvailableModels. rewrite Hdata.
    apply List.Forall_forall. intros m Hin.
    apply filter_In in Hin as [Hin Hpop].
    assert (H : In m (List.filter InlineServer.isFreeTierModel data)).
    { rewrite <- (firstn_skipn 8 (List.filter _ data)).
      apply in_or_app. now left. }
    apply filter_In in H as [H1 H2]. now repeat split.
  - intros H. rewrite Hcut. unfold InlineServer.getAvailableModels.
    destruct H as [-> | [error ->]]; reflexivity.
Qed.

End InlineFacts.

(** ** The document store of the server *)

Module StoreFacts.

Import OpenRouterService DocumentStore StoreViews.

Lemma natToString_inj (k k' : nat) :
  Js.natToString k = Js.natToString k' -> k = k'.
Proof.
  assert (E : forall n,
             Js.natToString n = NilEmpty.string_of_uint (Nat.to_uint n))
    by (intros [|n]; reflexivity).
  rewrite !E. intros H.
  apply (f_equal NilEmpty.uint_of_string) in H.
  rewrite !NilEmpty.usu in H. injection H as H.
  apply (f_equal Nat.of_uint) in H. now rewrite !Unsigned.of_to in H.
Qed.

Lemma idOf_inj (k k' : nat) : idOf k = idOf k' -> k = k'.
Proof. unfold idOf. cbn. intros [= H]. now apply natToString_inj. Qed.

Lemma find_app_first {A} (p : A -> bool) (l l' : list A) :
  List.find p (l ++ l')
  = match List.find p l with
    | Some x => Some x
    | None => List.find p l'
    end.
Proof.
  induction l as [|x l IH]; cbn; [reflexivity|]. now destruct (p x).
Qed.

Lemma ids_updateFirst (id : string) (change : Document -> Document)
  (documents : list Document) :
  (forall doc, doc_id (change doc) = doc_id doc) ->
  map doc_id (updateFirst id change documents) = map doc_id documents.
Proof.
  intros Hid. induction documents as [|doc documents IH]; cbn; [reflexivity|].
  destruct (String.eqb (doc_id doc) id); cbn; [now rewrite Hid | now rewrite IH].
Qed.

Lemma length_updateFirst (id : string) (change : Document -> Document)
  (documents : list Document) :
  length (updateFirst id change documents) = length documents.
Proof.
  induction documents as [|doc documents IH]; cbn; [reflexivity|].
  destruct (String.eqb (doc_id doc) id); cbn; [reflexivity | now rewrite IH].
Qed.

Lemma find_updateFirst_same (id : string) (change : Document -> Document)
  (documents : list Document) (doc : Document) :
  (forall d, doc_id (change d) = doc_id d) ->
  List.find (fun d => String.eqb (doc_id d) id) documents = Some doc ->
  List.find (fun d => String.eqb (doc_id d) id)
    (updateFirst id change documents) = Some (change doc).
Proof.
  intros Hid. induction documents as [|d documents IH]; cbn; [discriminate|].
  destruct (String.eqb (doc_id d) id) eqn:E; cbn.
  - intros [= ->]. now rewrite Hid, E.
  - rewrite E. exact IH.
Qed.

Lemma find_updateFirst_other (id id' : string)
  (change : Document -> Document) (documents : list Document) :
  (forall d, doc_id (change d) = doc_id d) ->
  id' <> id ->
  List.find (fun d => String.eqb (doc_id d) id')
    (updateFirst id change documents)
  = List.find (fun d => String.eqb (doc_id d) id') documents.
Proof.
  intros Hid Hne. induction documents as [|d documents IH]; cbn; [reflexivity|].
  destruct (String.eqb_spec (doc_id d) id) as [E|E]; cbn.
  - rewrite Hid.
    destruct (String.eqb_spec (doc_id d) id'); [congruence | reflexivity].
  - now rewrite IH.
Qed.

Lemma find_none_updateFirst (id : string) (change : Document -> Document)
  (documents : list Document) :
  List.find (fun d => String.eqb (doc_id d) id) documents = None ->
  updateFirst id change documents = documents.
Proof.
  induction documents as [|d documents IH]; cbn; [reflexivity|].
  destruct (String.eqb (doc_id d) id); [discriminate|].
  intros H. now rewrite IH.
Qed.

Lemma handle_numbered (store : Store) (request : Request) :
  Numbered store -> Numbered (handle store request).
Proof.
  intros [Hc Hids]. destruct request as [r|id format now createdAt| |];
    cbn [handle]; try (split; assumption).
  - unfold generateRoute. destruct (callGenerator r); [|split; assumption].
    cbn [snd]. unfold Numbered. cbn [inMemoryDocuments documentCounter].
    rewrite length_app, map_app, Hids. cbn [length map].
    split; [lia|].
    rewrite Nat.add_1_r, seq_S, map_app. cbn [map newDocument doc_id].
    now rewrite Hc.
  - unfold exportRoute. destruct (findDocument store id); [|split; assumption].
    cbn [snd]. unfold Numbered. cbn [inMemoryDocuments documentCounter].
    rewrite length_updateFirst, ids_updateFirst by reflexivity.
    split; assumption.
Qed.

Lemma serve_numbered (requests : list Request) :
  forall store, Numbered store -> Numbered (serve store requests).
Proof.
  induction requests as [|request requests IH]; intros store H; [exact H|].
  apply IH. now apply handle_numbered.
Qed.

Lemma numbered_initial : Numbered initialStore.
Proof. split; reflexivity. Qed.

Lemma noDup_ids (ks : list nat) :
  List.NoDup ks -> List.NoDup (map idOf ks).
Proof.
  induction 1 as [|k ks Hk _ IH]; cbn [map]; constructor; [|exact IH].
  intros Hin. apply in_map_iff in Hin as (k' & E & Hin).
  apply idOf_inj in E. now subst k'.
Qed.

Lemma numbered_well (store : Store) : Numbered store -> WellNumbered store.
Proof.
  intros [Hc Hids]. split.
  - rewrite Hids. apply noDup_ids, List.seq_NoDup.
  - apply List.Forall_forall. intros doc Hin.
    apply (in_map doc_id) in Hin. rewrite Hids in Hin.
    apply in_map_iff in Hin as (k & Hk & Hin). apply in_seq in Hin.
    exists k. split; [now symmetry|]. lia.
Qed.

Lemma numbered_fresh (store : Store) :
  Numbered store ->
  findDocument store (idOf (documentCounter store)) = None.
Proof.
  intros [Hc Hids]. unfold findDocument.
  destruct (List.find _ _) as [doc|] eqn:E; [|reflexivity]. exfalso.
  apply find_some in E as [Hin E]. apply String.eqb_eq in E.
  apply (in_map doc_id) in Hin. rewrite Hids, E in Hin.
  apply in_map_iff in Hin as (k & Hk & Hin). apply in_seq in Hin.
  apply idOf_inj in Hk. lia.
Qed.

(** X13. After any sequence of requests to a fresh server the documents
    of the store are numbered in the order of their creation: the i-th
    has the identifier [mem_i], the counter is one more than their
    number, and no two documents share an identifier. *)
Theorem serve_numbers_documents (requests : list Request) :
  let store := serve initialStore requests in
  let n := length (inMemoryDocuments store) in
  documentCounter store = S n
  /\ map doc_id (inMemoryDocuments store)
     = map (fun k => "mem_" +:+ Js.natToString k) (seq 1 n)
  /\ WellNumbered store.
Proof.
  cbn zeta.
  pose proof (serve_numbered requests _ numbered_initial) as H.
  split; [apply H|]. split; [apply H|]. now apply numbered_well.
Qed.

(** X14. A document the generation route has just stored is what the
    document route returns for its identifier; that identifier was
    unknown before, and the answers for all other identifiers are as
    before. *)
Theorem generate_then_get (requests : list Request)
  (request : GenerateRequest) (document : Document)
  (aiResult : GenerationResult) (store' : Store) :
  let store := serve initialStore requests in
  generateRoute store request = (Success (document, aiResult), store') ->
  getRoute store' (doc_id document) = Success document
  /\ getRoute store (doc_id document) = Failure 404 "Document not found"
  /\ (forall id, id <> doc_id document -> getRoute store' id = getRoute store id)
  /\ doc_content document = result_content aiResult
  /\ doc_exports document = None.
Proof.
  cbn zeta. set (store := serve initialStore requests).
  assert (Hn : Numbered store) by apply serve_numbered, numbered_initial.
  pose proof (numbered_fresh store Hn) as Hfresh.
  unfold generateRoute. destruct (callGenerator request) as [r|]; [|discriminate].
  intros [= <- <- <-]. cbn [newDocument doc_id doc_content doc_exports].
  fold (idOf (documentCounter store)).
  unfold getRoute, findDocument in *. cbn [inMemoryDocuments].
  rewrite !find_app_first, Hfresh. cbn [List.find newDocument doc_id].
  fold (idOf (documentCounter store)). rewrite String.eqb_refl.
  repeat split.
  intros id Hid. rewrite find_app_first.
  destruct (List.find (fun doc => String.eqb (doc_id doc) id)
              (inMemoryDocuments store)); [reflexivity|].
  cbn [List.find doc_id newDocument].
  fold (idOf (documentCounter store)).
  destruct (String.eqb_spec (idOf (documentCounter store)) id);
    [congruence | reflexivity].
Qed.

Lemma sameBut_refl (doc : Document) : SameBut doc doc.
Proof. repeat split. exists []. now rewrite app_nil_r. Qed.

Lemma sameBut_trans (a b c : Document) :
  SameBut a b -> SameBut b c -> SameBut a c.
Proof.
  intros (H1 & H2 & H3 & H4 & H5 & H6 & m & Hm)
         (K1 & K2 & K3 & K4 & K5 & K6 & m' & Hm').
  repeat split; try congruence.
  exists (m ++ m'). now rewrite Hm', Hm, app_assoc.
Qed.

Lemma sameBut_pushExport (entry : ExportEntry) (doc : Document) :
  SameBut doc (pushExport entry doc).
Proof. repeat split. now exists [entry]. Qed.

Lemma handle_keeps (store : Store) (request : Request) (id : string)
  (doc : Document) :
  findDocument store id = Some doc ->
  exists doc',
    findDocument (handle store request) id = Some doc' /\ SameBut doc doc'.
Proof.
  intros Hfind. destruct request as [r|id' format now createdAt| |];
    cbn [handle]; try (exists doc; split; [assumption | apply sameBut_refl]).
  - unfold generateRoute. destruct (callGenerator r);
      [|exists doc; split; [assumption | apply sameBut_refl]].
    cbn [snd]. unfold findDocument in *. cbn [inMemoryDocuments].
    rewrite find_app_first, Hfind. exists doc. split; [reflexivity | apply sameBut_refl].
  - unfold exportRoute. destruct (findDocument store id') as [target|] eqn:Et;
      [|exists doc; split; [assumption | apply sameBut_refl]].
    cbn [snd]. unfold findDocument in *. cbn [inMemoryDocuments].
    destruct (String.eqb_spec id id') as [->|Hne].
    + rewrite Hfind in Et. injection Et as <-.
      exists (pushExport (exportData doc id' format now createdAt) doc).
      split; [|apply sameBut_pushExport].
      now apply find_updateFirst_same.
    + exists doc. split; [|apply sameBut_refl].
      now rewrite find_updateFirst_other.
Qed.

(** X15. No request removes or rewrites a document: a document the
    store returns for an identifier is returned for it after any further
    requests, with the same title, description, content, status and
    creation time, and with the exports it had, in their order, before
    any new ones. *)
Theorem documents_are_kept (requests : list Request) :
  forall (store : Store) (id : string) (document : Document),
    getRoute store id = Success document ->
    exists later,
      getRoute (serve store requests) id = Success later
      /\ SameBut document later.
Proof.
  induction requests as [|request requests IH]; intros store id document Hget.
  - exists document. split; [assumption | apply sameBut_refl].
  - unfold getRoute in Hget.
    destruct (findDocument store id) as [doc|] eqn:Hfind; [|discriminate].
    injection Hget as ->.
    destruct (handle_keeps store request id document Hfind) as (mid & Hmid & Hsame).
    destruct (IH (handle store request) id mid) as (later & Hlater & Hsame').
    { unfold getRoute. now rewrite Hmid. }
    exists later. split; [exact Hlater|]. now apply (sameBut_trans _ mid).
Qed.

(** X16. The export route answers 404 and leaves the store as it was
    for an unknown identifier; for a known one it appends exactly one
    entry to the exports of that document, whose size is the length of
    the content and whose format is [markdown] unless one is given, and
    changes no other document, no identifier and not the counter. *)
Theorem exportRoute_appends_entry (store : Store) (documentId : string)
  (format : option string) (now createdAt : Z) :
  (getRoute store documentId = Failure 404 "Document not found" ->
   exportRoute store documentId format now createdAt
   = (Failure 404 "Document not found", store))
  /\ (forall document,
        getRoute store documentId = Success document ->
        exists entry document' store',
          exportRoute store documentId format now createdAt
          = (Success (entry, document'), store')
          /\ getRoute store' documentId = Success document'
          /\ doc_exports document'
             = Some (default [] (doc_exports document) ++ [entry])
          /\ exp_size entry = String.length (doc_content document)
          /\ exp_format entry = default "markdown" format
          /\ map doc_id (inMemoryDocuments store')
             = map doc_id (inMemoryDocuments store)
          /\ documentCounter store' = documentCounter store
          /\ forall id, id <> documentId ->
                        getRoute store' id = getRoute store id).
Proof.
  unfold getRoute, exportRoute.
  destruct (findDocument store documentId) as [doc|] eqn:Hfind.
  - split; [discriminate|]. intros document [= <-].
    eexists _, _, _. split; [reflexivity|].
    unfold findDocument in *. cbn [inMemoryDocuments documentCounter].
    rewrite (find_updateFirst_same _ _ _ doc) by (reflexivity || assumption).
    repeat split.
    + now apply ids_updateFirst.
    + intros id Hne. now rewrite find_updateFirst_other.
  - split; [reflexivity | discriminate].
Qed.

End StoreFacts.

(** ** The document list *)

Module ListingFacts.

Import OpenRouterService DocumentStore.

Lemma sorted_skipn {A} (R : A -> A -> Prop) (n : nat) :
  forall l, Sorted R l -> Sorted R (skipn n l).
Proof.
  induction n as [|n IH]; intros l H; [exact H|].
  destruct l as [|x l]; [constructor|].
  cbn [skipn]. apply IH. now inversion H.
Qed.

Lemma sorted_firstn {A} (R : A -> A -> Prop) (l : list A) :
  forall n, Sorted R l -> Sorted R (firstn n l).
Proof.
  induction l as [|x l IH]; intros n H.
  - rewrite firstn_nil. constructor.
  - destruct n as [|n]; cbn [firstn]; [constructor|].
    inversion H as [|? ? Hs Hh]; subst. constructor; [now apply IH|].
    destruct n as [|n]; [constructor|].
    destruct l as [|y l]; [constructor|].
    cbn [firstn]. constructor. now inversion Hh.
Qed.

Lemma sorted_weaken {A} (R R' : A -> A -> Prop) (l : list A) :
  Sorted R l -> (forall a b, R a b -> R' a b) -> Sorted R' l.
Proof.
  intros H Himp. induction H as [|x l Hs IH Hh]; constructor; [exact IH|].
  destruct Hh; constructor. now apply Himp.
Qed.

Lemma in_firstn {A} (n : nat) (l : list A) (x : A) :
  In x (firstn n l) -> In x l.
Proof.
  intros H. rewrite <- (firstn_skipn n l). apply in_or_app. now left.
Qed.

Lemma in_skipn {A} (n : nat) (l : list A) (x : A) :
  In x (skipn n l) -> In x l.
Proof.
  intros H. rewrite <- (firstn_skipn n l). apply in_or_app. now right.
Qed.

Lemma slice_nonneg {A} (l : list A) (start stop : Z) :
  (0 <= start <= stop)%Z ->
  slice l start stop
  = firstn (Z.to_nat (stop - start)) (skipn (Z.to_nat start) l).
Proof.
  intros H. unfold slice, sliceIndex.
  replace (start <? 0)%Z with false by (symmetry; apply Z.ltb_ge; lia).
  replace (stop <? 0)%Z with false by (symmetry; apply Z.ltb_ge; lia).
  destruct (Z.le_gt_cases (Z.of_nat (length l)) start) as [Hlen|Hlen].
  - rewrite !skipn_all2 by lia. now rewrite !firstn_nil.
  - replace (Z.to_nat (Z.min start (Z.of_nat (length l))))
      with (Z.to_nat start) by lia.
    destruct (Z.le_gt_cases stop (Z.of_nat (length l))) as [Hs|Hs].
    + f_equal. lia.
    + rewrite !firstn_all2; [reflexivity | | ]; rewrite length_skipn; lia.
Qed.

Lemma ceilDiv_bounds (total limit : Z) :
  (0 < limit)%Z ->
  exists pages,
    ceilDiv total limit = Some pages
    /\ ((pages - 1) * limit < total <= pages * limit)%Z.
Proof.
  intros H. unfold ceilDiv.
  replace (limit =? 0)%Z with false by (symmetry; apply Z.eqb_neq; lia).
  eexists. split; [reflexivity|].
  pose proof (Z.mul_div_le (- total) limit H).
  pose proof (Z.mul_succ_div_gt (- total) limit H).
  nia.
Qed.

(** X17. A page of the document list, for a page number and a limit of
    at least 1: it is the slice of the matching documents, newest first,
    that starts after [(page - 1) * limit] of them and holds [limit] at
    most; every document of it is in the store and matches the query;
    [totalDocuments] is the size of the whole store, [totalPages] the
    least number of pages of [limit] documents that hold that many, and
    [hasPrevPage] tells whether the page number exceeds 1. *)
Theorem listRoute_page (store : Store) (page limit : Z)
  (search status : option string) :
  (1 <= page)%Z -> (1 <= limit)%Z ->
  let matching :=
    Js.sort newestFirst
      (List.filter (matchesQuery search status) (inMemoryDocuments store)) in
  let documents :=
    fst (listRoute store (Some page) (Some limit) search status) in
  let pagination :=
    snd (listRoute store (Some page) (Some limit) search status) in
  documents
  = firstn (Z.to_nat limit) (skipn (Z.to_nat ((page - 1) * limit)) matching)
  /\ (length documents <= Z.to_nat limit)%nat
  /\ Sorted (fun a b => (doc_createdAt b <= doc_createdAt a)%Z) documents
  /\ (forall document,
        In document documents ->
        In document (inMemoryDocuments store)
        /\ matchesQuery search status document = true)
  /\ currentPage pagination = page
  /\ totalDocuments pagination = length (inMemoryDocuments store)
  /\ (exists pages,
        totalPages pagination = Some pages
        /\ ((pages - 1) * limit
            < Z.of_nat (length (inMemoryDocuments store))
            <= pages * limit)%Z)
  /\ (hasPrevPage pagination = true <-> (1 < page)%Z).
Proof.
  intros Hpage Hlimit. cbn zeta.
  unfold listRoute. cbn [default from_option id fst snd currentPage totalDocuments totalPages hasPrevPage]. unfold id.
  set (matching := Js.sort newestFirst _).
  assert (Hslice : slice matching ((page - 1) * limit)
                     ((page - 1) * limit + limit)
                   = firstn (Z.to_nat limit)
                       (skipn (Z.to_nat ((page - 1) * limit)) matching)).
  { rewrite slice_nonneg by nia. do 2 f_equal. lia. }
  rewrite Hslice.
  assert (Hsorted : Sorted (fun a b => (doc_createdAt b <= doc_createdAt a)%Z)
                      matching).
  { assert (H : Sorted (fun a b => (newestFirst a b <= 0)%Z) matching).
    { apply SortFacts.sort_sorted. unfold newestFirst. intros; lia. }
    apply (sorted_weaken _ _ _ H). unfold newestFirst. intros; lia. }
  split; [reflexivity|]. split; [apply firstn_le_length|].
  split; [now apply sorted_firstn, sorted_skipn|].
  split.
  { intros document Hin.
    apply in_firstn, in_skipn in Hin.
    apply (Permutation_in _ (SortFacts.sort_perm newestFirst _)) in Hin.
    now apply filter_In in Hin. }
  split; [reflexivity|]. split; [reflexivity|].
  split; [apply ceilDiv_bounds; lia|].
  rewrite Z.gtb_ltb. apply Z.ltb_lt.
Qed.


Lemma filter_all {A} (p : A -> bool) (l : list A) :
  (forall x, p x = true) -> List.filter p l = l.
Proof.
  intros H. induction l as [|x l IH]; cbn; [reflexivity|].
  now rewrite H, IH.
Qed.

(** X20. Without search text and status the pages partition the store:
    the documents before the page, the page and the documents after it
    make up the store, the page holds [limit] documents or what is left
    of them, and [hasNextPage] is true exactly when documents are left
    after the page. *)
Theorem listRoute_unfiltered_next_page (store : Store) (page limit : Z) :
  (1 <= page)%Z -> (1 <= limit)%Z ->
  let total := Z.of_nat (length (inMemoryDocuments store)) in
  let documents := fst (listRoute store (Some page) (Some limit) None None) in
  let pagination := snd (listRoute store (Some page) (Some limit) None None) in
  Z.of_nat (length documents)
  = Z.max 0 (Z.min limit (total - (page - 1) * limit))
  /\ Permutation
       (firstn (Z.to_nat ((page - 1) * limit))
          (Js.sort newestFirst (inMemoryDocuments store))
        ++ documents
        ++ skipn (Z.to_nat (page * limit))
             (Js.sort newestFirst (inMemoryDocuments store)))
       (inMemoryDocuments store)
  /\ (hasNextPage pagination = true <-> (page * limit < total)%Z).
Proof.
  intros Hpage Hlimit. cbn zeta. unfold listRoute.
  rewrite (filter_all (matchesQuery None None)) by reflexivity.
  cbn [default from_option id fst snd hasNextPage]. unfold id.
  set (sorted := Js.sort newestFirst (inMemoryDocuments store)).
  assert (Hperm : Permutation sorted (inMemoryDocuments store))
    by apply SortFacts.sort_perm.
  rewrite <- (Permutation_length Hperm).
  rewrite slice_nonneg by nia.
  replace ((page - 1) * limit + limit - (page - 1) * limit)%Z with limit
    by lia.
  replace (page * limit)%Z with ((page - 1) * limit + limit)%Z by ring.
  assert (Hskip : (0 <= (page - 1) * limit)%Z) by nia.
  set (skip := ((page - 1) * limit)%Z) in *. clearbody skip.
  assert (Hlen : Z.of_nat (length (firstn (Z.to_nat limit)
                                     (skipn (Z.to_nat skip) sorted)))
                 = Z.max 0 (Z.min limit (Z.of_nat (length sorted) - skip))).
  { rewrite length_firstn, length_skipn. lia. }
  split; [exact Hlen|]. split.
  - etransitivity; [|exact Hperm].
    replace (Z.to_nat (skip + limit)) with (Z.to_nat limit + Z.to_nat skip)
      by lia.
    rewrite <- skipn_skipn, firstn_skipn, firstn_skipn. reflexivity.
  - rewrite Z.ltb_lt, Hlen. lia.
Qed.

(** X18. A search text that is not empty makes the list ignore the
    status of the query: whatever the page and the limit, the answer is
    the one for the same query without a status, and each document of
    the page is a document of the store whose lower-cased title or
    description includes the lower-cased text. *)
Theorem listRoute_search_overrides_status (store : Store)
  (page limit : option Z) (c : ascii) (search : string)
  (status : option string) :
  listRoute store page limit (Some (String c search)) status
  = listRoute store page limit (Some (String c search)) None
  /\ forall document,
      In document
        (fst (listRoute store page limit (Some (String c search)) status)) ->
      In document (inMemoryDocuments store)
      /\ (Js.includes (Js.toLowerCase (doc_title document))
            (Js.toLowerCase (String c search))
          || Js.includes (Js.toLowerCase (doc_description document))
               (Js.toLowerCase (String c search))) = true.
Proof.
  split; [reflexivity|].
  intros document Hin. unfold listRoute in Hin. cbn [fst] in Hin.
  unfold slice in Hin. apply in_firstn, in_skipn in Hin.
  apply (Permutation_in _ (SortFacts.sort_perm newestFirst _)) in Hin.
  apply filter_In in Hin as [Hin Hmatch]. split; [exact Hin|].
  exact Hmatch.
Qed.

Lemma filter_none {A} (p : A -> bool) (l : list A) :
  List.Forall (fun x => p x = false) l -> List.filter p l = [].
Proof.
  induction 1 as [|x l Hx _ IH]; cbn; [reflexivity|]. now rewrite Hx.
Qed.

(** X19. The totals of the list do not follow the query: when no
    document matches, every page is empty, yet [totalDocuments] is the
    size of the whole store and [hasNextPage] is true as long as the
    store holds more than [(page - 1) * limit] documents. *)
Theorem listRoute_total_ignores_filter (store : Store) (page limit : Z)
  (search status : option string) :
  (1 <= page)%Z -> (1 <= limit)%Z ->
  List.Forall (fun document => matchesQuery search status document = false)
    (inMemoryDocuments store) ->
  let total := length (inMemoryDocuments store) in
  let pagination :=
    snd (listRoute store (Some page) (Some limit) search status) in
  fst (listRoute store (Some page) (Some limit) search status) = []
  /\ totalDocuments pagination = total
  /\ (hasNextPage pagination = true
      <-> ((page - 1) * limit < Z.of_nat total)%Z).
Proof.
  intros Hpage Hlimit Hnone. cbn zeta. unfold listRoute.
  rewrite (filter_none _ _ Hnone).
  cbn [default from_option id fst snd totalDocuments hasNextPage Js.sort fold_right].
  unfold id.
  assert (E : @slice Document [] ((page - 1) * limit)
                ((page - 1) * limit + limit) = []).
  { unfold slice. now rewrite skipn_nil, firstn_nil. }
  rewrite E. cbn [length].
  split; [reflexivity|]. split; [reflexivity|].
  rewrite Z.add_0_r. apply Z.ltb_lt.
Qed.

End ListingFacts.

(** ** The page and the parser *)

Module PageFacts.

Import GitHubService.

Lemma allWhiteSpace_app (a b : string) :
  Js.allWhiteSpace (a +:+ b) = Js.allWhiteSpace a && Js.allWhiteSpace b.
Proof.
  induction a as [|c a IH]; cbn; [reflexivity|].
  now rewrite IH, andb_assoc.
Qed.

Lemma includes_github_not_blank (url : string) :
  Js.includes url "github.com" = true -> Js.truthy (Js.trim url) = true.
Proof.
  intros H. apply JsFacts.includes_true in H as (before & after & ->).
  destruct (Js.trim _) eqn:E; [|reflexivity].
  apply JsFacts.trim_empty in E. rewrite allWhiteSpace_app in E.
  apply andb_prop in E as [_ E]. cbn in E. discriminate.
Qed.

(** X27. The check of the generator page lets an address pass exactly
    when it includes [github.com] (such a text is never blank); this is
    weaker than the parser of the analyzer: every address the parser
    accepts passes the check, while an address without a slash passes
    the check whenever it includes [github.com] and is always refused by
    the parser. *)
Theorem urlProblem_weaker_than_parser (url : string) :
  (Generator.urlProblem url = None <-> Js.includes url "github.com" = true)
  /\ (forall parsed,
        parseGitHubUrl url = Js.Ok parsed -> Generator.urlProblem url = None)
  /\ (noSlash url ->
      parseGitHubUrl url = Js.Throw "Invalid GitHub URL format").
Proof.
  assert (Hiff : Generator.urlProblem url = None
                 <-> Js.includes url "github.com" = true).
  { unfold Generator.urlProblem. split.
    - destruct (Js.truthy (Js.trim url)); [|discriminate]. cbn.
      destruct (Js.includes url "github.com"); [reflexivity | discriminate].
    - intros H. now rewrite (includes_github_not_blank url H), H. }
  split; [exact Hiff|]. split.
  - intros parsed Hp. apply Hiff. unfold parseGitHubUrl in Hp.
    destruct (urlMatch url) as [m|] eqn:E; [|discriminate].
    destruct (UrlFacts.urlMatch_Some _ _ E) as (before & s & -> & Hs).
    destruct (UrlFacts.matchHere_Some _ _ Hs) as (after & -> & _).
    apply JsFacts.includes_true.
    exists before, ("/" +:+ group1 m +:+ "/" +:+ group2 m +:+ after).
    reflexivity.
  - intros Hno. unfold parseGitHubUrl.
    rewrite UrlFacts.urlMatch_None; [reflexivity|].
    intros (before & o & r & after & E & _).
    apply (Hno (before +:+ "github.com") (o +:+ "/" +:+ r +:+ after)).
    rewrite E. now rewrite <- !JsFacts.app_assoc.
Qed.

End PageFacts.

(** ** The further properties at sample inputs *)

Module ExtraWitnesses.

Import GitHubService OpenRouterService DocumentStore.

Lemma exports_do_not_collide_witness :
  NodePath.join "./uploads" ("doc-1" +:+ ".md")
  <> NodePath.join "./uploads" ("doc-1" +:+ ".html").
Proof.
  exact (proj1 (ExportExtras.exports_do_not_collide "./uploads"
                  (fun markdown => markdown) (fun _ => true)
                  (∅ : ExportService.Disk) "# One" "# Two" "doc-1"
                  eq_refl eq_refl)).
Defined.

Lemma parseGitHubUrl_leftmost_witness :
  parseGitHubUrl "https://github.com/octocat/Hello-World/tree/dev/src"
  = Js.Ok {| owner := "octocat"; repo := "Hello-World"; branch := "dev" |}.
Proof.
  refine (proj1 (UrlExtras.parseGitHubUrl_leftmost "https://" "octocat"
                   "Hello-World" "/tree/dev/src" _ _ _ _ _ _) "dev" _).
  - apply UrlExtras.noChar_includes; reflexivity.
  - discriminate.
  - discriminate.
  - apply UrlFacts.noSlash_includes; reflexivity.
  - apply UrlFacts.noSlash_includes; reflexivity.
  - right. now exists "tree/dev/src".
  - exists "/src". split; [reflexivity|]. split; [discriminate|].
    split; [apply UrlFacts.noSlash_includes; reflexivity|].
    right. now exists "src".
Defined.

Lemma parseGitHubUrl_repo_name_witness :
  parseGitHubUrl Examples.treeUrl
  = Js.Ok {| owner := "octocat"; repo := "Hello-World"; branch := "dev" |}
  /\ exists before name after,
      Examples.treeUrl
      = before +:+ "github.com/" +:+ "octocat" +:+ "/" +:+ name +:+ after
      /\ "Hello-World" = Js.replace name ".git" "".
Proof.
  split; [reflexivity|].
  destruct (UrlExtras.parseGitHubUrl_repo_name Examples.treeUrl
              {| owner := "octocat"; repo := "Hello-World"; branch := "dev" |}
              eq_refl)
    as (before & name & after & E & _ & _ & _ & Hr & _).
  exists before, name, after. split; [exact E | exact Hr].
Defined.

Lemma rails_from_config_ru_only_witness :
  fileFramework (Examples.file "config.ru") = Some "Rails"
  /\ Js.includes (Js.toLowerCase (name (Examples.file "config.ru")))
       "config.ru" = true.
Proof.
  split; [reflexivity|].
  exact (AnalyzerExtras.rails_from_config_ru_only
           (Examples.file "config.ru") eq_refl).
Defined.

Lemma fileTypes_keys_witness :
  fileTypes (analyzeRepository "octocat" "Hello-World"
               [ Examples.file "src/App.JSX" ]) !! ".jsx" = Some 1
  /\ Js.toLowerCase ".jsx" = ".jsx".
Proof.
  assert (H : fileTypes (analyzeRepository "octocat" "Hello-World"
                           [ Examples.file "src/App.JSX" ]) !! ".jsx"
              = Some 1) by (vm_compute; reflexivity).
  split; [exact H|].
  exact (proj1 (proj2 (AnalyzerExtras.fileTypes_keys _ _ _ _ _ H))).
Defined.

Lemma getRepoFiles_sorted_blobs_witness :
  Permutation
    (getRepoFiles Examples.pythonDeclared Examples.byteCompare
       "octocat" "Hello-World" "main")
    (map fileOfItem [ Examples.blob "index.js" ]).
Proof.
  exact (proj1 (RequestExtras.getRepoFiles_sorted_blobs
                  Examples.pythonDeclared Examples.byteCompare
                  "octocat" "Hello-World" "main" [ Examples.blob "index.js" ]
                  RequestExtras.byteCompare_total eq_refl)).
Defined.

Lemma getRepositoryData_consistent_witness :
  getRepositoryData Examples.pythonDeclared Examples.byteCompare
    Examples.noJson Examples.helloUrl = Js.Ok Samples.helloData
  /\ meta_url (metadata Samples.helloData) = Examples.helloUrl.
Proof.
  assert (H : getRepositoryData Examples.pythonDeclared Examples.byteCompare
                Examples.noJson Examples.helloUrl = Js.Ok Samples.helloData)
    by (vm_compute; reflexivity).
  split; [exact H|].
  exact (proj1 (proj2 (RequestExtras.getRepositoryData_consistent
                         _ _ _ _ _ H))).
Defined.

Lemma detectLanguage_last_extension_witness :
  detectLanguage ("src/index" +:+ "." +:+ "JS")
  = lookupLanguage languageMap (Js.toLowerCase "JS").
Proof.
  refine (proj1 (LanguageFacts.detectLanguage_last_extension
                   "src/index" "JS" _)).
  apply UrlExtras.noChar_includes; reflexivity.
Defined.

Lemma prompt_lists_fifty_files_witness :
  50 <= length Samples.fiftyFiles
  /\ formatFileStructure Examples.sizeInBytes
       (Some (Samples.fiftyFiles ++ Samples.oneMore))
     = Js.join Js.nl
         (map (fileLine Examples.sizeInBytes)
            (firstn 50 Samples.fiftyFiles)).
Proof.
  split; [exact (Nat.le_refl 50)|].
  exact (proj1 (ClientFacts.prompt_lists_fifty_files Examples.sizeInBytes
                  Examples.typeErrorMessage
                  Examples.upperCase Examples.largeNumber Samples.fiftyFiles
                  Samples.oneMore None None None (Some "markdown")
                  "professional" (Nat.le_refl 50))).
Defined.

Lemma generate_then_get_witness :
  generateRoute (serve initialStore []) Samples.sampleRequest
  = (Success (Samples.sampleDocument, Samples.sampleResult),
     Samples.oneDocument)
  /\ getRoute Samples.oneDocument (doc_id Samples.sampleDocument)
     = Success Samples.sampleDocument.
Proof.
  split; [reflexivity|].
  exact (proj1 (StoreFacts.generate_then_get [] Samples.sampleRequest
                  Samples.sampleDocument Samples.sampleResult
                  Samples.oneDocument eq_refl)).
Defined.

Lemma documents_are_kept_witness :
  getRoute Samples.oneDocument "mem_1" = Success Samples.sampleDocument
  /\ exists later,
      getRoute
        (serve Samples.oneDocument
           [ Export "mem_1" None 2000 2001; Generate Samples.sampleRequest ])
        "mem_1" = Success later
      /\ SameBut Samples.sampleDocument later.
Proof.
  split; [reflexivity|].
  exact (StoreFacts.documents_are_kept
           [ Export "mem_1" None 2000 2001; Generate Samples.sampleRequest ]
           Samples.oneDocument "mem_1" Samples.sampleDocument eq_refl).
Defined.

Lemma listRoute_page_witness :
  (1 <= 1)%Z /\ (1 <= 12)%Z
  /\ length (fst (listRoute Samples.oneDocument (Some 1%Z) (Some 12%Z)
                    None None)) <= Z.to_nat 12.
Proof.
  assert (H1 : (1 <= 1)%Z) by lia.
  assert (H2 : (1 <= 12)%Z) by lia.
  split; [exact H1|]. split; [exact H2|].
  exact (proj1 (proj2 (ListingFacts.listRoute_page Samples.oneDocument
                         1 12 None None H1 H2))).
Defined.

Lemma listRoute_total_ignores_filter_witness :
  List.Forall
    (fun document => matchesQuery None (Some "draft") document = false)
    (inMemoryDocuments Samples.oneDocument)
  /\ fst (listRoute Samples.oneDocument (Some 1%Z) (Some 12%Z) None
            (Some "draft")) = [].
Proof.
  assert (H1 : (1 <= 1)%Z) by lia.
  assert (H2 : (1 <= 12)%Z) by lia.
  assert (H : List.Forall
                (fun document =>
                   matchesQuery None (Some "draft") document = false)
                (inMemoryDocuments Samples.oneDocument))
    by (repeat constructor).
  split; [exact H|].
  exact (proj1 (ListingFacts.listRoute_total_ignores_filter
                  Samples.oneDocument 1 12 None (Some "draft") H1 H2 H)).
Defined.

Lemma listRoute_unfiltered_next_page_witness :
  (1 <= 1)%Z /\ (1 <= 12)%Z
  /\ (hasNextPage (snd (listRoute Samples.oneDocument (Some 1%Z)
                          (Some 12%Z) None None)) = true
      <-> (1 * 12
           < Z.of_nat (length (inMemoryDocuments Samples.oneDocument)))%Z).
Proof.
  assert (H1 : (1 <= 1)%Z) by lia.
  assert (H2 : (1 <= 12)%Z) by lia.
  split; [exact H1|]. split; [exact H2|].
  exact (proj2 (proj2 (ListingFacts.listRoute_unfiltered_next_page
                         Samples.oneDocument 1 12 H1 H2))).
Defined.

End ExtraWitnesses.
